(* ===== verification/_CoqProject ===== *)
-Q . S2P
Prelude.v
PyStr.v
Regex.v
CodeExtractor.v
SceneName.v
OsPath.v
Json.v
Runtime.v
PyLogic.v
Llm.v
Service.v
Responses.v
EventLoop.v
Cors.v
Session.v
Workers.v
PyList.v
Bubble.v
Scene.v
