(* ===== verification/Prelude.v ===== *)
(** * Verification of Manim-VidGen-BackEnd

    The repository is a small FastAPI service ([src/main.py]) that turns a
    natural-language prompt into a Manim animation, plus one scene that the
    service generated and saved ([src/video.py]).  This development models
    both files as Rocq definitions, line by line, and proves the properties
    that make them correct and the ones that show where they are not.

    ** The program and how its parts interact

    - [call_llm] (main.py 32-58) builds a two-message request for the
      Gemini model, reads [response.text], extracts the first fenced code
      block with [re.search] and [strip], and turns any exception into the
      sentinel string ["error: " + str(e)].
    - [generate] (main.py 61-96, [POST /generate]) reads the JSON body,
      rejects a falsy [prompt], calls [call_llm], rejects an output that
      contains ["error:"], finds the scene name with a second [re.search],
      overwrites [video.py], runs [manim -qm video.py <scene>] and answers
      with the process's stdout or stderr.  An outermost [except] turns any
      exception into a ["failed"] answer.
    - [ai_video_retrieve] (main.py 98-108, [GET /video]) derives
      [media/videos/video/720p30/<scene>.mp4], checks with
      [os.path.exists] that it exists, and serves it.  manim's output
      convention connects the two endpoints.
    - The module-level code (main.py 14-30) builds the application with
      Starlette's CORS middleware in front of the two routes, reads [.env]
      and fails at start when [GEMINI_API_KEY] is missing.
    - Both endpoints run under uvicorn's asyncio event loop.
    - [BubbleSortVisualization.construct] (video.py) bubble-sorts a list
      while it animates bars and labels.

    ** Files, and what each models

    - [Prelude] (this file): the notation scope [py_scope], the hint
      databases [pystr] and [pyrw], the tactics, Python exceptions
      ([py_exn], [py_result]), reachability [star], and the lemmas on
      strings and options that every component shares.
    - [PyStr]: [str.strip], the [in] operator, [str.isspace], and the
      classes [\s] and [\w] of [re].  Characters are [ascii] values read
      as the first 256 code points (Latin-1).
    - [Regex]: the fragment of Python's backtracking [re] engine that the
      two patterns use (literals, [?], greedy and lazy repetition of a
      class, one group), in continuation style, and [re.search] as
      "leftmost start that matches".
    - [CodeExtractor] (main.py 46-53) and [SceneName] (main.py 75-76): the
      two patterns, the code that uses them, and direct scanners proved
      equal to the engine's search.
    - [OsPath]: [os.path.exists] as CPython and POSIX define it.  The
      path is split at [/] and walked from the working directory; [..]
      goes to the parent, and a missing directory or a [NUL] gives
      [False].  Directories are implicit: one exists when a file lies below
      it.
    - [Json]: the JSON values [request.json()] yields, [dict.get] and
      Python truthiness.
    - [Runtime]: the [world] (files as a [gmap], console, trace of outbound
      calls), the state-and-exception monad [PyM] (Python keeps the effects
      made before an exception), and the typeclass [Backend] through which
      the code reaches the Gemini model and the subprocess.
    - [PyLogic]: correctness triples for [PyM]: [returns_with] (partial)
      and [answers_with] (total), with the rules for [return], sequencing,
      [if] and [try]/[except], and the tactic [py_wp].
    - [Llm]: [call_llm].  [Service]: [generate], [ai_video_retrieve],
      [startup], and the Prop class [ManimContract] for manim's output path.
    - [Responses]: the shapes of the answers of [generate] (spec section
      5) as an inductive predicate.
    - [EventLoop]: the event loop as a step relation [loop_step] that runs
      a pending request to completion.  [generate] awaits nothing after
      [request.json()], so this atomicity is the code's.
    - [Cors]: the stack main.py 14-21 builds: the configuration, Starlette's
      [CORSMiddleware] (preflight answers, headers added to the
      application's answers), FastAPI's router, and [serve], the whole
      application.
    - [Session]: the front end's three requests (preflight, [POST
      /generate], [GET /video]) through the whole stack.
    - [Workers]: several workers.  [gen_segment] cuts [generate] at its
      blocking calls and [worker_step] interleaves the segments.
    - [PyList]: list indexing with [IndexError], [for ... in range], and
      [py_result] as a stdpp monad.
    - [Bubble]: the loops of video.py 30-44 on the array alone, and a
      structural bubble sort they are proved to compute.
    - [Scene]: [construct].  The bars and labels are objects in a store
      that the lists [bars] and [labels] hold by reference, as in Python;
      [play] logs each call and applies its animations' final state.

    ** What the theorems show

    - The regex searches equal the direct scanners ([extract_code_spec],
      [resolve_scene_name_spec]), with the behaviour at fences, tags and
      class headers as corollaries.
    - Every path of [generate] is proved with its answer, files and
      trace: prompt missing, model failure, ["error:"] in the output,
      render failure, process error, bad body, and success.  Whatever the
      path, it calls the model at most once, writes only [video.py] and
      runs manim at most once, on the code just written
      ([generate_effects]).
    - [generate] always answers, with one of the shapes spec section 5
      lists ([generate_answer_schema]); [GET /video] answers the
      requested scene's file exactly when its path exists, and "video not
      found." otherwise ([video_retrieve_spec]).
    - With [ManimContract], a successful [generate] makes [GET /video]
      serve the scene it named.  The start-up check is an iff.
    - [GET /video] does not confine the scene name: a name
      [../../../../<path>] serves [<path>.mp4] from anywhere in the working
      tree ([video_path_traversal]); a name without [/] stays in the
      video directory ([video_path_confined]).
    - On one event loop every manim run sees the code its own request wrote.
    - Across workers, an interleaving exists in which manim renders one
      request's scene from the other's file ([workers_race]); the three
      segments the workers run compose back to [generate].
    - CORS:
      - a disallowed origin never receives [Access-Control-Allow-Origin];
      - a preflight is answered by the middleware alone;
      - every other request runs its handler whatever its origin, so the
        allow-list is no access control;
      - composed with the handlers and manim's output convention, the
        front end's session succeeds end to end and every answer is
        readable by its page ([front_end_session]).
    - video.py:
      - the loops sort ([bubble_sort_spec]);
      - the sort keeps every bar and label in step with [arr];
      - [construct] ends with the sorted picture;
      - it lasts [16 + 2(n-1) + 2n(n-1)] seconds plus two per inversion
        (104 s here, against the 23 s of its comments);
      - its first display shows every label at the centre;
      - the tuple swap exchanges exactly the two items and undoes itself
        ([swap_adjacent_roundtrip]).

    ** Bounds and modelling choices

    - There is no fuel: every recursion is structural.  The engine's
      repetitions recur on the remaining string.  The loops of video.py
      run over [seq].  [construct_duration] needs fewer than 10^9 items:
      the pass title "Pass: k" then has under 15 glyphs, so manim's
      [Write] lasts one second.
    - Integers are [Z], since Python's are unbounded.  Temperature 0.2 is
      the binary64 value as a primitive float.  Positions in [Scene] are
      quarter units, so every coordinate of the scene is an integer.

    ** What is not modelled

    - Of the HTTP stack, the application's own headers other than
      [content-type], and paths that match no route.
    - The HTTP framework's parsing and serialisation, beyond the body's
      JSON value and the response's content.
    - Symbolic links and permissions in path lookup.  An ancestor of the
      working directory is taken to exist however far [..] climbs.
    - The Gemini model and manim's rendering: they are abstract behind
      [Backend] and [ManimContract].
    - Of manim, [Scene] uses only its documented defaults: placement,
      [play] and [wait], and run times.  Colours are kept, and y
      coordinates are not.
*)

From Stdlib Require Import String Ascii List Bool Arith Lia.
Import ListNotations.

(** ** Notation scope of the development *)

Declare Scope py_scope.
Delimit Scope py_scope with py.

(** The first of two answers that succeeds: the backtracking choice of
    the regex engine and the [or] of the scanners.  A notation for the
    [match], so that the second answer is computed only when needed. *)
Notation "o1 <||> o2" := (match o1 with Some x => Some x | None => o2 end)
  (at level 50, left associativity) : py_scope.

Open Scope py_scope.

(** ** Hint databases *)

Create HintDb pystr discriminated.
Create Rewrite HintDb pyrw.

(** ** Tactics *)

Ltac inv H := inversion H; subst; clear H.

(** Case on the scrutinee of the first [match] or [if] of the goal,
    keeping its equation. *)
Ltac case_goal :=
  match goal with
  | |- context [match ?x with _ => _ end] =>
      let E := fresh "E" in destruct x eqn:E
  end.

(** Case on a boolean test of the code, turning it into the Prop it
    decides. *)
Ltac case_bool b :=
  let E := fresh "E" in destruct b eqn:E.

Local Open Scope string_scope.

(** ** Python exceptions *)

(** An exception object: its class name and the text [str(e)] gives. *)
Record py_exn := PyExn { exn_type : string; exn_msg : string }.

(** What a Python expression or statement evaluates to: a value, or an
    exception on its way up to the nearest [except]. *)
Inductive py_result (A : Type) : Type :=
| Ok (a : A)
| Raise (e : py_exn).

Arguments Ok {A} a.
Arguments Raise {A} e.

(** [AttributeError: 'NoneType' object has no attribute ...], the error
    of a method call on [None]. *)
Definition none_attribute_error (attr : string) : py_exn :=
  PyExn "AttributeError" ("'NoneType' object has no attribute '" ++ attr ++ "'").

(** ** Reachability *)

Section Star.
Context {A : Type} (R : A -> A -> Prop).

(** Zero or more steps of [R], extended on the right, so that an
    invariant of the states reachable from a start is proved by induction
    over the last step. *)
Inductive star : A -> A -> Prop :=
| star_refl a : star a a
| star_snoc a b c : star a b -> R b c -> star a c.

End Star.

(** [suffix_of s' s]: [s'] is what remains of [s] after some characters
    were consumed; the regex engine's positions are such suffixes. *)
Inductive suffix_of : string -> string -> Prop :=
| suffix_refl s : suffix_of s s
| suffix_cons c s' s : suffix_of s' s -> suffix_of s' (String c s).

#[export] Hint Constructors suffix_of : pystr.

(** ** Options *)

Lemma first_some_Some {A} (o1 o2 : option A) x :
  (o1 <||> o2) = Some x <-> o1 = Some x \/ (o1 = None /\ o2 = Some x).
Proof. destruct o1; simpl; intuition congruence. Qed.

Lemma first_some_None {A} (o1 o2 : option A) :
  (o1 <||> o2) = None <-> o1 = None /\ o2 = None.
Proof. destruct o1; simpl; intuition congruence. Qed.

Lemma first_some_None_r {A} (o : option A) : (o <||> None) = o.
Proof. destruct o; reflexivity. Qed.

(** ** Strings *)

Lemma append_String c s1 s2 : String c s1 ++ s2 = String c (s1 ++ s2).
Proof. reflexivity. Qed.

Lemma append_Empty s : "" ++ s = s.
Proof. reflexivity. Qed.

Lemma append_Empty_r s : s ++ "" = s.
Proof. induction s as [|c s IH]; simpl; congruence. Qed.

Lemma append_assoc s1 s2 s3 : s1 ++ (s2 ++ s3) = (s1 ++ s2) ++ s3.
Proof. induction s1 as [|c s1 IH]; simpl; congruence. Qed.

Lemma length_append s1 s2 : String.length (s1 ++ s2) = String.length s1 + String.length s2.
Proof. induction s1 as [|c s1 IH]; simpl; lia. Qed.

Lemma append_inj_l s s1 s2 : s ++ s1 = s ++ s2 -> s1 = s2.
Proof. induction s as [|c s IH]; simpl; [auto | intros H; inv H; auto]. Qed.

#[export] Hint Rewrite append_String append_Empty append_Empty_r : pyrw.
#[export] Hint Resolve append_inj_l : pystr.

(** A string literal with a suffix appended unfolds into its characters. *)
Ltac str_simpl := repeat (rewrite ?append_String, ?append_Empty in *); simpl in *.

Lemma suffix_of_length s' s : suffix_of s' s -> String.length s' <= String.length s.
Proof. induction 1; simpl; lia. Qed.

Lemma suffix_of_trans s1 s2 s3 : suffix_of s1 s2 -> suffix_of s2 s3 -> suffix_of s1 s3.
Proof. intros H12 H23. induction H23; eauto with pystr. Qed.

Lemma suffix_of_app p s : suffix_of s (p ++ s).
Proof. induction p; simpl; eauto with pystr. Qed.

Lemma suffix_of_split s' s : suffix_of s' s -> exists p, s = p ++ s'.
Proof.
  induction 1 as [s|c s' s _ [p ->]].
  - exists ""; reflexivity.
  - exists (String c p); reflexivity.
Qed.

#[export] Hint Resolve suffix_of_trans suffix_of_app : pystr.

(** ** Reachability *)

Section StarLemmas.
Context {A : Type} (R : A -> A -> Prop).

Lemma star_one a b : R a b -> star R a b.
Proof. intros H. eapply star_snoc; [apply star_refl | exact H]. Qed.

Lemma star_trans a b c : star R a b -> star R b c -> star R a c.
Proof.
  intros Hab Hbc. revert Hab. induction Hbc as [x|x y z _ IH Hyz]; intros Hab; [exact Hab|].
  exact (star_snoc R a y z (IH Hab) Hyz).
Qed.

End StarLemmas.

#[export] Hint Constructors star : pystr.
