(* ===== verification/PyStr.v ===== *)
(** * Python [str] operations used by main.py

    [str.strip()] (main.py 51), the [in] operator on strings (main.py 72),
    and the two character classes of [re] for [str] patterns: [\s]
    (main.py 75) and [\w] (main.py 75).  A character is an [ascii] value,
    read as a code point below 256 (Latin-1); on these code points
    [str.isspace] and [\s] are the same predicate ([Py_UNICODE_ISSPACE]),
    and [\w] is [str.isalnum] or ['_'] ([SRE_UNI_IS_WORD]). *)

From Stdlib Require Import String Ascii List Bool Arith Lia.
From S2P Require Import Prelude.
Import ListNotations.

(** ** Character classes *)

Definition code (c : ascii) : nat := nat_of_ascii c.

(** [str.isspace] on one character: tab to carriage return (9-13), the
    four separators 28-31, space (32), NEL (133) and NBSP (160). *)
Definition py_isspace (c : ascii) : bool :=
  let n := code c in
  ((9 <=? n) && (n <=? 13)) || ((28 <=? n) && (n <=? 32)) || (n =? 133) || (n =? 160).

(** [\w] in a [str] pattern: [str.isalnum()] or the underscore.  Below
    256 the alphanumeric code points are the ASCII digits and letters, the
    feminine and masculine ordinals (170, 186), the superscript digits
    (178, 179, 185), micro (181), the vulgar fractions (188-190) and the
    Latin-1 letters (192-255 except the signs 215 and 247). *)
Definition re_word (c : ascii) : bool :=
  let n := code c in
  ((48 <=? n) && (n <=? 57)) || ((65 <=? n) && (n <=? 90)) || (n =? 95)
  || ((97 <=? n) && (n <=? 122))
  || (n =? 170) || (n =? 178) || (n =? 179) || (n =? 181) || (n =? 185)
  || (n =? 186) || ((188 <=? n) && (n <=? 190))
  || ((192 <=? n) && (n <=? 255) && negb (n =? 215) && negb (n =? 247)).

(** [\s] in a [str] pattern. *)
Definition re_space (c : ascii) : bool := py_isspace c.

Local Open Scope string_scope.

(** Every character of the string is white space. *)
Fixpoint all_space (s : string) : bool :=
  match s with
  | "" => true
  | String c s' => py_isspace c && all_space s'
  end.

(** ** [str.strip()] *)

Fixpoint py_lstrip (s : string) : string :=
  match s with
  | "" => ""
  | String c s' => if py_isspace c then py_lstrip s' else s
  end.

Fixpoint py_rstrip (s : string) : string :=
  match s with
  | "" => ""
  | String c s' =>
      match py_rstrip s' with
      | "" => if py_isspace c then "" else String c ""
      | r => String c r
      end
  end.

(** CPython's [strip] skips white space from the left, then from the
    right, and returns the slice between. *)
Definition py_strip (s : string) : string := py_rstrip (py_lstrip s).

(** ** The [in] operator: [needle in haystack] *)

Fixpoint py_contains (haystack needle : string) : bool :=
  match haystack with
  | "" => String.prefix needle ""
  | String _ rest => String.prefix needle haystack || py_contains rest needle
  end.

(** [s.split(sep)] for a one-character separator: the pieces between
    the separators, empty ones included. *)
Fixpoint py_split (sep : ascii) (s : string) : list string :=
  match s with
  | "" => [""]
  | String c s' =>
      if Ascii.eqb c sep then "" :: py_split sep s'
      else match py_split sep s' with
           | [] => [String c ""]
           | w :: ws => String c w :: ws
           end
  end.

(** [sep.join(l)]. *)
Fixpoint py_join (sep : string) (l : list string) : string :=
  match l with
  | [] => ""
  | [x] => x
  | x :: l' => x ++ sep ++ py_join sep l'
  end.

(** The one-character string ["\n"]. *)
Definition newline : string := String "010"%char "".
(** ** Lemmas *)

Lemma all_space_app s1 s2 : all_space (s1 ++ s2) = all_space s1 && all_space s2.
Proof. induction s1 as [|c s1 IH]; simpl; [reflexivity|]. rewrite IH, andb_assoc. reflexivity. Qed.

#[export] Hint Rewrite all_space_app : pyrw.

Lemma prefix_spec p s : String.prefix p s = true <-> exists r, s = p ++ r.
Proof.
  revert s; induction p as [|c p IH]; intros [|d s]; simpl.
  - split; [exists ""; reflexivity | reflexivity].
  - split; [exists (String d s); reflexivity | reflexivity].
  - split; [discriminate | intros [r Hr]; discriminate].
  - destruct (ascii_dec c d) as [->|Hne].
    + rewrite IH. split; intros [r Hr]; exists r; congruence.
    + split; [discriminate | intros [r Hr]; congruence].
Qed.

Lemma prefix_app p r : String.prefix p (p ++ r) = true.
Proof. apply prefix_spec. eauto. Qed.

#[export] Hint Resolve prefix_app : pystr.

(** [needle in haystack] holds exactly when the haystack splits around
    an occurrence of the needle. *)
Lemma py_contains_spec h n :
  py_contains h n = true <-> exists a b, h = a ++ n ++ b.
Proof.
  induction h as [|c h IH]; cbn [py_contains].
  - rewrite prefix_spec. split.
    + intros [r Hr]. exists "", r. exact Hr.
    + intros [a [b H]]. destruct a; [exists b; exact H | discriminate].
  - rewrite orb_true_iff, prefix_spec, IH. split.
    + intros [[r Hr] | [a [b Hab]]].
      * exists "", r. exact Hr.
      * exists (String c a), b. rewrite Hab. reflexivity.
    + intros [[|d a] [b H]]; [left; exists b; exact H|].
      right. simpl in H. inv H. eauto.
Qed.

Lemma py_contains_app_l h1 h2 n : py_contains h1 n = true -> py_contains (h1 ++ h2) n = true.
Proof.
  rewrite !py_contains_spec. intros [a [b ->]]. exists a, (b ++ h2).
  rewrite <- !append_assoc. reflexivity.
Qed.

Lemma py_contains_app_r h1 h2 n : py_contains h2 n = true -> py_contains (h1 ++ h2) n = true.
Proof.
  rewrite !py_contains_spec. intros [a [b ->]]. exists (h1 ++ a), b.
  rewrite <- !append_assoc. reflexivity.
Qed.

#[export] Hint Resolve py_contains_app_l py_contains_app_r : pystr.

Lemma py_lstrip_app s q :
  py_lstrip (s ++ q) = if all_space s then py_lstrip q else py_lstrip s ++ q.
Proof.
  induction s as [|c s IH]; simpl; [reflexivity|].
  destruct (py_isspace c); simpl; [exact IH | reflexivity].
Qed.

Lemma py_rstrip_all_space q : all_space q = true -> py_rstrip q = "".
Proof.
  induction q as [|c q IH]; simpl; [reflexivity|].
  intros [Hc Hq]%andb_true_iff. rewrite IH, Hc by exact Hq. reflexivity.
Qed.

Lemma py_rstrip_app_space s q : all_space q = true -> py_rstrip (s ++ q) = py_rstrip s.
Proof.
  intros Hq. induction s as [|c s IH]; simpl; [apply py_rstrip_all_space, Hq|].
  rewrite IH. reflexivity.
Qed.

Lemma py_lstrip_all_space s : all_space s = true -> py_lstrip s = "".
Proof.
  intros H. rewrite <- (append_Empty_r s), py_lstrip_app, H. reflexivity.
Qed.

(** White space around a text does not change what [strip] returns. *)
Lemma py_strip_around p s q :
  all_space p = true -> all_space q = true -> py_strip (p ++ s ++ q) = py_strip s.
Proof.
  intros Hp Hq. unfold py_strip. rewrite py_lstrip_app, Hp, py_lstrip_app.
  destruct (all_space s) eqn:Hs.
  - rewrite (py_lstrip_all_space s Hs), (py_lstrip_all_space q Hq). reflexivity.
  - apply py_rstrip_app_space, Hq.
Qed.

(** [strip] removes exactly a white-space prefix and a white-space suffix. *)
Lemma py_lstrip_split s : exists p, s = p ++ py_lstrip s /\ all_space p = true.
Proof.
  induction s as [|c s [p [Hs Hp]]]; simpl; [exists ""; auto|].
  destruct (py_isspace c) eqn:Hc.
  - exists (String c p). simpl. rewrite Hc, Hp. split; [congruence | reflexivity].
  - exists "". auto.
Qed.

Lemma py_rstrip_split s : exists q, s = py_rstrip s ++ q /\ all_space q = true.
Proof.
  induction s as [|c s [q [Hs Hq]]]; simpl; [exists ""; auto|].
  destruct (py_rstrip s) as [|d r] eqn:Hr; simpl in Hs.
  - destruct (py_isspace c) eqn:Hc.
    + exists (String c q). simpl. rewrite Hc, Hq. split; [congruence | reflexivity].
    + exists q. simpl. split; [congruence | exact Hq].
  - exists q. simpl. split; [congruence | exact Hq].
Qed.

Lemma py_lstrip_head s c r : py_lstrip s = String c r -> py_isspace c = false.
Proof.
  induction s as [|d s IH]; simpl; [discriminate|].
  destruct (py_isspace d) eqn:Hd; [exact IH | intros H; inv H; exact Hd].
Qed.

