(* ===== verification/Regex.v ===== *)
(** * The fragment of Python's [re] engine used by main.py

    main.py calls [re.search] twice, on the patterns
    [r"```(?:python)?\n(.*?)```"] with [re.DOTALL] (line 49) and
    [r"class\s+(\w+)\s*\("] (line 75).  Python's engine ([sre]) is a
    backtracking matcher: alternatives are tried in a fixed order and the
    first overall success wins; [re.search] tries the start positions from
    left to right and returns the first one that matches.

    The matcher [m] is written in continuation style: [m r s g k] matches
    [r] at the front of [s] with group 1 currently [g], and hands every
    possible end position, in sre's order of preference, to the
    continuation [k] until one of them succeeds.  Greedy repetition offers
    the longest run first, lazy repetition the shortest, and [?] offers the
    match of its operand before the empty match. *)

From Stdlib Require Import String Ascii List Bool Arith Lia.
From S2P Require Import Prelude PyStr.
Import ListNotations.

(** ** Syntax *)

(** The character classes of the two patterns: [.], [\s] and [\w]. *)
Inductive char_class :=
| Dot
| Space
| Word.

(** Regular expressions of the fragment.  [Rep cc greedy] is [cc*]
    ([greedy = true]) or [cc*?] ([greedy = false]); [cc+] is [cc cc*].
    [Group] is the capturing group 1 (the patterns have one). *)
Inductive regex :=
| Lit (lit : string)
| Cls (cc : char_class)
| Seq (r1 r2 : regex)
| Opt (r : regex)
| Rep (cc : char_class) (greedy : bool)
| Group (r : regex).

(** A match object, as far as the code reads it: [group(1)] and the
    position where the match starts. *)
Record re_match := ReMatch { group1 : option string; match_start : nat }.

Local Open Scope string_scope.

(** The text consumed between position [s] and a later position [s']. *)
Definition consumed (s s' : string) : string :=
  substring 0 (String.length s - String.length s') s.

Section Matcher.

(** [re.DOTALL]: whether [.] also matches a newline. *)
Variable dotall : bool.

Definition class_matches (cc : char_class) (c : ascii) : bool :=
  match cc with
  | Dot => dotall || negb (Ascii.eqb c "010"%char)
  | Space => re_space c
  | Word => re_word c
  end.

Fixpoint match_lit {R} (lit s : string) (k : string -> option R) : option R :=
  match lit, s with
  | "", _ => k s
  | String l lit', String c s' => if ascii_dec l c then match_lit lit' s' k else None
  | String _ _, "" => None
  end.

Fixpoint rep_greedy {R} (cc : char_class) (s : string) (k : string -> option R) : option R :=
  match s with
  | String c s' => if class_matches cc c then (rep_greedy cc s' k <||> k s) else k s
  | "" => k ""
  end.

Fixpoint rep_lazy {R} (cc : char_class) (s : string) (k : string -> option R) : option R :=
  k s <||>
  match s with
  | String c s' => if class_matches cc c then rep_lazy cc s' k else None
  | "" => None
  end.

Fixpoint m {R} (r : regex) (s : string) (g : option string)
    (k : string -> option string -> option R) : option R :=
  match r with
  | Lit lit => match_lit lit s (fun s' => k s' g)
  | Cls cc =>
      match s with
      | String c s' => if class_matches cc c then k s' g else None
      | "" => None
      end
  | Seq r1 r2 => m r1 s g (fun s' g' => m r2 s' g' k)
  | Opt r1 => m r1 s g k <||> k s g
  | Rep cc true => rep_greedy cc s (fun s' => k s' g)
  | Rep cc false => rep_lazy cc s (fun s' => k s' g)
  | Group r1 => m r1 s g (fun s' _ => k s' (Some (consumed s s')))
  end.

(** [re.search]: the first start position, from the left, at which the
    pattern matches; group 1 starts unset. *)
Fixpoint search_from (r : regex) (s : string) (pos : nat) : option re_match :=
  m r s None (fun _ g => Some (ReMatch g pos)) <||>
  match s with
  | "" => None
  | String _ s' => search_from r s' (S pos)
  end.

Definition re_search (r : regex) (s : string) : option re_match := search_from r s 0.

End Matcher.

(** ** Direct scanning helpers *)

(** The longest prefix of [s] whose characters satisfy [p], and the rest. *)
Fixpoint span (p : ascii -> bool) (s : string) : string * string :=
  match s with
  | String c s' =>
      if p c then let (run, rest) := span p s' in (String c run, rest) else ("", s)
  | "" => ("", "")
  end.

(** The rest of [s] after the literal [lit], when [s] starts with it. *)
Fixpoint strip_prefix (lit s : string) : option string :=
  match lit, s with
  | "", _ => Some s
  | String l lit', String c s' => if ascii_dec l c then strip_prefix lit' s' else None
  | String _ _, "" => None
  end.

(** Lazy repetition of [.] under [re.DOTALL] tries every end position,
    shortest first. *)
Fixpoint first_end {R} (s : string) (k : string -> option R) : option R :=
  k s <||>
  match s with
  | String _ s' => first_end s' k
  | "" => None
  end.

(** Every character of [s] satisfies [p]. *)
Fixpoint all_chars (p : ascii -> bool) (s : string) : bool :=
  match s with
  | "" => true
  | String c s' => p c && all_chars p s'
  end.

(** [s] does not start with a character satisfying [p]. *)
Definition head_not (p : ascii -> bool) (s : string) : bool :=
  match s with
  | "" => true
  | String c _ => negb (p c)
  end.

(** ** Lemmas on the engine *)

Lemma consumed_app p s : consumed (p ++ s) s = p.
Proof.
  unfold consumed. rewrite length_append, Nat.add_sub.
  induction p as [|c p IH]; simpl; [destruct s; reflexivity | congruence].
Qed.

Lemma match_lit_strip {R} lit s (k : string -> option R) :
  match_lit lit s k = match strip_prefix lit s with Some s' => k s' | None => None end.
Proof.
  revert s; induction lit as [|l lit IH]; intros [|c s]; simpl; auto.
  destruct (ascii_dec l c); auto.
Qed.

Lemma strip_prefix_app lit s : strip_prefix lit (lit ++ s) = Some s.
Proof. induction lit as [|l lit IH]; simpl; [reflexivity|]. destruct (ascii_dec l l); congruence. Qed.

Lemma strip_prefix_Some lit s s' : strip_prefix lit s = Some s' -> s = lit ++ s'.
Proof.
  revert s; induction lit as [|l lit IH]; intros [|c s]; simpl; try congruence.
  destruct (ascii_dec l c) as [->|]; [intros H; rewrite (IH s H); reflexivity | discriminate].
Qed.

#[export] Hint Rewrite consumed_app strip_prefix_app : pyrw.

Lemma span_app p s : fst (span p s) ++ snd (span p s) = s.
Proof.
  induction s as [|c s IH]; simpl; [reflexivity|].
  destruct (p c); [destruct (span p s) as [run rest]; simpl in *; congruence | reflexivity].
Qed.

Lemma span_rest_head p s c r : snd (span p s) = String c r -> p c = false.
Proof.
  induction s as [|d s IH]; simpl; [discriminate|].
  destruct (p d) eqn:Hd; [destruct (span p s) as [run rest]; exact IH | intros H; inv H; exact Hd].
Qed.

(** Greedy repetition backtracks into shorter runs only when the rest of
    the pattern fails on the longest one.  When the rest of the pattern
    cannot start with a character of the class, only the longest run
    counts. *)
Lemma rep_greedy_longest {R} dotall cc s (k : string -> option R) :
  (forall c r, class_matches dotall cc c = true -> k (String c r) = None) ->
  rep_greedy dotall cc s k = k (snd (span (class_matches dotall cc) s)).
Proof.
  intros Hk. induction s as [|c s IH]; simpl; [reflexivity|].
  destruct (class_matches dotall cc c) eqn:Hc.
  - rewrite IH, (Hk c s Hc). destruct (span _ s) as [run rest]; simpl.
    destruct (k rest); reflexivity.
  - reflexivity.
Qed.

Lemma rep_lazy_dotall {R} s (k : string -> option R) :
  rep_lazy true Dot s k = first_end s k.
Proof. induction s as [|c s IH]; simpl; [reflexivity | rewrite IH; reflexivity]. Qed.

(** [\s] and [\w] are disjoint, and neither contains the parenthesis. *)
Lemma space_not_word c : re_space c = true -> re_word c = false.
Proof.
  destruct c as [[] [] [] [] [] [] [] []]; vm_compute; congruence.
Qed.

Lemma paren_not_space : re_space "("%char = false.
Proof. reflexivity. Qed.

Lemma paren_not_word : re_word "("%char = false.
Proof. reflexivity. Qed.

#[export] Hint Resolve space_not_word : pystr.

Lemma strip_prefix_lit_app a b s :
  strip_prefix (a ++ b) s = match strip_prefix a s with Some s' => strip_prefix b s' | None => None end.
Proof.
  revert s; induction a as [|l a IH]; intros s; simpl; [reflexivity|].
  destruct s as [|c s]; [reflexivity|]. destruct (ascii_dec l c); auto.
Qed.

(** A literal that matches at the front of [a ++ b], where [a] is at
    least as long as the literal, already matches at the front of [a]. *)
Lemma strip_prefix_long lit a b s' :
  String.length lit <= String.length a -> strip_prefix lit (a ++ b) = Some s' ->
  exists r, a = lit ++ r.
Proof.
  revert a; induction lit as [|l lit IH]; intros [|c a]; simpl.
  - intros _ _. exists "". reflexivity.
  - intros _ _. exists (String c a). reflexivity.
  - intros Hlen. exfalso. lia.
  - intros Hlen. destruct (ascii_dec l c) as [->|]; [|discriminate].
    intros H. destruct (IH a ltac:(lia) H) as [r ->]. exists r. reflexivity.
Qed.

Lemma match_lit_head_ne {R} l lit c s (k : string -> option R) :
  l <> c -> match_lit (String l lit) (String c s) k = None.
Proof. intros H. simpl. destruct (ascii_dec l c); [contradiction | reflexivity]. Qed.

Lemma consumed_span p s : consumed s (snd (span p s)) = fst (span p s).
Proof. pose proof (consumed_app (fst (span p s)) (snd (span p s))) as H. rewrite span_app in H. exact H. Qed.

Lemma span_cons_true p c s :
  p c = true -> span p (String c s) = (String c (fst (span p s)), snd (span p s)).
Proof. intros H. simpl. rewrite H. destruct (span p s); reflexivity. Qed.

Lemma span_cons_false p c s : p c = false -> span p (String c s) = ("", String c s).
Proof. intros H. simpl. rewrite H. reflexivity. Qed.

Lemma class_space d : class_matches d Space = re_space.
Proof. reflexivity. Qed.

Lemma class_word d : class_matches d Word = re_word.
Proof. reflexivity. Qed.

Lemma word_not_space c : re_word c = true -> re_space c = false.
Proof.
  intros H. destruct (re_space c) eqn:E; [|reflexivity].
  rewrite (space_not_word c E) in H. discriminate.
Qed.

#[export] Hint Rewrite class_space class_word consumed_span : pyrw.

Lemma all_space_chars s : all_space s = all_chars re_space s.
Proof. induction s as [|c s IH]; simpl; [reflexivity | rewrite IH; reflexivity]. Qed.

Lemma span_exact p run rest :
  all_chars p run = true -> head_not p rest = true -> span p (run ++ rest) = (run, rest).
Proof.
  intros Hrun Hrest. induction run as [|c run IH]; simpl in *.
  - destruct rest as [|c rest]; [reflexivity|]. simpl in Hrest.
    apply span_cons_false. destruct (p c); [discriminate | reflexivity].
  - apply andb_true_iff in Hrun as [Hc Hrun]. rewrite Hc, IH by exact Hrun. reflexivity.
Qed.
