(* ===== verification/CodeExtractor.v ===== *)
(** * Code extractor (main.py 46-53)

    [call_llm] searches the model's answer for the first fenced block
    [r"```(?:python)?\n(.*?)```"] under [re.DOTALL] and keeps its inner
    text, stripped; when there is none it returns the empty string.  This
    file holds the pattern, the extraction as the code writes it
    ([extract_code], through the engine of [Regex]), and a direct scanner
    [find_fence] that says what the engine computes on this pattern: the
    leftmost opening fence with the tag [python] or no tag, followed by a
    newline, and the text up to the next three backticks. *)

From Stdlib Require Import String Ascii List Bool Arith Lia.
From S2P Require Import Prelude PyStr Regex.
Import ListNotations.
Local Open Scope string_scope.

(** ** The code *)

(** main.py 49: [r"```(?:python)?\n(.*?)```"]. *)
Definition fence_pattern : regex :=
  Seq (Lit "```")
    (Seq (Opt (Lit "python"))
       (Seq (Lit newline)
          (Seq (Group (Rep Dot false)) (Lit "```")))).

(** main.py 49-53: [re.search(..., re.DOTALL)], then [group(1).strip()]
    or [""].  A match whose group 1 is unset would make [.strip()] raise;
    [extract_code_spec] shows it cannot happen. *)
Definition extract_code (generated_text : string) : py_result string :=
  match re_search true fence_pattern generated_text with
  | Some mt =>
      match group1 mt with
      | Some g => Ok (py_strip g)
      | None => Raise (none_attribute_error "strip")
      end
  | None => Ok ""
  end.

(** ** A direct scanner *)

(** The text before the first three backticks of [s]. *)
Fixpoint until_fence (s : string) : option string :=
  match strip_prefix "```" s with
  | Some _ => Some ""
  | None =>
      match s with
      | "" => None
      | String c s' => option_map (String c) (until_fence s')
      end
  end.

Definition after_newline (s : string) : option string :=
  match strip_prefix newline s with
  | Some r => until_fence r
  | None => None
  end.

(** A fenced block that opens at the front of [s]: three backticks, the
    tag [python] if present, a newline, and the body. *)
Definition fence_at (s : string) : option string :=
  match strip_prefix "```" s with
  | Some s1 =>
      match strip_prefix "python" s1 with
      | Some s2 => after_newline s2
      | None => after_newline s1
      end
  | None => None
  end.

(** The body of the leftmost fenced block. *)
Fixpoint find_fence (s : string) : option string :=
  fence_at s <||>
  match s with
  | "" => None
  | String _ s' => find_fence s'
  end.

(** What the extraction returns according to the scanner. *)
Definition scanned_code (text : string) : string :=
  match find_fence text with Some b => py_strip b | None => "" end.

Definition sample_answer : string :=
  "Here is the scene:" ++ newline ++ "```python" ++ newline ++ "from manim import *"
  ++ newline ++ "class Demo(Scene):" ++ newline ++ "    pass" ++ newline ++ "```"
  ++ newline ++ "Enjoy.".

(** ** The engine on the fence pattern *)

(** Lazy [.*?] followed by three backticks stops at the first three
    backticks. *)
Lemma first_end_until_fence {R} (F : string -> R) p s :
  first_end s (fun s4 => match_lit "```" s4 (fun _ => Some (F (consumed (p ++ s) s4)))) =
  option_map (fun b => F (p ++ b)) (until_fence s).
Proof.
  revert p; induction s as [|c s IH]; intros p; [reflexivity|].
  cbn [first_end until_fence]. rewrite match_lit_strip.
  destruct (strip_prefix "```" (String c s)).
  - simpl. rewrite consumed_app, append_Empty_r. reflexivity.
  - replace (p ++ String c s) with ((p ++ String c "") ++ s) by (rewrite <- append_assoc; reflexivity).
    rewrite IH. destruct (until_fence s); simpl; [|reflexivity].
    rewrite <- append_assoc. reflexivity.
Qed.

Lemma after_newline_engine {R} (F : string -> R) s2 :
  match_lit newline s2 (fun s3 => rep_lazy true Dot s3
     (fun s4 => match_lit "```" s4 (fun _ => Some (F (consumed s3 s4))))) =
  option_map F (after_newline s2).
Proof.
  rewrite match_lit_strip. unfold after_newline.
  destruct (strip_prefix newline s2) as [s3|]; [|reflexivity].
  rewrite rep_lazy_dotall. apply (first_end_until_fence F "" s3).
Qed.

(** At one start position, the engine finds the body [fence_at] finds:
    when the tag [python] is present and the rest fails, the fallback
    without the tag fails too, since a newline is not a [p]. *)
Lemma m_fence {R} s g (f : option string -> R) :
  m true fence_pattern s g (fun _ g' => Some (f g')) = option_map (fun b => f (Some b)) (fence_at s).
Proof.
  unfold fence_pattern, fence_at. cbn [m]. rewrite match_lit_strip.
  destruct (strip_prefix "```" s) as [s1|]; [|reflexivity].
  rewrite match_lit_strip.
  destruct (strip_prefix "python" s1) as [s2|] eqn:Hp.
  - apply strip_prefix_Some in Hp. subst s1.
    rewrite (after_newline_engine (fun b => f (Some b)) s2).
    rewrite match_lit_strip. simpl. apply first_some_None_r.
  - apply (after_newline_engine (fun b => f (Some b)) s1).
Qed.

Lemma search_fence s pos :
  option_map group1 (search_from true fence_pattern s pos) = option_map Some (find_fence s).
Proof.
  revert pos; induction s as [|c s IH]; intros pos; cbn [search_from find_fence];
    rewrite m_fence; destruct (fence_at _); simpl; auto.
Qed.

(** ** Lemmas on the scanner *)

Lemma contains_prefix s r n : s = n ++ r -> py_contains s n = true.
Proof. intros ->. apply py_contains_spec. exists "", r. reflexivity. Qed.

Lemma contains_cons_not_tick c s :
  c <> "`"%char -> py_contains (String c s) "```" = py_contains s "```".
Proof.
  intros Hc. cbn [py_contains]. destruct (String.prefix "```" (String c s)) eqn:E; [|reflexivity].
  apply prefix_spec in E. destruct E as [r E]. simpl in E. inv E. congruence.
Qed.

Lemma find_fence_cons c s : find_fence (String c s) = (fence_at (String c s) <||> find_fence s).
Proof. reflexivity. Qed.

Lemma fence_at_starts s b : fence_at s = Some b -> exists r, s = "```" ++ r.
Proof.
  unfold fence_at. destruct (strip_prefix "```" s) eqn:E; [|discriminate].
  intros _. apply strip_prefix_Some in E. eauto.
Qed.

Lemma until_fence_cons c s :
  strip_prefix "```" (String c s) = None -> until_fence (String c s) = option_map (String c) (until_fence s).
Proof. intros H. cbn [until_fence]. rewrite H. reflexivity. Qed.

(** The first three backticks after the body close it. *)
Lemma until_fence_first body post :
  py_contains (body ++ "``") "```" = false ->
  until_fence (body ++ "```" ++ post) = Some body.
Proof.
  induction body as [|c b IH]; intros Hb; [reflexivity|].
  rewrite append_String, until_fence_cons.
  - rewrite IH; [reflexivity|].
    destruct (py_contains (b ++ "``") "```") eqn:Hc; [|reflexivity].
    rewrite <- Hb. symmetry. apply (py_contains_app_r (String c "")). exact Hc.
  - rewrite <- append_String.
    destruct (strip_prefix "```" (String c b ++ "```" ++ post)) eqn:E; [exfalso|reflexivity].
    rewrite append_assoc in E.
    replace ((String c b ++ "```") ++ post) with ((String c b ++ "``") ++ ("`" ++ post)) in E
      by (rewrite <- !append_assoc; reflexivity).
    apply strip_prefix_long in E; [|rewrite length_append; simpl; lia].
    destruct E as [r E]. rewrite (contains_prefix _ _ _ E) in Hb. discriminate.
Qed.

(** An opening fence can start inside text without three backticks only
    on the backticks that open the real fence, and then a fourth backtick
    follows, which is neither the tag nor a newline. *)
Lemma find_fence_skip pre x :
  py_contains pre "```" = false -> find_fence (pre ++ "```" ++ x) = find_fence ("```" ++ x).
Proof.
  induction pre as [|c p IH]; intros Hpre; [reflexivity|].
  rewrite append_String, find_fence_cons, <- append_String.
  replace (fence_at (String c p ++ "```" ++ x)) with (@None string).
  - apply IH. destruct (py_contains p "```") eqn:Hc; [|reflexivity].
    rewrite <- Hpre. symmetry. apply (py_contains_app_r (String c "")). exact Hc.
  - unfold fence_at. destruct (strip_prefix "```" (String c p ++ "```" ++ x)) as [s1|] eqn:E;
      [|reflexivity].
    apply strip_prefix_Some in E.
    destruct p as [|c2 [|c3 p']]; simpl in E; inv E; try reflexivity.
    rewrite (contains_prefix _ p' "```") in Hpre; [discriminate | reflexivity].
Qed.

Lemma find_fence_none s : py_contains s "```" = false -> find_fence s = None.
Proof.
  induction s as [|c s IH]; intros H; [reflexivity|].
  cbn [find_fence]. destruct (fence_at (String c s)) eqn:E.
  - apply fence_at_starts in E. destruct E as [r E].
    rewrite (contains_prefix _ _ _ E) in H. discriminate.
  - apply IH. destruct (py_contains s "```") eqn:Hc; [|reflexivity].
    rewrite <- H. symmetry. apply (py_contains_app_r (String c "")). exact Hc.
Qed.

(** Three backticks at the very end open no block. *)
Lemma find_fence_unterminated s :
  py_contains (s ++ "``") "```" = false -> find_fence (s ++ "```") = None.
Proof.
  induction s as [|c s IH]; intros H; [reflexivity|].
  rewrite append_String, find_fence_cons, <- append_String.
  destruct (fence_at (String c s ++ "```")) eqn:E.
  - exfalso. apply fence_at_starts in E. destruct E as [r E].
    replace (String c s ++ "```") with ((String c s ++ "``") ++ "`") in E
      by (rewrite <- append_assoc; reflexivity).
    assert (Hs : strip_prefix "```" ((String c s ++ "``") ++ "`") = Some r)
      by (rewrite E; apply strip_prefix_app).
    apply strip_prefix_long in Hs; [|rewrite length_append; simpl; lia].
    destruct Hs as [r' Hs]. rewrite (contains_prefix _ _ _ Hs) in H. discriminate.
  - apply IH. destruct (py_contains (s ++ "``") "```") eqn:Hc; [|reflexivity].
    rewrite <- H. symmetry. apply (py_contains_app_r (String c "")). exact Hc.
Qed.

(** ** Properties of the extractor *)

Lemma extract_code_found text b :
  find_fence text = Some b -> extract_code text = Ok (py_strip b).
Proof.
  intros Hf. unfold extract_code, re_search. pose proof (search_fence text 0) as H.
  rewrite Hf in H. destruct (search_from true fence_pattern text 0) as [[g st]|];
    simpl in H; inv H; reflexivity.
Qed.

Lemma extract_code_not_found text :
  find_fence text = None -> extract_code text = Ok "".
Proof.
  intros Hf. unfold extract_code, re_search. pose proof (search_fence text 0) as H.
  rewrite Hf in H. destruct (search_from true fence_pattern text 0); simpl in H; [discriminate | reflexivity].
Qed.

Lemma extract_code_ok text : extract_code text = Ok (scanned_code text).
Proof.
  unfold scanned_code. destruct (find_fence text) eqn:Hf;
    [apply extract_code_found | apply extract_code_not_found]; exact Hf.
Qed.

Lemma fence_at_header tag body post :
  tag = "python" \/ tag = "" ->
  py_contains (body ++ "``") "```" = false ->
  fence_at ("```" ++ tag ++ newline ++ body ++ "```" ++ post) = Some body.
Proof.
  intros [-> | ->] Hb; unfold fence_at; rewrite strip_prefix_app;
    [rewrite strip_prefix_app | ]; unfold after_newline; simpl;
    apply until_fence_first, Hb.
Qed.

(** C12. A response that holds a fenced block, tagged [python] or not,
    with no three backticks before it and none inside its body, yields
    exactly the stripped body, whatever surrounds the block. *)
Theorem extract_fenced pre tag body post :
  tag = "python" \/ tag = "" ->
  py_contains pre "```" = false ->
  py_contains (body ++ "``") "```" = false ->
  extract_code (pre ++ "```" ++ tag ++ newline ++ body ++ "```" ++ post) = Ok (py_strip body).
Proof.
  intros Htag Hpre Hb. apply extract_code_found. rewrite find_fence_skip by exact Hpre.
  destruct ("```" ++ tag ++ newline ++ body ++ "```" ++ post) as [|c s] eqn:E;
    [discriminate|].
  rewrite find_fence_cons, <- E, fence_at_header by assumption. reflexivity.
Qed.

Lemma extract_fenced_witness :
  py_contains ("Here is the scene:" ++ newline) "```" = false /\
  py_contains (("from manim import *" ++ newline ++ "class Demo(Scene):" ++ newline
                 ++ "    pass" ++ newline) ++ "``") "```" = false /\
  extract_code sample_answer =
    Ok (py_strip ("from manim import *" ++ newline ++ "class Demo(Scene):" ++ newline
                  ++ "    pass" ++ newline)).
Proof.
  split; [reflexivity|]. split; [reflexivity|].
  apply (extract_fenced ("Here is the scene:" ++ newline) "python"
           ("from manim import *" ++ newline ++ "class Demo(Scene):" ++ newline
            ++ "    pass" ++ newline) (newline ++ "Enjoy."));
    [left; reflexivity | reflexivity | reflexivity].
Defined.

(** C13. A response without three backticks yields the empty string: an
    answer that follows the instruction of main.py 40 and does not wrap
    its code in a fence is thrown away. *)
Theorem extract_no_fence text :
  py_contains text "```" = false -> extract_code text = Ok "".
Proof. intros H. apply extract_code_not_found, find_fence_none, H. Qed.

Lemma extract_no_fence_witness :
  py_contains ("from manim import *" ++ newline ++ "class Demo(Scene): pass") "```" = false /\
  extract_code ("from manim import *" ++ newline ++ "class Demo(Scene): pass") = Ok "".
Proof. split; [reflexivity | apply extract_no_fence; reflexivity]. Defined.

(** C19. Any language tag other than [python], for example [py], makes
    the block unrecognised: a lone block tagged [py] yields the empty
    string, although the spec reads the tag as an optional language hint. *)
Theorem extract_other_tag body :
  py_contains (body ++ "``") "```" = false ->
  extract_code ("```py" ++ newline ++ body ++ "```") = Ok "".
Proof.
  intros Hb. apply extract_code_not_found.
  replace (find_fence ("```py" ++ newline ++ body ++ "```"))
    with (find_fence (("py" ++ newline ++ body) ++ "```")) by reflexivity.
  apply find_fence_unterminated.
  rewrite <- !append_assoc, !append_String, !contains_cons_not_tick by discriminate.
  exact Hb.
Qed.

Lemma extract_other_tag_witness :
  py_contains (("print(1)" ++ newline) ++ "``") "```" = false /\
  extract_code ("```py" ++ newline ++ ("print(1)" ++ newline) ++ "```") = Ok "".
Proof. split; [reflexivity | apply extract_other_tag; reflexivity]. Defined.

(** C2. The extraction of main.py 49-53 never raises, and returns the
    stripped body of the leftmost fenced block that [find_fence] finds,
    or the empty string when there is none: the backtracking search
    agrees with the direct scanner. *)
Theorem extract_code_spec text :
  extract_code text = Ok (match find_fence text with Some b => py_strip b | None => "" end).
Proof.
  destruct (find_fence text) eqn:Hf;
    [apply extract_code_found | apply extract_code_not_found]; exact Hf.
Qed.
