(* ===== verification/SceneName.v ===== *)
(** * Scene-name resolver (main.py 75-76)

    [generate] searches the extracted code for [r"class\s+(\w+)\s*\("]
    and takes group 1, or the literal ["Generated_Scene"] when there is no
    match.  This file holds the pattern, the resolution as the code writes
    it ([resolve_scene_name], through the engine of [Regex]) and a direct
    scanner [find_class]: the leftmost [class], one or more white-space
    characters, the longest run of word characters, optional white space
    and an opening parenthesis.  Nothing asks [class] to start a word or a
    line. *)

From Stdlib Require Import String Ascii List Bool Arith Lia.
From S2P Require Import Prelude PyStr Regex.
Import ListNotations.
Local Open Scope string_scope.

(** ** The code *)

(** main.py 75: [r"class\s+(\w+)\s*\("]. *)
Definition scene_pattern : regex :=
  Seq (Lit "class")
    (Seq (Cls Space)
       (Seq (Rep Space true)
          (Seq (Group (Seq (Cls Word) (Rep Word true)))
             (Seq (Rep Space true) (Lit "("))))).

(** main.py 76: the default name. *)
Definition default_scene_name : string := "Generated_Scene".

(** main.py 75-76: [scene_match.group(1) if scene_match else
    "Generated_Scene"].  The result is a Python value that may be [None]
    (an unset group); [resolve_scene_name_spec] shows it never is. *)
Definition resolve_scene_name (llm_output : string) : option string :=
  match re_search false scene_pattern llm_output with
  | Some mt => group1 mt
  | None => Some default_scene_name
  end.

(** ** A direct scanner *)

(** A class header at the front of [s]: its name. *)
Definition class_header_at (s : string) : option string :=
  match strip_prefix "class" s with
  | Some s1 =>
      let ws := span re_space s1 in
      let nm := span re_word (snd ws) in
      match fst ws, fst nm, strip_prefix "(" (snd (span re_space (snd nm))) with
      | String _ _, String _ _, Some _ => Some (fst nm)
      | _, _, _ => None
      end
  | None => None
  end.

(** The name in the leftmost class header. *)
Fixpoint find_class (s : string) : option string :=
  class_header_at s <||>
  match s with
  | "" => None
  | String _ s' => find_class s'
  end.

(** What the resolution returns according to the scanner. *)
Definition scanned_name (s : string) : string :=
  match find_class s with Some n => n | None => default_scene_name end.

(** ** The engine on the class pattern *)

(** At one start position the engine finds the name [class_header_at]
    finds.  The three greedy repetitions never backtrack: what follows
    each of them cannot start with a character of its class ([\s] and
    [\w] are disjoint, and [(] is in neither). *)
Lemma m_scene {R} s g (f : option string -> R) :
  m false scene_pattern s g (fun _ g' => Some (f g')) =
  option_map (fun n => f (Some n)) (class_header_at s).
Proof.
  unfold scene_pattern, class_header_at. cbn [m]. rewrite match_lit_strip.
  destruct (strip_prefix "class" s) as [s1|]; [|reflexivity].
  destruct s1 as [|c s1]; [reflexivity|].
  rewrite class_space.
  destruct (re_space c) eqn:Hc; [|rewrite span_cons_false by exact Hc; reflexivity].
  rewrite rep_greedy_longest, class_space.
  2:{ intros d r Hd. rewrite class_space in Hd. simpl. rewrite (space_not_word d Hd). reflexivity. }
  rewrite span_cons_true by exact Hc. cbn [fst snd].
  remember (snd (span re_space s1)) as s2 eqn:E2. clear E2.
  destruct s2 as [|d s2]; [reflexivity|].
  rewrite class_word.
  destruct (re_word d) eqn:Hd; [|rewrite span_cons_false by exact Hd; reflexivity].
  rewrite rep_greedy_longest, class_word.
  2:{ intros e r He. rewrite class_word in He. cbn [rep_greedy class_matches].
      rewrite (word_not_space e He). apply match_lit_head_ne.
      intros <-. rewrite paren_not_word in He. discriminate. }
  rewrite rep_greedy_longest, class_space.
  2:{ intros e r He. rewrite class_space in He. apply match_lit_head_ne.
      intros <-. rewrite paren_not_space in He. discriminate. }
  rewrite span_cons_true by exact Hd. cbn [fst snd].
  rewrite match_lit_strip.
  destruct (strip_prefix "(" (snd (span re_space (snd (span re_word s2))))); [|reflexivity].
  pose proof (consumed_span re_word (String d s2)) as Hcons.
  rewrite span_cons_true in Hcons by exact Hd. cbn [fst snd] in Hcons.
  simpl. rewrite Hcons. reflexivity.
Qed.

Lemma search_class s pos :
  option_map group1 (search_from false scene_pattern s pos) = option_map Some (find_class s).
Proof.
  revert pos; induction s as [|c s IH]; intros pos; cbn [search_from find_class];
    rewrite m_scene; destruct (class_header_at _); simpl; auto.
Qed.

Lemma find_class_cons c s : find_class (String c s) = (class_header_at (String c s) <||> find_class s).
Proof. reflexivity. Qed.

Lemma class_header_at_starts s n : class_header_at s = Some n -> exists r, s = "class" ++ r.
Proof.
  unfold class_header_at. destruct (strip_prefix "class" s) eqn:E; [|discriminate].
  intros _. apply strip_prefix_Some in E. eauto.
Qed.

Lemma span_fst_all p s : all_chars p (fst (span p s)) = true.
Proof.
  induction s as [|c s IH]; [reflexivity|]. cbn.
  destruct (p c) eqn:Hc; [|reflexivity]. destruct (span p s) as [run rest]. cbn in *. rewrite Hc. exact IH.
Qed.

(** The resolved name is made of word characters. *)
Lemma scanned_name_word s : all_chars re_word (scanned_name s) = true.
Proof.
  unfold scanned_name. destruct (find_class s) as [n|] eqn:Hf; [|reflexivity].
  revert Hf. induction s as [|c s IH]; [discriminate|]. rewrite find_class_cons.
  destruct (class_header_at (String c s)) as [n'|] eqn:Hh; [|exact IH]. cbn. intros [= <-].
  revert Hh. unfold class_header_at. destruct (strip_prefix "class" (String c s)) as [s1|]; [|discriminate].
  cbv zeta. repeat case_goal; try discriminate. intros [= <-].
  match goal with H : fst (span re_word ?x) = _ |- _ => rewrite <- H end. apply span_fst_all.
Qed.

Lemma contains_front s r n : s = n ++ r -> py_contains s n = true.
Proof. intros ->. apply py_contains_spec. exists "", r. reflexivity. Qed.

(** ["class"] overlaps no shifted copy of itself, so a header cannot
    start inside text that does not contain ["class"]. *)
Lemma find_class_skip pre x :
  py_contains pre "class" = false -> find_class (pre ++ "class" ++ x) = find_class ("class" ++ x).
Proof.
  induction pre as [|c p IH]; intros Hpre; [reflexivity|].
  rewrite append_String, find_class_cons, <- append_String.
  replace (class_header_at (String c p ++ "class" ++ x)) with (@None string).
  - apply IH. destruct (py_contains p "class") eqn:Hc; [|reflexivity].
    rewrite <- Hpre. symmetry. apply (py_contains_app_r (String c "")). exact Hc.
  - destruct (class_header_at (String c p ++ "class" ++ x)) eqn:E; [|reflexivity].
    apply class_header_at_starts in E. destruct E as [r E].
    destruct p as [|c2 [|c3 [|c4 [|c5 p']]]]; simpl in E; inv E.
    rewrite (contains_front _ p' "class") in Hpre; [discriminate | reflexivity].
Qed.

Lemma find_class_none s : py_contains s "class" = false -> find_class s = None.
Proof.
  induction s as [|c s IH]; intros H; [reflexivity|].
  rewrite find_class_cons. destruct (class_header_at (String c s)) eqn:E.
  - apply class_header_at_starts in E. destruct E as [r E].
    rewrite (contains_front _ _ _ E) in H. discriminate.
  - apply IH. destruct (py_contains s "class") eqn:Hc; [|reflexivity].
    rewrite <- H. symmetry. apply (py_contains_app_r (String c "")). exact Hc.
Qed.

(** ** Properties of the resolver *)

Lemma resolve_found s n :
  find_class s = Some n -> resolve_scene_name s = Some n.
Proof.
  intros Hf. unfold resolve_scene_name, re_search. pose proof (search_class s 0) as H.
  rewrite Hf in H. destruct (search_from false scene_pattern s 0) as [[g st]|];
    simpl in H; inv H; reflexivity.
Qed.

Lemma resolve_not_found s :
  find_class s = None -> resolve_scene_name s = Some default_scene_name.
Proof.
  intros Hf. unfold resolve_scene_name, re_search. pose proof (search_class s 0) as H.
  rewrite Hf in H. destruct (search_from false scene_pattern s 0); simpl in H; [discriminate | reflexivity].
Qed.

Lemma class_header_exact ws name ws' rest :
  ws <> "" -> all_space ws = true ->
  name <> "" -> all_chars re_word name = true ->
  all_space ws' = true ->
  class_header_at ("class" ++ ws ++ name ++ ws' ++ "(" ++ rest) = Some name.
Proof.
  intros Hws Hws1 Hn Hn1 Hws'. rewrite all_space_chars in Hws1, Hws'.
  unfold class_header_at. rewrite strip_prefix_app.
  destruct name as [|d n]; [contradiction|].
  assert (Hd : re_word d = true) by (simpl in Hn1; apply andb_true_iff in Hn1; tauto).
  rewrite span_exact by (exact Hws1 || (simpl; rewrite (word_not_space d Hd); reflexivity)).
  cbn [fst snd]. rewrite span_exact.
  2:{ exact Hn1. }
  2:{ destruct ws' as [|e w]; [reflexivity|]. simpl in Hws' |- *.
      apply andb_true_iff in Hws' as [He _]. rewrite (space_not_word e He). reflexivity. }
  cbn [fst snd]. rewrite span_exact by (exact Hws' || reflexivity).
  cbn [fst snd]. rewrite strip_prefix_app.
  destruct ws; [contradiction | reflexivity].
Qed.

(** C14. Text holding a class header [class <ws> Name <ws'> (], with no
    ["class"] before it, resolves to [Name]: the longest run of word
    characters after the keyword, whatever follows the parenthesis. *)
Theorem resolve_class_header pre ws name ws' rest :
  py_contains pre "class" = false ->
  ws <> "" -> all_space ws = true ->
  name <> "" -> all_chars re_word name = true ->
  all_space ws' = true ->
  resolve_scene_name (pre ++ "class" ++ ws ++ name ++ ws' ++ "(" ++ rest) = Some name.
Proof.
  intros Hpre Hws Hws1 Hn Hn1 Hws'.
  apply resolve_found. rewrite find_class_skip by exact Hpre.
  destruct ("class" ++ ws ++ name ++ ws' ++ "(" ++ rest) as [|c s] eqn:E; [discriminate|].
  rewrite find_class_cons, <- E, class_header_exact by assumption. reflexivity.
Qed.

Lemma resolve_class_header_witness :
  py_contains ("from manim import *" ++ newline) "class" = false /\
  resolve_scene_name (("from manim import *" ++ newline) ++ "class" ++ " " ++ "Foo" ++ ""
                      ++ "(" ++ "Scene):" ++ newline ++ "    pass") = Some "Foo".
Proof.
  split; [reflexivity|].
  apply resolve_class_header; (reflexivity || discriminate).
Defined.

(** C15. Text without the word ["class"] resolves to the default
    ["Generated_Scene"]. *)
Theorem resolve_no_class s :
  py_contains s "class" = false -> resolve_scene_name s = Some default_scene_name.
Proof. intros H. apply resolve_not_found, find_class_none, H. Qed.

Lemma resolve_no_class_witness :
  py_contains "print(1)" "class" = false /\ resolve_scene_name "print(1)" = Some "Generated_Scene".
Proof. split; [reflexivity | apply resolve_no_class; reflexivity]. Defined.

(** A header inside a comment wins over the real declaration below it:
    the comment [# A class diagram (UML)] names the scene [diagram]. *)
Lemma resolve_comment_first :
  resolve_scene_name ("# A class diagram (UML)" ++ newline ++ "class Main(Scene):" ++ newline
                      ++ "    pass") = Some "diagram".
Proof. reflexivity. Qed.

(** C3. The resolution of main.py 75-76 is never Python's [None], and is
    the name in the leftmost class header that [find_class] finds, or
    ["Generated_Scene"] when there is none: the backtracking search agrees
    with the direct scanner. *)
Theorem resolve_scene_name_spec s :
  resolve_scene_name s =
  Some (match find_class s with Some n => n | None => default_scene_name end).
Proof.
  destruct (find_class s) eqn:Hf; [apply resolve_found | apply resolve_not_found]; exact Hf.
Qed.

Lemma resolve_scene_name_ok s : resolve_scene_name s = Some (scanned_name s).
Proof.
  unfold scanned_name. destruct (find_class s) eqn:Hf;
    [apply resolve_found | apply resolve_not_found]; exact Hf.
Qed.
