(* ===== verification/OsPath.v ===== *)
(** * [os.path.exists]: how a path names a file of the working tree

    [GET /video] (main.py 103) asks [os.path.exists(video_path)] of a path
    built from the query parameter.  CPython's [genericpath.exists] is
    [try: os.stat(path) except (OSError, ValueError): return False;
    return True]: a [NUL] character raises [ValueError], the empty path
    and a missing component raise [FileNotFoundError], a component looked
    up below a regular file raises [NotADirectoryError].

    The files of the world are a finite map from normalised paths relative
    to the working directory ("video.py", "media/videos/...") to their
    contents; a path above the working directory is normalised with
    leading [..] components, an absolute one with a leading [/].  A
    directory is not stored: it exists when a file lies below it, and the
    working directory, its ancestors and the root always exist.

    [resolve] is the kernel's lookup: the path is split at [/] and walked
    component by component from the working directory (or the root); every
    component is looked up in the directory reached so far, which must
    exist; [""] and [.] stay, [..] goes to the parent (the root is its own
    parent).  Symbolic links and permissions are not modelled, and an
    ancestor of the working directory is taken to exist however many [..]
    lead to it (the working directory is deeper than any path climbs). *)

From Stdlib Require Import String Ascii List Bool Arith Lia.
From stdpp Require Import base list gmap strings.
From S2P Require Import Prelude PyStr Regex.
Import ListNotations.
Local Open Scope string_scope.

Definition nul : ascii := Ascii.ascii_of_nat 0.
Definition slash : ascii := "/"%char.

(** [a] does not occur in [s]. *)
Definition no_char (a : ascii) (s : string) : bool :=
  all_chars (fun c => negb (Ascii.eqb c a)) s.

(** [p.split("/")]: the components of a path, empty ones included. *)
Abbreviation split_path := (py_split slash).

(** ["/".join(cs)]. *)
Abbreviation join_path := (py_join "/").

(** A component that names an entry: not empty, not [.] or [..], without
    [/] or [NUL]. *)
Definition plain (c : string) : bool :=
  negb (String.eqb c "") && negb (String.eqb c ".") && negb (String.eqb c "..")
  && no_char slash c && no_char nul c.

(** A resolved path: absolute or relative, the number of [..] above the
    working directory, and the components below, innermost first. *)
Record rpath := RPath { rp_abs : bool; rp_ups : nat; rp_rev : list string }.

(** The relative path with components [cs] below the working directory. *)
Definition rel (cs : list string) : rpath := RPath false 0 (reverse cs).

(** The key of a resolved path in the file map. *)
Definition key_of (r : rpath) : string :=
  (if rp_abs r then "/" else "") +:+ join_path (replicate (rp_ups r) ".." ++ reverse (rp_rev r)).

Definition keys (fs : gmap string string) : list string := map fst (map_to_list fs).

(** A directory: the working directory, an ancestor, the root, or a path
    some file lies below. *)
Definition is_dir (fs : gmap string string) (r : rpath) : bool :=
  match rp_rev r with
  | [] => true
  | _ :: _ => existsb (String.prefix (key_of r +:+ "/")) (keys fs)
  end.

Definition is_file (fs : gmap string string) (r : rpath) : bool :=
  match rp_rev r with
  | [] => false
  | _ :: _ => bool_decide (is_Some (fs !! key_of r))
  end.

(** [os.stat] succeeds on the resolved path. *)
Definition exists_at (fs : gmap string string) (r : rpath) : bool :=
  is_file fs r || is_dir fs r.

(** Looking up one component in the directory [r]. *)
Definition step (r : rpath) (c : string) : rpath :=
  if String.eqb c "" || String.eqb c "." then r
  else if String.eqb c ".." then
    match rp_rev r with
    | _ :: t => RPath (rp_abs r) (rp_ups r) t
    | [] => if rp_abs r then r else RPath false (S (rp_ups r)) []
    end
  else RPath (rp_abs r) (rp_ups r) (c :: rp_rev r).

(** The walk fails ([ENOENT] or [ENOTDIR]) when a component is looked up
    in something that is not a directory. *)
Fixpoint walk (fs : gmap string string) (r : rpath) (cs : list string) : option rpath :=
  match cs with
  | [] => Some r
  | c :: cs' => if is_dir fs r then walk fs (step r c) cs' else None
  end.

(** The lookup of a whole path; [None] is the [OSError] or [ValueError]
    that [os.path.exists] turns into [False]. *)
Definition resolve (fs : gmap string string) (p : string) : option rpath :=
  if negb (no_char nul p) then None
  else match p with
       | "" => None
       | String c p' =>
           if Ascii.eqb c slash then walk fs (RPath true 0 []) (split_path p')
           else walk fs (RPath false 0 []) (split_path p)
       end.

(** [os.path.exists(p)]. *)
Definition os_path_exists (fs : gmap string string) (p : string) : bool :=
  match resolve fs p with Some r => exists_at fs r | None => false end.

(** Some file lies below the directory [d]. *)
Definition under (fs : gmap string string) (d : string) : Prop :=
  exists t v, fs !! (d +:+ "/" +:+ t) = Some v.

(** ** Lemmas *)

Lemma join_cons2 c d ds : join_path (c :: d :: ds) = c +:+ "/" +:+ join_path (d :: ds).
Proof. reflexivity. Qed.

Lemma no_char_app a s t : no_char a (s +:+ t) = no_char a s && no_char a t.
Proof.
  unfold no_char. induction s as [|c s IH]; [reflexivity|].
  rewrite append_String. cbn [all_chars]. rewrite IH. apply andb_assoc.
Qed.

Lemma all_chars_impl (p q : ascii -> bool) s :
  (forall c, p c = true -> q c = true) -> all_chars p s = true -> all_chars q s = true.
Proof.
  intros Hpq. induction s as [|c s IH]; [reflexivity|]. cbn.
  rewrite !andb_true_iff. intros [Hc Hs]. auto.
Qed.

(** A name of word characters holds no [/] and no [NUL]. *)
Lemma word_no_char s :
  all_chars re_word s = true -> no_char slash s = true /\ no_char nul s = true.
Proof. intros H. split; (eapply all_chars_impl; [|exact H]); intros c; destruct c as [[] [] [] [] [] [] [] []]; cbv; congruence. Qed.

Lemma split_path_not_nil p : split_path p <> [].
Proof.
  induction p as [|c p IH]; cbn; [discriminate|].
  destruct (Ascii.eqb c slash); [discriminate|]. destruct (split_path p); discriminate.
Qed.

Lemma split_path_app c s w ws :
  no_char slash c = true -> split_path s = w :: ws -> split_path (c +:+ s) = (c +:+ w) :: ws.
Proof.
  intros Hc Hs. induction c as [|a c IH]; [exact Hs|].
  cbn in Hc. apply andb_true_iff in Hc as [Ha Hc]. apply negb_true_iff in Ha.
  rewrite !append_String. cbn. rewrite Ha, (IH Hc). reflexivity.
Qed.

(** Splitting undoes joining components without [/]. *)
Lemma split_join cs :
  Forall (fun c => no_char slash c = true) cs -> cs <> [] -> split_path (join_path cs) = cs.
Proof.
  induction 1 as [|c cs Hc Hcs IH]; [congruence|]. intros _.
  destruct cs as [|d ds].
  - cbn [py_join]. rewrite <- (append_Empty_r c) at 1.
    rewrite (split_path_app c "" "" []) by auto. rewrite append_Empty_r. reflexivity.
  - rewrite join_cons2, (split_path_app c _ "" (d :: ds)), append_Empty_r; [reflexivity|exact Hc|].
    change ("/" +:+ join_path (d :: ds)) with (String slash (join_path (d :: ds))).
    cbn [py_split]. rewrite IH by discriminate. reflexivity.
Qed.

Lemma join_app l1 l2 :
  l1 <> [] -> l2 <> [] -> join_path (l1 ++ l2) = join_path l1 +:+ "/" +:+ join_path l2.
Proof.
  intros H1 H2. induction l1 as [|c l1 IH]; [congruence|].
  destruct l1 as [|c' l1]; [destruct l2; [congruence | reflexivity]|].
  cbn [app] in *. rewrite !join_cons2, IH by discriminate. rewrite <- !append_assoc. reflexivity.
Qed.

Lemma join_snoc l x y : join_path (l ++ [x]) +:+ y = join_path (l ++ [x +:+ y]).
Proof.
  induction l as [|c l IH]; [reflexivity|].
  destruct l as [|c' l]; cbn [app] in *; rewrite !join_cons2, <- !append_assoc; [reflexivity|].
  rewrite IH. reflexivity.
Qed.

Lemma no_char_join a cs :
  no_char a "/" = true -> Forall (fun c => no_char a c = true) cs -> no_char a (join_path cs) = true.
Proof.
  intros Hs. induction 1 as [|c cs Hc Hcs IH]; [reflexivity|].
  destruct cs as [|d ds]; [exact Hc|].
  rewrite join_cons2, !no_char_app, Hc, Hs, IH. reflexivity.
Qed.

Lemma key_of_rel cs : key_of (rel cs) = join_path cs.
Proof. unfold key_of, rel. cbn [rp_abs rp_ups rp_rev replicate app]. rewrite reverse_involutive. reflexivity. Qed.

Lemma rel_nil : rel [] = RPath false 0 [].
Proof. reflexivity. Qed.

Lemma rel_rev_cons cs : cs <> [] -> exists c t, rp_rev (rel cs) = c :: t.
Proof.
  intros Hne. unfold rel. cbn [rp_rev]. destruct (reverse cs) as [|c t] eqn:E; [|eauto].
  apply (f_equal reverse) in E. rewrite reverse_involutive in E. subst. done.
Qed.

Lemma is_dir_rel fs cs : cs <> [] -> is_dir fs (rel cs) = true <-> under fs (join_path cs).
Proof.
  intros Hne. unfold is_dir. destruct (rel_rev_cons cs Hne) as (c0 & t0 & ->).
  rewrite existsb_exists, key_of_rel. split.
  - intros (k & Hk & Hp). apply prefix_spec in Hp as [t ->]. unfold keys in Hk.
    apply in_map_iff in Hk as ([k' v] & Hk' & Hin). cbn in Hk'. subst k'.
    exists t, v. rewrite append_assoc. apply elem_of_map_to_list, list_elem_of_In, Hin.
  - intros (t & v & Hv). exists (join_path cs +:+ "/" +:+ t). split.
    + apply in_map_iff. exists (join_path cs +:+ "/" +:+ t, v). split; [reflexivity|].
      apply list_elem_of_In, elem_of_map_to_list, Hv.
    + rewrite append_assoc. apply prefix_app.
Qed.

Lemma is_file_rel fs cs : cs <> [] -> is_file fs (rel cs) = true <-> is_Some (fs !! join_path cs).
Proof.
  intros Hne. unfold is_file. rewrite <- key_of_rel. destruct (rel_rev_cons cs Hne) as (c0 & t0 & ->).
  apply bool_decide_eq_true.
Qed.

(** Whatever exists at [p/c/...] makes [p] a directory. *)
Lemma exists_parent fs p c q :
  p <> [] -> exists_at fs (rel (p ++ c :: q)) = true -> is_dir fs (rel p) = true.
Proof.
  intros Hp Hex. assert (Hne : (p ++ c :: q)%list <> []) by (destruct p; discriminate).
  apply (is_dir_rel fs p Hp). unfold exists_at in Hex. apply orb_true_iff in Hex.
  rewrite (is_file_rel fs _ Hne), (is_dir_rel fs _ Hne), (join_app p (c :: q)) in Hex by (done || discriminate).
  destruct Hex as [[v Hv] | (t & v & Hv)]; [by exists (join_path (c :: q)), v|].
  exists (join_path (c :: q) +:+ "/" +:+ t), v. rewrite <- !append_assoc in Hv. exact Hv.
Qed.

Lemma is_dir_exists fs r : is_dir fs r = true -> exists_at fs r = true.
Proof. intros H. unfold exists_at. rewrite H. apply orb_true_r. Qed.

Lemma step_plain p c : plain c = true -> step (rel p) c = rel (p ++ [c]).
Proof.
  unfold plain. rewrite !andb_true_iff, !negb_true_iff. intros [[[[H1 H2] H3] _] _].
  unfold step. rewrite H1, H2, H3. cbn. unfold rel. rewrite reverse_snoc. reflexivity.
Qed.

Lemma step_up p c : step (rel (p ++ [c])) ".." = rel p.
Proof. unfold step, rel. cbn [String.eqb orb rp_rev]. rewrite reverse_snoc. reflexivity. Qed.

Lemma walk_app fs r l1 l2 :
  walk fs r (l1 ++ l2) = match walk fs r l1 with Some r' => walk fs r' l2 | None => None end.
Proof.
  revert r. induction l1 as [|c l1 IH]; intros r; [reflexivity|].
  cbn. destruct (is_dir fs r); [apply IH | reflexivity].
Qed.

(** Walking plain components down to something that exists reaches it. *)
Lemma walk_plain fs cs pre :
  Forall (fun c => plain c = true) cs -> exists_at fs (rel (pre ++ cs)) = true ->
  walk fs (rel pre) cs = Some (rel (pre ++ cs)).
Proof.
  intros Hcs. revert pre. induction Hcs as [|c cs Hc Hcs IH]; intros pre Hex.
  { rewrite app_nil_r. reflexivity. }
  cbn [walk]. replace (is_dir fs (rel pre)) with true.
  2:{ destruct pre as [|x xs]; [reflexivity|]. symmetry. eapply exists_parent; [discriminate | exact Hex]. }
  rewrite step_plain by exact Hc.
  replace (pre ++ c :: cs)%list with ((pre ++ [c]) ++ cs)%list in * by (rewrite <- app_assoc; reflexivity).
  apply IH, Hex.
Qed.

(** Plain components only ever lead below the starting directory. *)
Lemma walk_plain_any fs cs pre :
  Forall (fun c => plain c = true) cs ->
  walk fs (rel pre) cs = None \/ walk fs (rel pre) cs = Some (rel (pre ++ cs)).
Proof.
  intros Hcs. revert pre. induction Hcs as [|c cs Hc Hcs IH]; intros pre.
  { right. rewrite app_nil_r. reflexivity. }
  cbn [walk]. destruct (is_dir fs (rel pre)); [|left; reflexivity].
  rewrite step_plain by exact Hc.
  replace (pre ++ c :: cs)%list with ((pre ++ [c]) ++ cs)%list by (rewrite <- app_assoc; reflexivity).
  apply IH.
Qed.

(** From a directory, one [..] per component climbs back to the working
    directory. *)
Lemma walk_up fs p :
  is_dir fs (rel p) = true -> walk fs (rel p) (replicate (length p) "..") = Some (rel []).
Proof.
  induction p as [|c p IH] using rev_ind; intros Hd; [reflexivity|].
  rewrite length_app, Nat.add_1_r. cbn [replicate walk]. rewrite Hd, step_up.
  apply IH. destruct p as [|x xs]; [reflexivity|].
  eapply (exists_parent fs _ c []); [discriminate | by apply is_dir_exists].
Qed.

(** A relative path is walked from the working directory. *)
Lemma resolve_join fs c cs :
  c <> "" -> Forall (fun c => no_char slash c = true /\ no_char nul c = true) (c :: cs) ->
  resolve fs (join_path (c :: cs)) = walk fs (rel []) (c :: cs).
Proof.
  intros He Hcs.
  assert (Hnul : no_char nul (join_path (c :: cs)) = true).
  { apply no_char_join; [reflexivity|]. eapply Forall_impl; [exact Hcs|]. intros x [_ Hx]; exact Hx. }
  assert (Hj : exists r, join_path (c :: cs) = c +:+ r).
  { destruct cs; [exists ""; by rewrite append_Empty_r | eexists; apply join_cons2]. }
  destruct Hj as [r Hj].
  unfold resolve. rewrite Hnul. cbn [negb].
  inversion Hcs as [|? ? [Hs _] _]; subst. destruct c as [|a c]; [congruence|].
  cbn in Hs. apply andb_true_iff in Hs as [Ha _]. apply negb_true_iff in Ha.
  rewrite Hj at 1. rewrite append_String. cbn beta iota. rewrite Ha.
  rewrite split_join; [reflexivity | | discriminate]. eapply Forall_impl; [exact Hcs|]. intros x [Hx _]; exact Hx.
Qed.

Lemma plain_clean c : plain c = true -> no_char slash c = true /\ no_char nul c = true.
Proof. unfold plain. rewrite !andb_true_iff. tauto. Qed.

Lemma plain_not_empty c : plain c = true -> c <> "".
Proof. unfold plain. rewrite !andb_true_iff, !negb_true_iff. intros [[[[H _] _] _] _] ->. discriminate. Qed.

(** A path of plain components names the file or directory stored under
    it. *)
Lemma resolve_plain fs cs :
  Forall (fun c => plain c = true) cs -> cs <> [] -> exists_at fs (rel cs) = true ->
  resolve fs (join_path cs) = Some (rel cs).
Proof.
  intros Hcs Hne Hex. destruct cs as [|c cs]; [congruence|].
  rewrite resolve_join.
  - rewrite <- (app_nil_l (c :: cs)) at 2. apply walk_plain; [exact Hcs | exact Hex].
  - apply plain_not_empty. by inversion Hcs.
  - eapply Forall_impl; [exact Hcs | exact plain_clean].
Qed.

Lemma os_path_exists_plain fs cs :
  Forall (fun c => plain c = true) cs -> cs <> [] -> is_Some (fs !! join_path cs) ->
  os_path_exists fs (join_path cs) = true.
Proof.
  intros Hcs Hne Hs. assert (Hex : exists_at fs (rel cs) = true).
  { unfold exists_at. apply orb_true_iff. left. by apply is_file_rel. }
  unfold os_path_exists. rewrite resolve_plain by assumption. exact Hex.
Qed.

(** A file name [s.mp4] built from a name without [/] or [NUL] is plain. *)
Lemma plain_mp4 s : no_char slash s = true -> no_char nul s = true -> plain (s +:+ ".mp4") = true.
Proof.
  intros H1 H2. unfold plain. rewrite !no_char_app, H1, H2.
  assert (Hl : 4 <= String.length (s +:+ ".mp4")) by (rewrite length_append; cbn; lia).
  repeat (apply andb_true_iff; split); try reflexivity; apply negb_true_iff, String.eqb_neq;
    intros E; rewrite E in Hl; cbn in Hl; lia.
Qed.

(** Climbing out of a directory [d] with as many [..] as it has
    components, then walking down [cs], reaches [cs]: the path names a file
    of the working tree outside [d]. *)
Lemma resolve_climb fs d cs :
  Forall (fun c => plain c = true) d -> d <> [] -> is_dir fs (rel d) = true ->
  Forall (fun c => plain c = true) cs -> exists_at fs (rel cs) = true ->
  resolve fs (join_path (d ++ replicate (length d) ".." ++ cs)) = Some (rel cs).
Proof.
  intros Hd Hne Hdir Hcs Hex. destruct d as [|c d']; [congruence|].
  rewrite <- app_comm_cons, resolve_join.
  - rewrite app_comm_cons, walk_app, <- (app_nil_l (c :: d')) at 1.
    rewrite walk_plain by (exact Hd || by apply is_dir_exists). rewrite app_nil_l, walk_app, walk_up by exact Hdir.
    rewrite <- (app_nil_l cs) at 2. apply walk_plain; [exact Hcs | exact Hex].
  - apply plain_not_empty. by inversion Hd.
  - rewrite app_comm_cons. apply Forall_app; split; [eapply Forall_impl; [exact Hd | exact plain_clean]|].
    apply Forall_app; split; [apply Forall_replicate; split; reflexivity|].
    eapply Forall_impl; [exact Hcs | exact plain_clean].
Qed.
