(* ===== verification/Json.v ===== *)
(** * Values decoded from a JSON request body (main.py 64-66)

    [await request.json()] gives what [json.loads] builds: [None], [bool],
    [int] (unbounded, as [Z]), [float] (binary64, as a primitive [float]),
    [str], [list] and [dict].  [data.get("prompt", "")] and
    [if not prompt] then use Python's [dict.get] and truthiness on it.  A
    JSON object keeps its members in document order; [json.loads] keeps
    the last of duplicate keys, and so does [dict_lookup]. *)

From Stdlib Require Import String Ascii List Bool ZArith PrimFloat.
From S2P Require Import Prelude.
Import ListNotations.
Local Open Scope string_scope.

Local Set Warnings "-register-all".

Inductive json :=
| JNull
| JBool (b : bool)
| JInt (z : Z)
| JFloat (f : float)
| JStr (s : string)
| JList (items : list json)
| JObj (members : list (string * json)).

(** [type(v).__name__]. *)
Definition type_name (v : json) : string :=
  match v with
  | JNull => "NoneType"
  | JBool _ => "bool"
  | JInt _ => "int"
  | JFloat _ => "float"
  | JStr _ => "str"
  | JList _ => "list"
  | JObj _ => "dict"
  end.

(** Python's truth value ([bool(v)]): [None], [False], [0], [0.0] and
    [-0.0], the empty string, list and dict are false. *)
Definition py_truthy (v : json) : bool :=
  match v with
  | JNull => false
  | JBool b => b
  | JInt z => negb (Z.eqb z 0)
  | JFloat f => negb (PrimFloat.eqb f 0%float)
  | JStr s => negb (String.eqb s "")
  | JList items => match items with [] => false | _ => true end
  | JObj members => match members with [] => false | _ => true end
  end.

(** The value of the last member named [k]. *)
Fixpoint dict_lookup (members : list (string * json)) (k : string) : option json :=
  match members with
  | [] => None
  | (k', v) :: rest =>
      match dict_lookup rest k with
      | Some v' => Some v'
      | None => if String.eqb k k' then Some v else None
      end
  end.

(** [data.get(key, default)]: a method of [dict] only. *)
Definition py_get (data : json) (key : string) (default : json) : py_result json :=
  match data with
  | JObj members =>
      Ok (match dict_lookup members key with Some v => v | None => default end)
  | _ => Raise (PyExn "AttributeError" ("'" ++ type_name data ++ "' object has no attribute 'get'"))
  end.

(** ** Lemmas *)

Lemma dict_lookup_app members1 members2 k :
  dict_lookup (members1 ++ members2) k =
  match dict_lookup members2 k with Some v => Some v | None => dict_lookup members1 k end.
Proof.
  induction members1 as [|[k' v] rest IH]; simpl.
  - destruct (dict_lookup members2 k); reflexivity.
  - rewrite IH. destruct (dict_lookup members2 k); reflexivity.
Qed.

Lemma dict_lookup_last members k v :
  dict_lookup (members ++ [(k, v)]) k = Some v.
Proof. rewrite dict_lookup_app. simpl. rewrite String.eqb_refl. reflexivity. Qed.

Lemma py_get_obj members key default :
  py_get (JObj members) key default =
  Ok (match dict_lookup members key with Some v => v | None => default end).
Proof. reflexivity. Qed.

Lemma py_truthy_str s : py_truthy (JStr s) = true <-> s <> "".
Proof.
  simpl. destruct (String.eqb_spec s ""); simpl; split; congruence.
Qed.
