(* ===== verification/Runtime.v ===== *)
(** * The world the handlers act on, and the services they call

    A request handler of main.py reads and writes files of the working
    directory, prints to the console, calls the Gemini model and runs a
    subprocess.  [world] holds the files (a finite map from path to
    contents), the console (one entry per [print] call, the values it
    printed) and the trace of outbound interactions in order.  The two
    external services are a class [Backend]: the model answers the n-th
    call, and [subprocess.run] returns the completed process and the files
    it leaves.  Both may raise.

    [PyM] is the state-and-exception monad of Python statements: a raised
    exception travels up to the nearest [try_except], and the effects made
    before it stay.  ExtLib's [stateT S (sum E)] would forget them. *)

From Stdlib Require Import String List ZArith PrimFloat.
From stdpp Require Import base gmap strings.
From S2P Require Import Prelude Json OsPath.
Import ListNotations.
Local Open Scope string_scope.

(** ** Data exchanged with the outside *)

(** One message of [contents] (main.py 40-41): a role and one text part. *)
Record content := Content { role : string; text_part : json }.

(** [GenerationConfig(temperature=...)] (main.py 34-36). *)
Record generation_config := GenerationConfig { temperature : float }.

(** A [generate_content] call on a model (main.py 30, 38-44). *)
Record llm_request := LlmRequest {
  model_name : string;
  contents : list content;
  config : generation_config }.

(** [subprocess.CompletedProcess] with [text=True] (main.py 83-88). *)
Record completed_process := CompletedProcess {
  args : list string;
  returncode : Z;
  stdout : string;
  stderr : string }.

(** Outbound interactions, in the order they happen.  A process run
    records the files it found when it started. *)
Inductive event :=
| LlmCall (req : llm_request)
| FileWrite (path contents : string)
| ProcessRun (argv : list string) (fs : gmap string string).

Record world := World {
  files : gmap string string;
  console : list (list json);
  trace : list event }.

(** ** The external services *)

Class Backend := {
  (** The text of the answer to the n-th call (numbered from 0), or the
      exception [generate_content] or [response.text] raises. *)
  llm_answer : nat -> llm_request -> py_result string;
  (** [subprocess.run(argv, ...)] on the current files: the completed
      process and the files it leaves, or the exception raised when the
      program cannot be started or its output cannot be decoded. *)
  process_run : list string -> gmap string string -> py_result (completed_process * gmap string string)
}.

(** ** The monad *)

Definition PyM (A : Type) : Type := world -> py_result A * world.

Definition py_ret {A} (a : A) : PyM A := fun w => (Ok a, w).

Definition py_bind {A B} (c : PyM A) (f : A -> PyM B) : PyM B :=
  fun w =>
    match c w with
    | (Ok a, w') => f a w'
    | (Raise e, w') => (Raise e, w')
    end.

Definition py_raise {A} (e : py_exn) : PyM A := fun w => (Raise e, w).

(** A value or exception computed without effects. *)
Definition py_lift {A} (r : py_result A) : PyM A := fun w => (r, w).

(** [try: c except Exception as e: h(e)]. *)
Definition try_except {A} (c : PyM A) (h : py_exn -> PyM A) : PyM A :=
  fun w =>
    match c w with
    | (Ok a, w') => (Ok a, w')
    | (Raise e, w') => h e w'
    end.

Notation "x <- c ;; k" := (py_bind c (fun x => k))
  (at level 100, c at next level, right associativity) : py_scope.
Notation "c ;; k" := (py_bind c (fun _ => k))
  (at level 100, right associativity) : py_scope.

(** ** Operations *)

Definition with_console (w : world) (args : list json) : world :=
  World (files w) (console w ++ [args]) (trace w).

Definition with_event (w : world) (ev : event) : world :=
  World (files w) (console w) (trace w ++ [ev]).

(** [print(...)]: the values of the call, one console entry. *)
Definition py_print (args : list json) : PyM unit := fun w => (Ok tt, with_console w args).

Definition is_llm_call (ev : event) : bool :=
  match ev with LlmCall _ => true | _ => false end.

(** The number of model calls made so far. *)
Definition llm_calls (w : world) : nat := length (filter is_llm_call (trace w)).

Section Services.
Context `{Backend}.

(** [model.generate_content(...).text]. *)
Definition generate_content (req : llm_request) : PyM string :=
  fun w => (llm_answer (llm_calls w) req, with_event w (LlmCall req)).

(** [with open(path, "w") as f: f.write(s)]: truncate and write. *)
Definition write_text (path s : string) : PyM unit :=
  fun w => (Ok tt, World (<[path := s]> (files w)) (console w) (trace w ++ [FileWrite path s])).

(** [subprocess.run(argv, stdout=PIPE, stderr=PIPE, text=True)]. *)
Definition subprocess_run (argv : list string) : PyM completed_process :=
  fun w =>
    let w1 := with_event w (ProcessRun argv (files w)) in
    match process_run argv (files w) with
    | Ok (cp, fs') => (Ok cp, World fs' (console w1) (trace w1))
    | Raise e => (Raise e, w1)
    end.

End Services.

(** [os.path.exists(path)]: the path is resolved against the files of the
    world (OsPath.v); the call never raises. *)
Definition path_exists (path : string) : PyM bool :=
  fun w => (Ok (os_path_exists (files w) path), w).

(** ** Laws and running lemmas *)

Create Rewrite HintDb pyrun.

Lemma bind_ret_l {A B} (a : A) (f : A -> PyM B) w : py_bind (py_ret a) f w = f a w.
Proof. reflexivity. Qed.

Lemma bind_assoc {A B C} (c : PyM A) (f : A -> PyM B) (g : B -> PyM C) w :
  py_bind (py_bind c f) g w = py_bind c (fun a => py_bind (f a) g) w.
Proof. unfold py_bind. destruct (c w) as [[a|e] w']; reflexivity. Qed.

Lemma bind_raise {A B} e (f : A -> PyM B) w : py_bind (py_raise e) f w = (Raise e, w).
Proof. reflexivity. Qed.

Lemma try_except_ret {A} (a : A) h w : try_except (py_ret a) h w = (Ok a, w).
Proof. reflexivity. Qed.

Lemma try_except_raise {A} e (h : py_exn -> PyM A) w : try_except (py_raise e) h w = h e w.
Proof. reflexivity. Qed.

#[export] Hint Rewrite @bind_ret_l @bind_assoc @bind_raise @try_except_ret @try_except_raise : pyrun.

(** A computation that never raises under [try_except] of a handler that
    never raises, never raises. *)
Lemma try_except_total {A} (c : PyM A) (h : py_exn -> PyM A) w :
  (forall e w', exists a w'', h e w' = (Ok a, w'')) ->
  exists a w', try_except c h w = (Ok a, w').
Proof.
  intros Hh. unfold try_except. destruct (c w) as [[a|e] w']; eauto.
Qed.
