(* ===== verification/PyLogic.v ===== *)
(** * Correctness triples for [PyM]

    Two judgements on a statement [c : PyM A] and a predicate [Q] on its
    value, for every starting world:
    - [returns_with c Q] (partial correctness): if [c] returns normally,
      its value satisfies [Q]; it may raise;
    - [answers_with c Q] (total correctness): [c] returns normally, and
      its value satisfies [Q].

    A [try]/[except] whose handler always answers turns the partial
    judgement of its body into the total one: that is how the handlers of
    main.py, each wrapped in an outermost [except Exception], always
    answer.  The rules below are the ones the handlers need. *)

From Stdlib Require Import String List.
From S2P Require Import Prelude Runtime.
Import ListNotations.

Definition returns_with {A} (c : PyM A) (Q : A -> Prop) : Prop :=
  forall w, match fst (c w) with Ok a => Q a | Raise _ => True end.

Definition answers_with {A} (c : PyM A) (Q : A -> Prop) : Prop :=
  forall w, exists a w', c w = (Ok a, w') /\ Q a.

Create HintDb pylogic.

Section Rules.
Context {A B : Type}.

Lemma rw_ret (a : A) (Q : A -> Prop) : Q a -> returns_with (py_ret a) Q.
Proof. intros H w. exact H. Qed.

Lemma rw_raise e (Q : A -> Prop) : returns_with (py_raise e) Q.
Proof. intros w. exact I. Qed.

(** Sequencing: the value of the first statement meets [P], and every
    continuation from such a value meets [Q]. *)
Lemma rw_bind (c : PyM A) (f : A -> PyM B) P Q :
  returns_with c P -> (forall a, P a -> returns_with (f a) Q) -> returns_with (py_bind c f) Q.
Proof.
  intros Hc Hf w. specialize (Hc w). unfold py_bind.
  destruct (c w) as [[a|e] w']; [exact (Hf a Hc w') | exact I].
Qed.

(** A statement whose value does not matter: [print], a write, a call. *)
Lemma rw_bind_any (c : PyM A) (f : A -> PyM B) Q :
  (forall a, returns_with (f a) Q) -> returns_with (py_bind c f) Q.
Proof. intros Hf. apply (rw_bind c f (fun _ => True)); [intros w; destruct (fst (c w)); exact I | auto]. Qed.

Lemma rw_weaken (c : PyM A) (P Q : A -> Prop) :
  returns_with c P -> (forall a, P a -> Q a) -> returns_with c Q.
Proof. intros Hc HPQ w. specialize (Hc w). destruct (fst (c w)); auto. Qed.

Lemma rw_if (b : bool) (c1 c2 : PyM A) Q :
  returns_with c1 Q -> returns_with c2 Q -> returns_with (if b then c1 else c2) Q.
Proof. destruct b; auto. Qed.

(** [try]/[except]: the body's normal value, or the handler's. *)
Lemma rw_try (c : PyM A) (h : py_exn -> PyM A) Q :
  returns_with c Q -> (forall e, returns_with (h e) Q) -> returns_with (try_except c h) Q.
Proof.
  intros Hc Hh w. specialize (Hc w). unfold try_except.
  destruct (c w) as [[a|e] w']; [exact Hc | exact (Hh e w')].
Qed.

Lemma aw_ret (a : A) (Q : A -> Prop) : Q a -> answers_with (py_ret a) Q.
Proof. intros H w. exists a, w. split; [reflexivity | exact H]. Qed.

(** [try: c except Exception as e: h(e)] answers when [h] always does. *)
Lemma aw_try (c : PyM A) (h : py_exn -> PyM A) Q :
  returns_with c Q -> (forall e, answers_with (h e) Q) -> answers_with (try_except c h) Q.
Proof.
  intros Hc Hh w. specialize (Hc w). unfold try_except.
  destruct (c w) as [[a|e] w']; [exists a, w'; split; [reflexivity | exact Hc] | exact (Hh e w')].
Qed.

Lemma aw_returns (c : PyM A) Q : answers_with c Q -> returns_with c Q.
Proof. intros Hc w. destruct (Hc w) as (a & w' & -> & HQ). exact HQ. Qed.

End Rules.

#[export] Hint Resolve rw_ret rw_raise rw_bind_any rw_if aw_ret : pylogic.

(** Walk a handler body statement by statement, leaving the answers. *)
Ltac py_wp :=
  repeat (cbv zeta;
          match goal with
          | |- returns_with (py_bind _ _) _ => apply rw_bind_any; intros ?
          | |- returns_with (if _ then _ else _) _ => apply rw_if
          | |- returns_with (py_ret _) _ => apply rw_ret
          | |- returns_with (py_raise _) _ => apply rw_raise
          end).
