(* ===== verification/Llm.v ===== *)
(** * LLM client adapter: [call_llm] (main.py 30-58)

    [call_llm] sends two user messages to [gemini-2.0-flash], the fixed
    instruction and the prompt, with [temperature=0.2]; reads
    [response.text]; extracts the fenced block ([CodeExtractor]); and
    turns any exception of the whole body into the sentinel string
    ["error: " + str(e)], after printing a diagnostic.  The service is the
    [Backend] of [Runtime]; the model's answers are arbitrary. *)

From Stdlib Require Import String List ZArith PrimFloat.
From stdpp Require Import base gmap strings.
From S2P Require Import Prelude PyStr CodeExtractor Json Runtime.
Import ListNotations.
Local Open Scope string_scope.

(** main.py 30. *)
Definition gemini_model_name : string := "gemini-2.0-flash".

(** main.py 40: the instruction sent before the prompt.  It asks for code
    that is not wrapped in a fence. *)
Definition system_instruction : string :=
  "You're a Python tutor that generates only Manim animation code as text with proper indentation dont wrap the code inside this ```python ``` ".

(** main.py 35: [temperature=0.2], the binary64 value nearest to 0.2. *)
Definition llm_temperature : float := 0x1.999999999999ap-3%float.

(** main.py 34-44: the request for a prompt (any JSON value). *)
Definition build_request (prompt : json) : llm_request :=
  LlmRequest gemini_model_name
    [Content "user" (JStr system_instruction); Content "user" prompt]
    (GenerationConfig llm_temperature).

(** The sentinel that reports a failure to the caller (main.py 58). *)
Definition error_sentinel (e : py_exn) : string := "error: " ++ exn_msg e.

Section CallLlm.
Context `{Backend}.

(** main.py 32-58. *)
Definition call_llm (prompt : json) : PyM string :=
  try_except
    (generated_text <- generate_content (build_request prompt) ;;
     py_lift (extract_code generated_text))
    (fun e => py_print [JStr ("Error calling LLM: " ++ exn_msg e)] ;;
              py_ret (error_sentinel e)).

(** ** Running [call_llm] *)

Lemma call_llm_answer prompt w text :
  llm_answer (llm_calls w) (build_request prompt) = Ok text ->
  call_llm prompt w = (Ok (scanned_code text), with_event w (LlmCall (build_request prompt))).
Proof.
  intros Ha. unfold call_llm, try_except, py_bind, generate_content. rewrite Ha.
  cbn. rewrite extract_code_ok. reflexivity.
Qed.

Lemma call_llm_failure prompt w e :
  llm_answer (llm_calls w) (build_request prompt) = Raise e ->
  call_llm prompt w =
    (Ok (error_sentinel e),
     with_console (with_event w (LlmCall (build_request prompt)))
       [JStr ("Error calling LLM: " ++ exn_msg e)]).
Proof. intros Ha. unfold call_llm, try_except, py_bind, generate_content. rewrite Ha. reflexivity. Qed.

End CallLlm.

Lemma error_sentinel_contains e : py_contains (error_sentinel e) "error:" = true.
Proof. apply py_contains_spec. exists "", (" " ++ exn_msg e). reflexivity. Qed.

Lemma llm_calls_console w args : llm_calls (with_console w args) = llm_calls w.
Proof. reflexivity. Qed.
