(* ===== verification/Service.v ===== *)
(** * HTTP service: [generate], [ai_video_retrieve] and start-up (main.py)

    [generate] (main.py 61-96) and [ai_video_retrieve] (main.py 98-108)
    are the two endpoints; the module-level code (main.py 22-27) checks the
    API key before the service starts.  Each handler is a [PyM]
    computation, line by line as the code runs, under its outermost
    [try ... except Exception].  A returned [dict] becomes a JSON answer;
    [FileResponse] becomes a file answer whose body is read after the
    handler returns. *)

From Stdlib Require Import String List ZArith PrimFloat.
From stdpp Require Import base gmap strings.
From S2P Require Import Prelude PyStr Regex CodeExtractor SceneName OsPath Json Runtime Llm.
Import ListNotations.
Local Open Scope string_scope.
Local Open Scope list_scope.

(** ** Requests and responses *)

(** The body as [await request.json()] decodes it: a JSON value, or the
    exception [json.loads] raises. *)
Inductive request_body :=
| BodyJson (v : json)
| BodyInvalid (e : py_exn).

Inductive response :=
| JsonResponse (body : json)
| FileResponse (path : string) (media_type : string).

(** A returned [dict] whose values are strings. *)
Definition reply (members : list (string * json)) : response := JsonResponse (JObj members).

(** main.py 64. *)
Definition request_json (body : request_body) : PyM json :=
  py_lift (match body with BodyJson v => Ok v | BodyInvalid e => Raise e end).

(** A Python value that is a [str] or [None]. *)
Definition py_opt_str (o : option string) : json :=
  match o with Some s => JStr s | None => JNull end.

(** main.py 84: the argument list; [subprocess.run] raises on [None]. *)
Definition manim_argv (scene_name : option string) : py_result (list string) :=
  match scene_name with
  | Some n => Ok ["manim"; "-qm"; "video.py"; n]
  | None => Raise (PyExn "TypeError" "expected str, bytes or os.PathLike object, not NoneType")
  end.

(** The file [generate] writes and [manim] renders (main.py 80, 84). *)
Definition source_path : string := "video.py".

Section Handlers.
Context `{Backend}.

(** main.py 61-96: [POST /generate]. *)
Definition generate (body : request_body) : PyM response :=
  try_except
    (data <- request_json body ;;
     prompt <- py_lift (py_get data "prompt" (JStr "")) ;;
     if negb (py_truthy prompt) then
       py_ret (reply [("status", JStr "error"); ("message", JStr "Prompt is required")])
     else
       py_print [JStr "llm prompt : "; prompt] ;;
       llm_output <- call_llm prompt ;;
       py_print [JStr "llm output :"; JStr llm_output] ;;
       if py_contains llm_output "error:" then
         py_ret (reply [("status", JStr "error"); ("message", JStr llm_output)])
       else
         let scene_name := resolve_scene_name llm_output in
         py_print [py_opt_str scene_name] ;;
         write_text source_path llm_output ;;
         argv <- py_lift (manim_argv scene_name) ;;
         result <- subprocess_run argv ;;
         if negb (Z.eqb (returncode result) 0) then
           py_ret (reply [("status", JStr "error"); ("details", JStr (stderr result))])
         else
           py_ret (reply [("status", JStr "success"); ("scene_name", py_opt_str scene_name);
                          ("details", JStr (stdout result))]))
    (fun e => py_ret (reply [("status", JStr "failed"); ("error", JStr (exn_msg e))])).

End Handlers.

(** Unfold [generate] down to the steps of its body. *)
Ltac unfold_generate := unfold generate, try_except, py_bind, request_json, py_lift.

(** The directory manim writes the medium-quality videos of [video.py]
    to. *)
Definition video_dir : list string := ["media"; "videos"; "video"; "720p30"].

(** main.py 101: where the video of a scene is looked for. *)
Definition video_path (scene_name : string) : string :=
  "media/videos/video/720p30/" +:+ scene_name +:+ ".mp4".

(** The query parameter, or its default ["Generated_Scene"] (main.py 99). *)
Definition query_scene (query : option string) : string :=
  match query with Some s => s | None => "Generated_Scene" end.

(** main.py 98-108: [GET /video]. *)
Definition ai_video_retrieve (query : option string) : PyM response :=
  try_except
    (let p := video_path (query_scene query) in
     py_print [JStr p] ;;
     found <- path_exists p ;;
     if negb found then
       py_ret (reply [("status", JStr "error"); ("message", JStr "video not found.")])
     else
       py_ret (FileResponse p "video/mp4"))
    (fun e => py_ret (reply [("status", JStr "error"); ("message", JStr (exn_msg e))])).

(** ** What the render engine promises (spec section 6) *)

(** Where [manim -qm <stem>.py <scene>] writes its video: the medium
    quality is 720p at 30 frames per second. *)
Definition manim_output (stem scene : string) : string :=
  "media/videos/" +:+ stem +:+ "/720p30/" +:+ scene +:+ ".mp4".

(** A run of [manim -qm video.py <scene>] that exits with status 0 leaves
    the video of the scene at its conventional path. *)
Class ManimContract `{Backend} : Prop :=
  manim_renders : forall scene fs cp fs',
    process_run ["manim"; "-qm"; "video.py"; scene] fs = Ok (cp, fs') ->
    returncode cp = 0%Z -> is_Some (fs' !! manim_output "video" scene).

(** ** Start-up (main.py 22-27) *)

(** [dotenv_values(".env")]: the entries in file order; a line without
    [=] gives [None].  A later entry overrides an earlier one. *)
Fixpoint env_get (entries : list (string * option string)) (k : string) : option (option string) :=
  match entries with
  | [] => None
  | (k', v) :: rest =>
      match env_get rest k with
      | Some v' => Some v'
      | None => if String.eqb k k' then Some v else None
      end
  end.

(** The key the service is configured with, or the [ValueError] that
    stops it before it serves anything. *)
Definition startup (dotenv : list (string * option string)) : py_result string :=
  match env_get dotenv "GEMINI_API_KEY" with
  | Some (Some key) =>
      if String.eqb key "" then Raise (PyExn "ValueError" "GEMINI_API_KEY not found in .env file.")
      else Ok key
  | _ => Raise (PyExn "ValueError" "GEMINI_API_KEY not found in .env file.")
  end.

(** ** Concrete runs *)

(** A backend for concrete runs: the model always answers [answer]; with
    [Some code], manim exits with [code] and, when it is 0, writes the
    video of its scene; with [None], manim cannot be started. *)
Definition demo_backend (answer : py_result string) (exit : option Z) : Backend := {|
  llm_answer := fun _ _ => answer;
  process_run := fun argv fs =>
    match exit, argv with
    | Some code, [_; _; _; scene] =>
        Ok (CompletedProcess argv code "Rendered." "Traceback: no scene",
            if Z.eqb code 0 then <[manim_output "video" scene := "<mp4>"]> fs else fs)
    | Some code, _ => Ok (CompletedProcess argv 2 "" "usage", fs)
    | None, _ => Raise (PyExn "FileNotFoundError" "[Errno 2] No such file or directory: 'manim'")
    end |}.

#[export] Instance demo_contract answer exit : @ManimContract (demo_backend answer exit).
Proof.
  intros scene fs cp fs' Hp Hr. destruct exit as [code|]; simpl in Hp; [|discriminate].
  inv Hp. simpl in Hr. subst code. simpl. rewrite lookup_insert_eq. eauto.
Qed.

Definition empty_world : world := World ∅ [] [].

(** A working tree holding a rendered video and a private recording. *)
Definition traversal_world : world :=
  World (<["private/recording.mp4" := "<mp4>"]> (<[manim_output "video" "Demo" := "<mp4>"]> ∅)) [] [].

Definition demo_data : json := JObj [("prompt", JStr "Animate a circle")].

Definition quota_error : py_exn := PyExn "ResourceExhausted" "quota exceeded".

(** Valid code that mentions ["error:"]. *)
Definition answer_with_error_text : string :=
  "```python" ++ newline ++ "from manim import *" ++ newline ++ "class Safe(Scene):" ++ newline
  ++ "    def construct(self):" ++ newline ++ "        try:" ++ newline ++ "            pass"
  ++ newline ++ "        except ValueError as error:" ++ newline ++ "            pass" ++ newline
  ++ "```".

Definition demo_argv : list string :=
  ["manim"; "-qm"; "video.py"; scanned_name (scanned_code sample_answer)].

(** The effects [POST /generate] may have, from world [w] to world [w']:
    none; one model call; or one model call, the write of some [code] to
    [video.py] and one run of manim on the files with that write, after
    which the files are those the write left (the run raised) or those the
    run returned. *)
Definition generate_effect `{Backend} (w w' : world) : Prop :=
  (trace w' = trace w /\ files w' = files w) \/
  (exists req, trace w' = trace w ++ [LlmCall req] /\ files w' = files w) \/
  (exists req code,
     let argv := ["manim"; "-qm"; "video.py"; scanned_name code] in
     let fs := <[source_path := code]> (files w) in
     trace w' = trace w ++ [LlmCall req; FileWrite source_path code; ProcessRun argv fs] /\
     (files w' = fs \/ exists cp, process_run argv fs = Ok (cp, files w'))).

(** ** Properties of [generate] *)

Section GenerateProperties.
Context `{Backend}.

(** The world after the printing, the model call, the write and the run
    of the main path, with the process result [r] of the run. *)
Lemma generate_run data prompt w text r :
  py_get data "prompt" (JStr "") = Ok prompt -> py_truthy prompt = true ->
  llm_answer (llm_calls w) (build_request prompt) = Ok text ->
  py_contains (scanned_code text) "error:" = false ->
  process_run ["manim"; "-qm"; "video.py"; scanned_name (scanned_code text)]
      (<[source_path := scanned_code text]> (files w)) = r ->
  generate (BodyJson data) w =
    let code := scanned_code text in
    let name := scanned_name code in
    let fs := <[source_path := code]> (files w) in
    let cons := console w ++ [[JStr "llm prompt : "; prompt]; [JStr "llm output :"; JStr code];
                              [JStr name]] in
    let tr := trace w ++ [LlmCall (build_request prompt); FileWrite source_path code;
                          ProcessRun ["manim"; "-qm"; "video.py"; name] fs] in
    match r with
    | Ok (cp, fs') =>
        (Ok (if negb (Z.eqb (returncode cp) 0) then
               reply [("status", JStr "error"); ("details", JStr (stderr cp))]
             else
               reply [("status", JStr "success"); ("scene_name", JStr name);
                      ("details", JStr (stdout cp))]), World fs' cons tr)
    | Raise e => (Ok (reply [("status", JStr "failed"); ("error", JStr (exn_msg e))]), World fs cons tr)
    end.
Proof.
  intros Hg Ht Ha Hc Hp. unfold_generate.
  rewrite Hg. cbn. rewrite Ht. cbn.
  rewrite (call_llm_answer prompt (with_console w [JStr "llm prompt : "; prompt]) text Ha). cbn.
  rewrite Hc. cbn. rewrite resolve_scene_name_ok. cbn. unfold subprocess_run. cbn.
  rewrite Hp. destruct r as [[cp fs']|e]; cbn; unfold py_ret, with_event; cbn;
    rewrite <- !app_assoc; [destruct (negb (returncode cp =? 0)%Z)|]; reflexivity.
Qed.

(** What [generate] does to the world: it adds to the trace nothing, one
    model call, or one model call, the write of the code to [video.py] and
    the run of manim on the files just written; and its only changes to
    the files are that write and what the run itself leaves. *)
Lemma generate_world body w : generate_effect w (snd (generate body w)).
Proof.
  unfold generate_effect.
  destruct body as [data|e]; [|left; split; reflexivity].
  destruct (py_get data "prompt" (JStr "")) as [prompt|e] eqn:Hg;
    [|left; unfold_generate; rewrite Hg; split; reflexivity].
  destruct (py_truthy prompt) eqn:Ht;
    [|left; unfold_generate; rewrite Hg; cbn; rewrite Ht; split; reflexivity].
  destruct (llm_answer (llm_calls w) (build_request prompt)) as [text|e] eqn:Ha.
  - destruct (py_contains (scanned_code text) "error:") eqn:Hc.
    + right; left. exists (build_request prompt). unfold_generate. rewrite Hg. cbn. rewrite Ht. cbn.
      rewrite (call_llm_answer prompt (with_console w [JStr "llm prompt : "; prompt]) text Ha).
      cbn. rewrite Hc. split; reflexivity.
    + right; right. exists (build_request prompt), (scanned_code text).
      rewrite (generate_run data prompt w text _ Hg Ht Ha Hc eq_refl).
      destruct (process_run _ _) as [[cp fs']|e] eqn:Hp; (split; [reflexivity|]); eauto.
  - right; left. exists (build_request prompt). unfold_generate. rewrite Hg. cbn. rewrite Ht. cbn.
    rewrite (call_llm_failure prompt (with_console w [JStr "llm prompt : "; prompt]) e Ha).
    cbn. rewrite error_sentinel_contains. split; reflexivity.
Qed.

(** C4. Whatever the request and whatever the model and manim answer,
    [POST /generate] calls the model at most once, writes no file but
    [video.py], runs manim at most once and only right after writing the
    code it runs, and changes no file other than by that write and that
    run. *)
Theorem generate_effects body w : generate_effect w (snd (generate body w)).
Proof. exact (generate_world body w). Qed.

(** C5. A falsy [prompt] (missing, empty, [null], [false], [0], or an
    empty list or object) is rejected with "Prompt is required", with no
    print, no model call, no write and no process run. *)
Theorem generate_prompt_required data prompt w :
  py_get data "prompt" (JStr "") = Ok prompt -> py_truthy prompt = false ->
  generate (BodyJson data) w =
    (Ok (reply [("status", JStr "error"); ("message", JStr "Prompt is required")]), w).
Proof.
  intros Hg Ht. unfold_generate.
  rewrite Hg. cbn. rewrite Ht. reflexivity.
Qed.

(** C6. When the model call raises [e], the answer is an error whose
    message is the sentinel ["error: " + str(e)]; nothing is written and
    no process runs after the model call. *)
Theorem generate_llm_failure data prompt w e :
  py_get data "prompt" (JStr "") = Ok prompt -> py_truthy prompt = true ->
  llm_answer (llm_calls w) (build_request prompt) = Raise e ->
  fst (generate (BodyJson data) w) =
    Ok (reply [("status", JStr "error"); ("message", JStr (error_sentinel e))]) /\
  files (snd (generate (BodyJson data) w)) = files w /\
  trace (snd (generate (BodyJson data) w)) = trace w ++ [LlmCall (build_request prompt)].
Proof.
  intros Hg Ht Ha. unfold_generate.
  rewrite Hg. cbn. rewrite Ht. cbn.
  rewrite (call_llm_failure prompt (with_console w [JStr "llm prompt : "; prompt]) e Ha).
  cbn. rewrite error_sentinel_contains. cbn. auto.
Qed.

(** C11. Generated code that merely contains ["error:"] (for example
    [except ValueError as error:]) is answered as a model failure, with
    the code as the message, and is never rendered: the check of main.py
    72 is a substring test, not a test of the sentinel's prefix. *)
Theorem generate_rejects_error_text data prompt w text :
  py_get data "prompt" (JStr "") = Ok prompt -> py_truthy prompt = true ->
  llm_answer (llm_calls w) (build_request prompt) = Ok text ->
  py_contains (scanned_code text) "error:" = true ->
  fst (generate (BodyJson data) w) =
    Ok (reply [("status", JStr "error"); ("message", JStr (scanned_code text))]) /\
  files (snd (generate (BodyJson data) w)) = files w /\
  trace (snd (generate (BodyJson data) w)) = trace w ++ [LlmCall (build_request prompt)].
Proof.
  intros Hg Ht Ha Hc. unfold_generate.
  rewrite Hg. cbn. rewrite Ht. cbn.
  rewrite (call_llm_answer prompt (with_console w [JStr "llm prompt : "; prompt]) text Ha).
  cbn. rewrite Hc. cbn. auto.
Qed.

(** C8. When [manim] exits with a non-zero status, the answer is an
    error carrying its standard error; [video.py] has been overwritten with
    the code all the same. *)
Theorem generate_render_failure data prompt w text cp fs' :
  py_get data "prompt" (JStr "") = Ok prompt -> py_truthy prompt = true ->
  llm_answer (llm_calls w) (build_request prompt) = Ok text ->
  py_contains (scanned_code text) "error:" = false ->
  process_run ["manim"; "-qm"; "video.py"; scanned_name (scanned_code text)]
      (<[source_path := scanned_code text]> (files w)) = Ok (cp, fs') ->
  returncode cp <> 0%Z ->
  fst (generate (BodyJson data) w) =
    Ok (reply [("status", JStr "error"); ("details", JStr (stderr cp))]).
Proof.
  intros Hg Ht Ha Hc Hp Hr. rewrite (generate_run data prompt w text _ Hg Ht Ha Hc Hp). cbn.
  destruct (Z.eqb_spec (returncode cp) 0); [contradiction | reflexivity].
Qed.

(** C1. On the main path the answer is a success naming the scene the
    resolver finds in the extracted code, with [manim]'s standard output;
    [manim] ran on exactly that code, written to [video.py] just before,
    and the outbound interactions are one model call, one write and one
    run, in that order. *)
Theorem generate_success data prompt w text cp fs' :
  py_get data "prompt" (JStr "") = Ok prompt -> py_truthy prompt = true ->
  llm_answer (llm_calls w) (build_request prompt) = Ok text ->
  py_contains (scanned_code text) "error:" = false ->
  process_run ["manim"; "-qm"; "video.py"; scanned_name (scanned_code text)]
      (<[source_path := scanned_code text]> (files w)) = Ok (cp, fs') ->
  returncode cp = 0%Z ->
  let code := scanned_code text in
  fst (generate (BodyJson data) w) =
    Ok (reply [("status", JStr "success"); ("scene_name", JStr (scanned_name code));
               ("details", JStr (stdout cp))]) /\
  files (snd (generate (BodyJson data) w)) = fs' /\
  trace (snd (generate (BodyJson data) w)) =
    trace w ++ [LlmCall (build_request prompt); FileWrite source_path code;
                ProcessRun ["manim"; "-qm"; "video.py"; scanned_name code]
                           (<[source_path := code]> (files w))].
Proof.
  intros Hg Ht Ha Hc Hp Hr. rewrite (generate_run data prompt w text _ Hg Ht Ha Hc Hp). cbn.
  rewrite Hr. auto.
Qed.

(** C17. When [manim] cannot be started (the subprocess raises), the
    outermost handler answers ["failed"] with the exception's text, and
    the overwritten [video.py] stays. *)
Theorem generate_process_error data prompt w text e :
  py_get data "prompt" (JStr "") = Ok prompt -> py_truthy prompt = true ->
  llm_answer (llm_calls w) (build_request prompt) = Ok text ->
  py_contains (scanned_code text) "error:" = false ->
  process_run ["manim"; "-qm"; "video.py"; scanned_name (scanned_code text)]
      (<[source_path := scanned_code text]> (files w)) = Raise e ->
  fst (generate (BodyJson data) w) =
    Ok (reply [("status", JStr "failed"); ("error", JStr (exn_msg e))]) /\
  files (snd (generate (BodyJson data) w)) !! source_path = Some (scanned_code text).
Proof.
  intros Hg Ht Ha Hc Hp. rewrite (generate_run data prompt w text _ Hg Ht Ha Hc Hp). cbn.
  split; [reflexivity | apply lookup_insert_eq].
Qed.

(** C18. A body that is not JSON, or JSON that is not an object, is
    answered ["failed"] with the exception's text, and nothing happens. *)
Theorem generate_bad_body body w e :
  (body = BodyInvalid e \/
   exists v, body = BodyJson v /\ py_get v "prompt" (JStr "") = Raise e) ->
  generate body w = (Ok (reply [("status", JStr "failed"); ("error", JStr (exn_msg e))]), w).
Proof.
  intros [-> | [v [-> Hv]]]; unfold generate, try_except, py_bind, request_json, py_lift;
    [reflexivity | rewrite Hv; reflexivity].
Qed.

End GenerateProperties.

(** ** Properties of [ai_video_retrieve] and of start-up *)

Lemma video_path_manim scene : video_path scene = manim_output "video" scene.
Proof. reflexivity. Qed.

(** The video path of a scene is four directories and [<scene>.mp4]. *)
Lemma video_path_join s : video_path s = join_path (video_dir ++ [s +:+ ".mp4"]).
Proof. reflexivity. Qed.

(** The stored video of a scene named with word characters exists. *)
Lemma video_path_exists fs s :
  all_chars re_word s = true -> is_Some (fs !! video_path s) -> os_path_exists fs (video_path s) = true.
Proof.
  intros Hw Hs. destruct (word_no_char s Hw) as [H1 H2]. rewrite video_path_join in *.
  apply os_path_exists_plain; [|by destruct video_dir | exact Hs].
  apply Forall_app; split; [by repeat constructor | constructor; [by apply plain_mp4 | constructor]].
Qed.

(** A scene name that starts with four [..] climbs out of the video
    directory. *)
Lemma video_path_climb cs s :
  video_path ("../../../../" +:+ join_path (cs ++ [s])) =
    join_path (video_dir ++ replicate (length video_dir) ".." ++ cs ++ [s +:+ ".mp4"]).
Proof.
  unfold video_path. rewrite <- append_assoc, join_snoc, app_assoc.
  rewrite (join_app (video_dir ++ replicate (length video_dir) "..")) by (destruct cs; cbn; discriminate). reflexivity.
Qed.

Lemma retrieve_exists query w :
  os_path_exists (files w) (video_path (query_scene query)) = true ->
  ai_video_retrieve query w =
    (Ok (FileResponse (video_path (query_scene query)) "video/mp4"),
     with_console w [JStr (video_path (query_scene query))]).
Proof.
  intros Hs. unfold ai_video_retrieve, try_except, py_bind, path_exists, py_print. cbn -[os_path_exists].
  rewrite Hs. reflexivity.
Qed.


(** C29. [GET /video] answers the file [media/videos/video/720p30/<scene>.mp4]
    of the requested scene (default [Generated_Scene]) as [video/mp4]
    exactly when that path exists, and "video not found." otherwise; it
    prints the path it looked at and changes nothing else. *)
Theorem video_retrieve_spec query w :
  let p := video_path (query_scene query) in
  ai_video_retrieve query w =
    (Ok (if os_path_exists (files w) p then FileResponse p "video/mp4"
         else reply [("status", JStr "error"); ("message", JStr "video not found.")]),
     with_console w [JStr p]).
Proof.
  unfold ai_video_retrieve, try_except, py_bind, path_exists, py_print. cbn -[os_path_exists].
  destruct (os_path_exists _ _); reflexivity.
Qed.

(** The main path of [generate] followed by [GET /video] of its scene. *)
Lemma generate_video_run `{ManimContract} data prompt w text cp fs' :
  py_get data "prompt" (JStr "") = Ok prompt -> py_truthy prompt = true ->
  llm_answer (llm_calls w) (build_request prompt) = Ok text ->
  py_contains (scanned_code text) "error:" = false ->
  process_run ["manim"; "-qm"; "video.py"; scanned_name (scanned_code text)]
      (<[source_path := scanned_code text]> (files w)) = Ok (cp, fs') ->
  returncode cp = 0%Z ->
  exists w2,
    generate (BodyJson data) w =
      (Ok (reply [("status", JStr "success"); ("scene_name", JStr (scanned_name (scanned_code text)));
                  ("details", JStr (stdout cp))]), w2) /\
    fst (ai_video_retrieve (Some (scanned_name (scanned_code text))) w2) =
      Ok (FileResponse (video_path (scanned_name (scanned_code text))) "video/mp4").
Proof.
  intros Hg Ht Ha Hc Hp Hr. rewrite (generate_run data prompt w text _ Hg Ht Ha Hc Hp).
  cbv beta iota zeta. rewrite Hr. cbn [Z.eqb negb]. eexists. split; [reflexivity|].
  rewrite retrieve_exists; [reflexivity|].
  cbn. apply video_path_exists; [apply scanned_name_word|].
  rewrite video_path_manim. exact (manim_renders _ _ _ _ Hp Hr).
Qed.

(** C9. The two endpoints compose: after [POST /generate] succeeds,
    [GET /video] with the scene name of its answer serves the rendered
    video as [video/mp4], for any render engine that keeps manim's
    output convention. *)
Theorem generate_then_video `{ManimContract} data prompt w text cp fs' :
  py_get data "prompt" (JStr "") = Ok prompt -> py_truthy prompt = true ->
  llm_answer (llm_calls w) (build_request prompt) = Ok text ->
  py_contains (scanned_code text) "error:" = false ->
  process_run ["manim"; "-qm"; "video.py"; scanned_name (scanned_code text)]
      (<[source_path := scanned_code text]> (files w)) = Ok (cp, fs') ->
  returncode cp = 0%Z ->
  fst (ai_video_retrieve (Some (scanned_name (scanned_code text))) (snd (generate (BodyJson data) w))) =
    Ok (FileResponse (video_path (scanned_name (scanned_code text))) "video/mp4").
Proof.
  intros Hg Ht Ha Hc Hp Hr.
  destruct (generate_video_run data prompt w text cp fs' Hg Ht Ha Hc Hp Hr) as (w2 & E1 & E2).
  rewrite E1. exact E2.
Qed.

(** C27. [GET /video] does not confine the scene name to the video
    directory: with a scene name [../../../../<path>], the path it checks
    and serves resolves to [<path>.mp4] anywhere in the working tree, once
    the video directory exists. *)
Theorem video_path_traversal w cs s :
  Forall (fun c => plain c = true) cs -> no_char slash s = true -> no_char nul s = true ->
  is_dir (files w) (rel video_dir) = true ->
  is_Some (files w !! join_path (cs ++ [s +:+ ".mp4"])) ->
  resolve (files w) (video_path ("../../../../" +:+ join_path (cs ++ [s]))) =
    Some (rel (cs ++ [s +:+ ".mp4"])) /\
  fst (ai_video_retrieve (Some ("../../../../" +:+ join_path (cs ++ [s]))) w) =
    Ok (FileResponse (video_path ("../../../../" +:+ join_path (cs ++ [s]))) "video/mp4").
Proof.
  intros Hcs H1 H2 Hdir Hf.
  assert (Hex : exists_at (files w) (rel (cs ++ [s +:+ ".mp4"])) = true).
  { unfold exists_at. apply orb_true_iff. left. apply is_file_rel; [destruct cs; discriminate | exact Hf]. }
  assert (Hr : resolve (files w) (video_path ("../../../../" +:+ join_path (cs ++ [s]))) =
                 Some (rel (cs ++ [s +:+ ".mp4"]))).
  { rewrite video_path_climb. apply resolve_climb; [by repeat constructor | discriminate | exact Hdir | | exact Hex].
    apply Forall_app; split; [exact Hcs | constructor; [by apply plain_mp4 | constructor]]. }
  split; [exact Hr|]. rewrite retrieve_exists; [reflexivity|].
  cbn [query_scene]. unfold os_path_exists. rewrite Hr. exact Hex.
Qed.

(** C34. Without a [/] in the scene name there is no traversal: the path
    [GET /video] checks either does not resolve or resolves to
    [<scene>.mp4] inside the video directory, whatever the files are. *)
Theorem video_path_confined fs s :
  no_char slash s = true -> no_char nul s = true ->
  resolve fs (video_path s) = None \/
  resolve fs (video_path s) = Some (rel (video_dir ++ [s +:+ ".mp4"])).
Proof.
  intros H1 H2. assert (Hall : Forall (fun c => plain c = true) (video_dir ++ [s +:+ ".mp4"])).
  { apply Forall_app; split; [by repeat constructor | constructor; [by apply plain_mp4 | constructor]]. }
  rewrite video_path_join. cbn [video_dir app]. rewrite resolve_join.
  - rewrite <- (app_nil_l ("media" :: _)) at 2. apply walk_plain_any, Hall.
  - discriminate.
  - eapply Forall_impl; [exact Hall | exact plain_clean].
Qed.

(** C20. The service starts exactly when the last [GEMINI_API_KEY] entry
    of [.env] has a non-empty value; otherwise it stops with a
    [ValueError] before serving. *)
Theorem startup_spec env key :
  startup env = Ok key <-> env_get env "GEMINI_API_KEY" = Some (Some key) /\ key <> "".
Proof.
  unfold startup. destruct (env_get env "GEMINI_API_KEY") as [[k|]|].
  - destruct (String.eqb_spec k "") as [->|Hne]; split; intros Hs.
    + discriminate.
    + destruct Hs as [Hk Hk']. congruence.
    + inv Hs. auto.
    + destruct Hs as [Hk _]. inv Hk. reflexivity.
  - split; intros Hs; [discriminate | destruct Hs as [Hk _]; discriminate].
  - split; intros Hs; [discriminate | destruct Hs as [Hk _]; discriminate].
Qed.

Lemma generate_prompt_required_witness :
  py_get (JObj [("prompt", JStr "")]) "prompt" (JStr "") = Ok (JStr "") /\
  py_truthy (JStr "") = false /\
  @generate (demo_backend (Ok sample_answer) (Some 0%Z)) (BodyJson (JObj [("prompt", JStr "")]))
    empty_world =
    (Ok (reply [("status", JStr "error"); ("message", JStr "Prompt is required")]), empty_world).
Proof.
  split; [reflexivity|]. split; [reflexivity|].
  apply (generate_prompt_required _ (JStr "")); reflexivity.
Defined.

Lemma generate_llm_failure_witness :
  fst (@generate (demo_backend (Raise quota_error) (Some 0%Z)) (BodyJson demo_data) empty_world) =
    Ok (reply [("status", JStr "error"); ("message", JStr "error: quota exceeded")]).
Proof.
  refine (proj1 (@generate_llm_failure (demo_backend (Raise quota_error) (Some 0%Z))
                   demo_data (JStr "Animate a circle") empty_world quota_error _ _ _));
    reflexivity.
Defined.

Lemma generate_rejects_error_text_witness :
  fst (@generate (demo_backend (Ok answer_with_error_text) (Some 0%Z)) (BodyJson demo_data)
         empty_world) =
    Ok (reply [("status", JStr "error"); ("message", JStr (scanned_code answer_with_error_text))]).
Proof.
  refine (proj1 (@generate_rejects_error_text (demo_backend (Ok answer_with_error_text) (Some 0%Z))
                   demo_data (JStr "Animate a circle") empty_world answer_with_error_text _ _ _ _));
    reflexivity.
Defined.

Lemma generate_render_failure_witness :
  fst (@generate (demo_backend (Ok sample_answer) (Some 1%Z)) (BodyJson demo_data) empty_world) =
    Ok (reply [("status", JStr "error"); ("details", JStr "Traceback: no scene")]).
Proof.
  refine (@generate_render_failure (demo_backend (Ok sample_answer) (Some 1%Z))
            demo_data (JStr "Animate a circle") empty_world sample_answer
            (CompletedProcess demo_argv 1 "Rendered." "Traceback: no scene")
            (<[source_path := scanned_code sample_answer]> ∅) _ _ _ _ _ _);
    (reflexivity || discriminate).
Defined.

Lemma generate_success_witness :
  fst (@generate (demo_backend (Ok sample_answer) (Some 0%Z)) (BodyJson demo_data) empty_world) =
    Ok (reply [("status", JStr "success"); ("scene_name", JStr "Demo"); ("details", JStr "Rendered.")]).
Proof.
  refine (proj1 (@generate_success (demo_backend (Ok sample_answer) (Some 0%Z))
            demo_data (JStr "Animate a circle") empty_world sample_answer
            (CompletedProcess demo_argv 0 "Rendered." "Traceback: no scene")
            (<[manim_output "video" "Demo" := "<mp4>"]> (<[source_path := scanned_code sample_answer]> ∅))
            _ _ _ _ _ _)); reflexivity.
Defined.

Lemma generate_process_error_witness :
  fst (@generate (demo_backend (Ok sample_answer) None) (BodyJson demo_data) empty_world) =
    Ok (reply [("status", JStr "failed");
               ("error", JStr "[Errno 2] No such file or directory: 'manim'")]).
Proof.
  refine (proj1 (@generate_process_error (demo_backend (Ok sample_answer) None)
            demo_data (JStr "Animate a circle") empty_world sample_answer
            (PyExn "FileNotFoundError" "[Errno 2] No such file or directory: 'manim'") _ _ _ _ _));
    reflexivity.
Defined.

Lemma generate_bad_body_witness :
  @generate (demo_backend (Ok sample_answer) (Some 0%Z))
    (BodyInvalid (PyExn "JSONDecodeError" "Expecting value: line 1 column 1 (char 0)")) empty_world =
    (Ok (reply [("status", JStr "failed"); ("error", JStr "Expecting value: line 1 column 1 (char 0)")]),
     empty_world).
Proof.
  apply (generate_bad_body _ _ (PyExn "JSONDecodeError" "Expecting value: line 1 column 1 (char 0)")).
  left. reflexivity.
Defined.


Lemma generate_then_video_witness :
  fst (ai_video_retrieve (Some "Demo")
         (snd (@generate (demo_backend (Ok sample_answer) (Some 0%Z)) (BodyJson demo_data) empty_world))) =
    Ok (FileResponse "media/videos/video/720p30/Demo.mp4" "video/mp4").
Proof.
  refine (@generate_then_video (demo_backend (Ok sample_answer) (Some 0%Z)) _
            demo_data (JStr "Animate a circle") empty_world sample_answer
            (CompletedProcess demo_argv 0 "Rendered." "Traceback: no scene")
            (<[manim_output "video" "Demo" := "<mp4>"]> (<[source_path := scanned_code sample_answer]> ∅))
            _ _ _ _ _ _); reflexivity.
Defined.

Lemma video_path_traversal_witness :
  fst (ai_video_retrieve (Some "../../../../private/recording") traversal_world) =
    Ok (FileResponse "media/videos/video/720p30/../../../../private/recording.mp4" "video/mp4").
Proof.
  refine (proj2 (video_path_traversal traversal_world ["private"] "recording" _ _ _ _ _));
    [by repeat constructor | reflexivity | reflexivity | vm_compute; reflexivity | vm_compute; eexists; reflexivity].
Defined.

Lemma video_path_confined_witness :
  resolve (files traversal_world) (video_path "Demo") =
    Some (rel (video_dir ++ ["Demo.mp4"])).
Proof.
  destruct (video_path_confined (files traversal_world) "Demo" eq_refl eq_refl) as [H|H];
    [vm_compute in H; discriminate | exact H].
Defined.
