(* ===== verification/Responses.v ===== *)
(** * What the two endpoints answer

    spec.md section 5 lists the answers of [POST /generate]: a JSON object
    whose [status] is ["success"], ["error"] or ["failed"], with
    [scene_name] and [details] on success and [message], [details] or
    [error] otherwise.  [generate_answer] is these shapes, as the code
    builds them (main.py 66-96), and the correctness triples of PyLogic.v
    prove that every request is answered with one of them: the outermost
    [except] of the handler turns its body's partial correctness into
    total correctness.  The answers of [GET /video] are pinned exactly by
    [Service.video_retrieve_spec]. *)

From Stdlib Require Import String List ZArith.
From stdpp Require Import base gmap strings.
From S2P Require Import Prelude SceneName Json Runtime PyLogic Service.
Import ListNotations.
Local Open Scope string_scope.

(** The four answers of [generate]; every value is a string. *)
Inductive generate_answer : response -> Prop :=
| ga_success name details :
    generate_answer (reply [("status", JStr "success"); ("scene_name", JStr name); ("details", JStr details)])
| ga_error_message m :
    generate_answer (reply [("status", JStr "error"); ("message", JStr m)])
| ga_error_details d :
    generate_answer (reply [("status", JStr "error"); ("details", JStr d)])
| ga_failed e :
    generate_answer (reply [("status", JStr "failed"); ("error", JStr e)]).

#[export] Hint Constructors generate_answer : pylogic.

(** ** Theorems *)

Section Schemas.
Context `{Backend}.

(** C28. [POST /generate] always answers, and its answer is one of the
    four JSON objects of [generate_answer]: the scene name of a success is
    a string, never [null]. *)
Theorem generate_answer_schema body : answers_with (generate body) generate_answer.
Proof.
  unfold generate. apply aw_try; [|intros e; apply aw_ret; constructor].
  py_wp; try constructor. rewrite resolve_scene_name_ok. constructor.
Qed.

End Schemas.
