(* ===== verification/EventLoop.v ===== *)
(** * Requests on one asyncio event loop (main.py 61-108 under uvicorn)

    Both endpoints are [async def].  [ai_video_retrieve] never awaits, and
    [generate] awaits only [request.json()], before any other statement of
    its body; [call_llm] and [subprocess.run] are ordinary blocking calls.
    On one event loop a coroutine runs without interruption from one
    [await] to the next, so once its body has arrived a request is handled
    from start to finish before any other request makes progress.

    [loop_step] is the scheduler: any request whose body has arrived is
    run to completion, atomically, on the shared world.  The theorem shows
    that every run of manim then sees the code its own request has just
    written.  The same atomicity means a slow model call or render stalls
    every other request, [GET /video] included. *)

From Stdlib Require Import String List ZArith.
From stdpp Require Import base gmap strings.
From S2P Require Import Prelude CodeExtractor SceneName OsPath Json Runtime Llm Service.
Import ListNotations.
Local Open Scope string_scope.
Local Open Scope list_scope.

Inductive request :=
| GenerateReq (body : request_body)
| VideoReq (query : option string).

(** The shared world, the requests not yet answered (with their ids) and
    the answers given, in order. *)
Record loop_state := LoopState {
  lworld : world;
  pending : list (nat * request);
  answered : list (nat * response) }.

(** Every run of a process in the trace comes right after a write of
    [video.py], the files it starts on hold that write, and it renders the
    scene that the written code names. *)
Inductive run_after_write : list event -> Prop :=
| raw_nil : run_after_write []
| raw_llm req tr : run_after_write tr -> run_after_write (LlmCall req :: tr)
| raw_write p c tr :
    match tr with ProcessRun _ _ :: _ => False | _ => True end ->
    run_after_write tr -> run_after_write (FileWrite p c :: tr)
| raw_pair c fs tr :
    fs !! source_path = Some c -> run_after_write tr ->
    run_after_write (FileWrite source_path c ::
                     ProcessRun ["manim"; "-qm"; "video.py"; scanned_name c] fs :: tr).

#[export] Hint Constructors run_after_write : pystr.

Section Loop.
Context `{Backend}.

(** The route a request takes. *)
Definition handle (rq : request) : PyM response :=
  match rq with
  | GenerateReq body => generate body
  | VideoReq query => ai_video_retrieve query
  end.

(** One step of the loop: a pending request, any of them, is handled to
    completion. *)
Inductive loop_step : loop_state -> loop_state -> Prop :=
| loop_run w pre id rq post ans r w' :
    handle rq w = (Ok r, w') ->
    loop_step (LoopState w (pre ++ (id, rq) :: post) ans)
              (LoopState w' (pre ++ post) (ans ++ [(id, r)])).

End Loop.

(** ** A concrete schedule *)

Definition demo_B : Backend := demo_backend (Ok sample_answer) (Some 0%Z).

Definition demo_tasks : list (nat * request) :=
  [(1, GenerateReq (BodyJson demo_data)); (2, VideoReq (Some "Demo"))].

Definition answer_of (o : py_result response * world) : response :=
  match fst o with Ok r => r | Raise _ => reply [] end.

(** The second request is answered first, then the first. *)
Definition demo_w1 : world := snd (@handle demo_B (VideoReq (Some "Demo")) empty_world).
Definition demo_w2 : world := snd (@handle demo_B (GenerateReq (BodyJson demo_data)) demo_w1).

Definition demo_final : loop_state :=
  LoopState demo_w2 []
    [(2, answer_of (@handle demo_B (VideoReq (Some "Demo")) empty_world));
     (1, answer_of (@handle demo_B (GenerateReq (BodyJson demo_data)) demo_w1))].

Section LoopProperties.
Context `{Backend}.

(** ** Lemmas *)

Lemma run_after_write_head tr :
  run_after_write tr -> match tr with ProcessRun _ _ :: _ => False | _ => True end.
Proof. intros Hr. inv Hr; exact I. Qed.

Lemma run_after_write_app a b :
  run_after_write a -> run_after_write b -> run_after_write (a ++ b).
Proof.
  intros Ha Hb. induction Ha as [|req tr _ IH|p c tr Hh _ IH|c fs tr Hc _ IH]; simpl.
  - exact Hb.
  - constructor. exact IH.
  - constructor; [|exact IH]. destruct tr as [|e tr]; [exact (run_after_write_head b Hb) | exact Hh].
  - constructor; [exact Hc | exact IH].
Qed.

Lemma ai_video_retrieve_trace query w : trace (snd (ai_video_retrieve query w)) = trace w.
Proof.
  unfold ai_video_retrieve, try_except, py_bind, py_print, path_exists. cbn -[os_path_exists].
  destruct (os_path_exists _ _); reflexivity.
Qed.

Lemma handle_total rq w : exists r w', handle rq w = (Ok r, w').
Proof. destruct rq; apply try_except_total; intros e w'; eauto. Qed.

(** One request adds a segment to the trace in which every run follows
    its own write. *)
Lemma handle_segment rq w r w' :
  handle rq w = (Ok r, w') -> exists seg, trace w' = trace w ++ seg /\ run_after_write seg.
Proof.
  intros Hh. destruct rq as [body|query]; simpl in Hh.
  - pose proof (generate_world body w) as Ht. rewrite Hh in Ht. simpl in Ht.
    destruct Ht as [[Ht _]|[[req [Ht _]]|[req [code [Ht _]]]]].
    + exists []. rewrite app_nil_r. auto with pystr.
    + exists [LlmCall req]. auto with pystr.
    + eexists. split; [exact Ht|]. do 2 constructor; [apply lookup_insert_eq | constructor].
  - exists []. rewrite app_nil_r. split; [|constructor].
    pose proof (ai_video_retrieve_trace query w) as Ht. rewrite Hh in Ht. exact Ht.
Qed.

(** ** Properties of the loop *)

(** C7. On one event loop there is no race on [video.py]: in every
    reachable state, every run of manim comes right after a write of
    [video.py], starts on the code that write put there, and renders the
    scene that this code names. *)
Theorem loop_runs_see_own_code w0 tasks s :
  star loop_step (LoopState w0 tasks []) s ->
  run_after_write (trace w0) -> run_after_write (trace (lworld s)).
Proof.
  intros Hs H0. remember (LoopState w0 tasks []) as s0 eqn:E0.
  induction Hs as [s|s1 s2 s3 _ IH Hstep]; subst; [exact H0|].
  specialize (IH eq_refl). inv Hstep. simpl in *.
  match goal with Hh : handle _ _ = _ |- _ => destruct (handle_segment _ _ _ _ Hh) as [seg [-> Hseg]] end.
  apply run_after_write_app; assumption.
Qed.

End LoopProperties.

(** ** The schedule of the two requests *)

Lemma demo_schedule : star (@loop_step demo_B) (LoopState empty_world demo_tasks []) demo_final.
Proof.
  eapply star_snoc; [eapply star_snoc; [apply star_refl|]|].
  - exact (@loop_run demo_B empty_world [(1, GenerateReq (BodyJson demo_data))] 2
             (VideoReq (Some "Demo")) [] [] _ demo_w1 eq_refl).
  - exact (@loop_run demo_B demo_w1 [] 1 (GenerateReq (BodyJson demo_data)) [] _ _ demo_w2 eq_refl).
Qed.

Lemma loop_runs_see_own_code_witness : run_after_write (trace (lworld demo_final)).
Proof. exact (@loop_runs_see_own_code demo_B empty_world demo_tasks demo_final demo_schedule raw_nil). Defined.
