(* ===== verification/Cors.v ===== *)
(** * The CORS middleware and the HTTP application (main.py 14-21)

    main.py installs Starlette's [CORSMiddleware] with two allowed
    origins, credentials, and every method and header.  The middleware
    (starlette/middleware/cors.py) stands between the server and the
    routes:
    - a request without an [Origin] header goes to the application
      untouched;
    - a preflight ([OPTIONS] with [Access-Control-Request-Method]) is
      answered by the middleware itself, 200 ["OK"] or 400 ["Disallowed
      CORS ..."], without reaching the application;
    - any other request is handled by the application, and the middleware
      adds the CORS headers to its answer: the request's origin is echoed
      in [Access-Control-Allow-Origin] only when it is allowed.

    [cors_init] computes what [CORSMiddleware.__init__] stores,
    [preflight_response] and [simple_response] are the two paths of
    [__call__], [fastapi_app] is the router of the two endpoints of
    main.py, and [serve] is the whole stack with its outermost
    [ServerErrorMiddleware].  Headers are lists of (name, value) in order;
    of the headers the application sets itself only [content-type] is
    kept. *)

From Stdlib Require Import String Ascii List ZArith Bool.
From stdpp Require Import base list sorting pretty strings.
From S2P Require Import Prelude PyStr Json Runtime Service EventLoop.
Import ListNotations.
Local Open Scope string_scope.
Local Open Scope list_scope.

(** ** HTTP messages *)

(** Header lists as ASGI carries them: names in lower case, in order. *)
Definition headers := list (string * string).

Record http_request := HttpRequest {
  req_method : string;
  req_headers : headers;
  req_route : request }.

Inductive http_body :=
| AppBody (r : response)
| PlainText (text : string).

Record http_response := HttpResponse {
  status_code : Z;
  resp_headers : headers;
  resp_body : http_body }.

(** [headers.get(name)]: the first value under the name. *)
Fixpoint header_get (name : string) (hs : headers) : option string :=
  match hs with
  | [] => None
  | (k, v) :: hs' => if String.eqb k name then Some v else header_get name hs'
  end.

Definition drop_key (name : string) (hs : headers) : headers :=
  filter (fun kv => negb (String.eqb kv.1 name)) hs.

(** [headers[name] = value] on [MutableHeaders], and on a [dict]: the
    first entry under the name takes the value and the later ones are
    removed; without one, the entry is appended. *)
Fixpoint header_set (name value : string) (hs : headers) : headers :=
  match hs with
  | [] => [(name, value)]
  | (k, v) :: hs' =>
      if String.eqb k name then (name, value) :: drop_key name hs'
      else (k, v) :: header_set name value hs'
  end.

(** [str.lower] on Latin-1. *)
Definition ascii_lower (c : ascii) : ascii :=
  let n := nat_of_ascii c in
  if (Nat.leb 65 n && Nat.leb n 90) || (Nat.leb 192 n && Nat.leb n 222 && negb (Nat.eqb n 215))
  then ascii_of_nat (n + 32) else c.

Fixpoint str_lower (s : string) : string :=
  match s with "" => "" | String c s' => String (ascii_lower c) (str_lower s') end.

(** [x in l] on a list of strings. *)
Definition str_in (x : string) (l : list string) : bool := existsb (String.eqb x) l.

(** ** The configuration of main.py 15-21 *)

Record cors_config := CorsConfig {
  allow_origins : list string;
  allow_credentials : bool;
  allow_methods : list string;
  allow_headers : list string }.

Definition app_cors : cors_config :=
  CorsConfig ["http://localhost:5173"; "http://127.0.0.1:5173"] true ["*"] ["*"].

(** ** [CORSMiddleware] *)

Definition all_methods : list string := ["DELETE"; "GET"; "HEAD"; "OPTIONS"; "PATCH"; "POST"; "PUT"].

Definition safelisted_headers : list string :=
  ["Accept"; "Accept-Language"; "Content-Language"; "Content-Type"].

(** What [__init__] stores (no [allow_origin_regex], no
    [expose_headers], [max_age] 600). *)
Record cors_middleware := CorsMiddleware {
  mw_allow_origins : list string;
  mw_allow_methods : list string;
  mw_allow_headers : list string;
  mw_allow_all_origins : bool;
  mw_allow_all_headers : bool;
  mw_preflight_explicit_allow_origin : bool;
  mw_simple_headers : headers;
  mw_preflight_headers : headers }.

Definition cors_init (c : cors_config) : cors_middleware :=
  let methods := if str_in "*" (allow_methods c) then all_methods else allow_methods c in
  let all_origins := str_in "*" (allow_origins c) in
  let all_headers := str_in "*" (allow_headers c) in
  let explicit := negb all_origins || allow_credentials c in
  let simple :=
    (if all_origins then [("Access-Control-Allow-Origin", "*")] else [])
    ++ (if allow_credentials c then [("Access-Control-Allow-Credentials", "true")] else []) in
  let hdrs := merge_sort String.le (remove_dups (safelisted_headers ++ allow_headers c)) in
  let preflight :=
    (if explicit then [("Vary", "Origin")] else [("Access-Control-Allow-Origin", "*")])
    ++ [("Access-Control-Allow-Methods", py_join ", " methods); ("Access-Control-Max-Age", "600")]
    ++ (if negb (bool_decide (hdrs = [])) && negb all_headers
        then [("Access-Control-Allow-Headers", py_join ", " hdrs)] else [])
    ++ (if allow_credentials c then [("Access-Control-Allow-Credentials", "true")] else []) in
  CorsMiddleware (allow_origins c) methods (map str_lower hdrs) all_origins all_headers explicit
    simple preflight.

Definition is_allowed_origin (m : cors_middleware) (origin : string) : bool :=
  mw_allow_all_origins m || str_in origin (mw_allow_origins m).

(** [PlainTextResponse(text, status_code, headers)]: the given headers
    with lower-case names, then the length and the type of the body. *)
Definition plain_text (status : Z) (hs : headers) (text : string) : http_response :=
  HttpResponse status
    (map (fun kv => (str_lower kv.1, kv.2)) hs
     ++ [("content-length", pretty (String.length text)); ("content-type", "text/plain; charset=utf-8")])
    (PlainText text).

(** [preflight_response]: the answer to a preflight request. *)
Definition preflight_response (m : cors_middleware) (origin requested_method : string)
    (requested_headers : option string) : http_response :=
  let origin_ok := is_allowed_origin m origin in
  let hs1 := if origin_ok && mw_preflight_explicit_allow_origin m
             then header_set "Access-Control-Allow-Origin" origin (mw_preflight_headers m)
             else mw_preflight_headers m in
  let f_origin := if origin_ok then [] else ["origin"] in
  let f_method := if str_in requested_method (mw_allow_methods m) then [] else ["method"] in
  let '(hs2, f_headers) :=
    match requested_headers with
    | Some rh =>
        if mw_allow_all_headers m then (header_set "Access-Control-Allow-Headers" rh hs1, [])
        else (hs1, if forallb (fun h => str_in (py_strip h) (mw_allow_headers m))
                             (map str_lower (py_split "," rh))
                   then [] else ["headers"])
    | None => (hs1, [])
    end in
  match f_origin ++ f_method ++ f_headers with
  | [] => plain_text 200 hs2 "OK"
  | failures => plain_text 400 hs2 ("Disallowed CORS " +:+ py_join ", " failures)
  end.

(** [allow_explicit_origin]: echo the origin and add it to [Vary]. *)
Definition allow_explicit_origin (hs : headers) (origin : string) : headers :=
  let hs1 := header_set "access-control-allow-origin" origin hs in
  match header_get "vary" hs1 with
  | Some v => header_set "vary" (v +:+ ", Origin") hs1
  | None => header_set "vary" "Origin" hs1
  end.

(** [send]: the CORS headers added to the application's answer. *)
Definition simple_response (m : cors_middleware) (req_hs : headers) (origin : string)
    (r : http_response) : http_response :=
  let hs := fold_left (fun hs kv => header_set (str_lower kv.1) kv.2 hs)
              (mw_simple_headers m) (resp_headers r) in
  let has_cookie := bool_decide (is_Some (header_get "cookie" req_hs)) in
  let hs' := if (mw_allow_all_origins m && has_cookie)
                || (negb (mw_allow_all_origins m) && is_allowed_origin m origin)
             then allow_explicit_origin hs origin else hs in
  HttpResponse (status_code r) hs' (resp_body r).

(** [__call__]. *)
Definition cors_call (m : cors_middleware) (app : http_request -> PyM http_response)
    (rq : http_request) : PyM http_response :=
  let hs := req_headers rq in
  match header_get "origin" hs with
  | None => app rq
  | Some origin =>
      match header_get "access-control-request-method" hs with
      | Some requested_method =>
          if String.eqb (req_method rq) "OPTIONS"
          then py_ret (preflight_response m origin requested_method
                         (header_get "access-control-request-headers" hs))
          else r <- app rq ;; py_ret (simple_response m hs origin r)
      | None => r <- app rq ;; py_ret (simple_response m hs origin r)
      end
  end.

(** ** The application *)

(** The method each route of main.py is declared with (lines 61, 98). *)
Definition route_method (rq : request) : string :=
  match rq with GenerateReq _ => "POST" | VideoReq _ => "GET" end.

Definition content_type (r : response) : string :=
  match r with JsonResponse _ => "application/json" | FileResponse _ mt => mt end.

Section App.
Context `{Backend}.

(** The router: the endpoint's handler, or 405 for another method. *)
Definition fastapi_app (rq : http_request) : PyM http_response :=
  if String.eqb (req_method rq) (route_method (req_route rq)) then
    r <- handle (req_route rq) ;;
    py_ret (HttpResponse 200 [("content-type", content_type r)] (AppBody r))
  else
    py_ret (HttpResponse 405 [("allow", route_method (req_route rq)); ("content-type", "application/json")]
              (AppBody (reply [("detail", JStr "Method Not Allowed")]))).

(** The stack [app] of main.py 14-21: [ServerErrorMiddleware] around
    [CORSMiddleware] around the router. *)
Definition serve (rq : http_request) : PyM http_response :=
  try_except (cors_call (cors_init app_cors) fastapi_app rq)
    (fun _ => py_ret (plain_text 500 [] "Internal Server Error")).

End App.

(** ** Requests of a browser *)

(** A page of another site posts a prompt. *)
Definition foreign_post : http_request :=
  HttpRequest "POST" [("origin", "http://attacker.example"); ("content-type", "text/plain")]
    (GenerateReq (BodyJson demo_data)).

(** The front end on port 5173 asks for a video. *)
Definition local_get : http_request :=
  HttpRequest "GET" [("origin", "http://localhost:5173")] (VideoReq (Some "Demo")).

(** The front end's preflight before it posts JSON. *)
Definition local_preflight : http_request :=
  HttpRequest "OPTIONS" [("origin", "http://localhost:5173"); ("access-control-request-method", "POST");
                         ("access-control-request-headers", "content-type")]
    (GenerateReq (BodyJson demo_data)).

(** ** Lemmas *)

Lemma header_get_app k hs1 hs2 :
  header_get k (hs1 ++ hs2) = match header_get k hs1 with Some v => Some v | None => header_get k hs2 end.
Proof. induction hs1 as [|[k' v'] hs1 IH]; cbn; [reflexivity|]. destruct (String.eqb k' k); [reflexivity | exact IH]. Qed.

(** Setting a header that is absent appends it. *)
Lemma header_set_absent k v hs : header_get k hs = None -> header_set k v hs = hs ++ [(k, v)].
Proof.
  induction hs as [|[k' v'] hs IH]; cbn; [reflexivity|].
  destruct (String.eqb k' k); [discriminate | intros H; rewrite IH by exact H; reflexivity].
Qed.

Lemma allowed_app_cors origin :
  is_allowed_origin (cors_init app_cors) origin = str_in origin (allow_origins app_cors).
Proof. reflexivity. Qed.

(** The preflight answer under the configuration of main.py. *)
Lemma preflight_app_cors origin meth rh :
  preflight_response (cors_init app_cors) origin meth rh =
    let ok := str_in origin (allow_origins app_cors) in
    let hs := [("Vary", "Origin"); ("Access-Control-Allow-Methods", py_join ", " all_methods);
               ("Access-Control-Max-Age", "600"); ("Access-Control-Allow-Credentials", "true")]
              ++ (if ok then [("Access-Control-Allow-Origin", origin)] else [])
              ++ (match rh with Some h => [("Access-Control-Allow-Headers", h)] | None => [] end) in
    match (if ok then [] else ["origin"]) ++ (if str_in meth all_methods then [] else ["method"]) with
    | [] => plain_text 200 hs "OK"
    | failures => plain_text 400 hs ("Disallowed CORS " +:+ py_join ", " failures)
    end.
Proof.
  unfold preflight_response. rewrite allowed_app_cors.
  change (mw_allow_methods (cors_init app_cors)) with all_methods. cbv zeta.
  destruct (str_in origin (allow_origins app_cors)), (str_in meth all_methods), rh; reflexivity.
Qed.

(** The headers added to an answer of the application that has none of
    its own CORS headers. *)
Lemma simple_app_cors req_hs origin r :
  header_get "access-control-allow-credentials" (resp_headers r) = None ->
  header_get "access-control-allow-origin" (resp_headers r) = None ->
  header_get "vary" (resp_headers r) = None ->
  simple_response (cors_init app_cors) req_hs origin r =
    HttpResponse (status_code r)
      (resp_headers r ++ [("access-control-allow-credentials", "true")]
       ++ (if str_in origin (allow_origins app_cors)
           then [("access-control-allow-origin", origin); ("vary", "Origin")] else []))
      (resp_body r).
Proof.
  intros Hc Ho Hv. unfold simple_response.
  change (mw_simple_headers (cors_init app_cors)) with [("Access-Control-Allow-Credentials", "true")].
  change (mw_allow_all_origins (cors_init app_cors)) with false. cbn [fold_left fst snd andb orb negb].
  change (str_lower "Access-Control-Allow-Credentials") with "access-control-allow-credentials".
  rewrite header_set_absent by exact Hc. rewrite allowed_app_cors. destruct (str_in origin (allow_origins app_cors)); [|reflexivity].
  unfold allow_explicit_origin. rewrite header_set_absent by (rewrite header_get_app, Ho; reflexivity).
  rewrite !header_get_app, Hv. cbn -[header_set].
  rewrite header_set_absent by (rewrite !header_get_app, Hv; reflexivity).
  rewrite <- !app_assoc. reflexivity.
Qed.

Section AppLemmas.
Context `{Backend}.

(** The router answers, with no CORS header of its own. *)
Lemma fastapi_app_answers rq w :
  exists r w', fastapi_app rq w = (Ok r, w') /\
    header_get "access-control-allow-credentials" (resp_headers r) = None /\
    header_get "access-control-allow-origin" (resp_headers r) = None /\
    header_get "vary" (resp_headers r) = None.
Proof.
  unfold fastapi_app. destruct (String.eqb (req_method rq) (route_method (req_route rq))).
  - destruct (handle_total (req_route rq) w) as (a & w' & Ha).
    unfold py_bind. rewrite Ha. eexists _, w'. split; [reflexivity | auto].
  - eexists _, w. split; [reflexivity | auto].
Qed.

Lemma route_not_options rq : String.eqb (route_method rq) "OPTIONS" = false.
Proof. destruct rq; reflexivity. Qed.

(** A request that is not a preflight gets its handler's answer with
    the CORS headers added, and the handler's world. *)
Lemma serve_handled rq w origin a w' :
  header_get "origin" (req_headers rq) = Some origin ->
  req_method rq = route_method (req_route rq) ->
  handle (req_route rq) w = (Ok a, w') ->
  serve rq w =
    (Ok (HttpResponse 200
           ([("content-type", content_type a); ("access-control-allow-credentials", "true")]
            ++ (if str_in origin (allow_origins app_cors)
                then [("access-control-allow-origin", origin); ("vary", "Origin")] else []))
           (AppBody a)), w').
Proof.
  intros Ho Hm Ha.
  assert (Hs : (r <- fastapi_app rq ;; py_ret (simple_response (cors_init app_cors) (req_headers rq) origin r)) w =
               (Ok (simple_response (cors_init app_cors) (req_headers rq) origin
                      (HttpResponse 200 [("content-type", content_type a)] (AppBody a))), w')).
  { unfold fastapi_app. rewrite Hm, String.eqb_refl. unfold py_bind. rewrite Ha. reflexivity. }
  unfold serve, try_except, cors_call. rewrite Ho.
  destruct (header_get "access-control-request-method" (req_headers rq));
    [rewrite Hm, route_not_options|]; rewrite Hs, simple_app_cors by reflexivity; reflexivity.
Qed.

End AppLemmas.

(** ** Theorems *)

Section CorsProperties.
Context `{Backend}.

(** C31. An origin other than the two of main.py 17 never receives
    [Access-Control-Allow-Origin], whatever it sends: a browser does not
    let its pages read any answer of the service. *)
Theorem cors_disallowed_origin rq w origin :
  header_get "origin" (req_headers rq) = Some origin ->
  str_in origin (allow_origins app_cors) = false ->
  exists r w', serve rq w = (Ok r, w') /\ header_get "access-control-allow-origin" (resp_headers r) = None.
Proof.
  intros Ho Hdis. destruct (fastapi_app_answers rq w) as (r & w' & Hr & Hc & Ho' & Hv).
  assert (Hs : exists r', (r <- fastapi_app rq ;; py_ret (simple_response (cors_init app_cors) (req_headers rq) origin r)) w = (Ok r', w') /\
                          header_get "access-control-allow-origin" (resp_headers r') = None).
  { unfold py_bind. rewrite Hr. eexists. split; [reflexivity|].
    rewrite simple_app_cors, Hdis by assumption. cbn. rewrite !header_get_app, Ho'. reflexivity. }
  destruct Hs as (r' & Hs & Hn). unfold serve, try_except, cors_call. rewrite Ho.
  destruct (header_get "access-control-request-method" (req_headers rq)) as [m|];
    [destruct (String.eqb (req_method rq) "OPTIONS")|]; try (rewrite Hs; eauto).
  eexists _, w. split; [reflexivity|]. rewrite preflight_app_cors, Hdis.
  destruct (header_get "access-control-request-headers" (req_headers rq)), (str_in m all_methods); reflexivity.
Qed.

(** C32. A request that is not a preflight runs its handler exactly as
    without the middleware, from any origin, allowed or not: the answer
    and the world are the handler's, and the middleware only adds
    [Access-Control-Allow-Credentials] and, for an allowed origin, echoes
    it with [Vary: Origin]. *)
Theorem cors_simple_request rq w origin :
  header_get "origin" (req_headers rq) = Some origin ->
  req_method rq = route_method (req_route rq) ->
  exists a w', handle (req_route rq) w = (Ok a, w') /\
    serve rq w =
      (Ok (HttpResponse 200
             ([("content-type", content_type a); ("access-control-allow-credentials", "true")]
              ++ (if str_in origin (allow_origins app_cors)
                  then [("access-control-allow-origin", origin); ("vary", "Origin")] else []))
             (AppBody a)), w').
Proof.
  intros Ho Hm. destruct (handle_total (req_route rq) w) as (a & w' & Ha). exists a, w'.
  split; [exact Ha | exact (serve_handled rq w origin a w' Ho Hm Ha)].
Qed.

(** C33. A preflight is answered by the middleware alone, the world
    untouched: 200 exactly when the origin is allowed and the method is
    one of the seven of Starlette's [ALL_METHODS], 400 otherwise; the
    origin is echoed only when allowed, and the requested headers are all
    granted. *)
Theorem cors_preflight rq w origin meth :
  header_get "origin" (req_headers rq) = Some origin ->
  header_get "access-control-request-method" (req_headers rq) = Some meth ->
  req_method rq = "OPTIONS" ->
  exists r, serve rq w = (Ok r, w) /\
    status_code r = (if str_in origin (allow_origins app_cors) && str_in meth all_methods then 200 else 400)%Z /\
    header_get "access-control-allow-origin" (resp_headers r) =
      (if str_in origin (allow_origins app_cors) then Some origin else None) /\
    header_get "access-control-allow-headers" (resp_headers r) =
      header_get "access-control-request-headers" (req_headers rq).
Proof.
  intros Ho Hm Hopt. unfold serve, try_except, cors_call. rewrite Ho, Hm, Hopt. cbn [String.eqb Ascii.eqb Bool.eqb].
  eexists. split; [reflexivity|]. rewrite preflight_app_cors.
  destruct (str_in origin (allow_origins app_cors)), (str_in meth all_methods),
    (header_get "access-control-request-headers" (req_headers rq)); cbn; auto.
Qed.

End CorsProperties.

Lemma cors_disallowed_origin_witness :
  exists r w', @serve demo_B foreign_post empty_world = (Ok r, w') /\
    header_get "access-control-allow-origin" (resp_headers r) = None.
Proof. apply (@cors_disallowed_origin demo_B foreign_post empty_world "http://attacker.example"); reflexivity. Defined.

Lemma cors_simple_request_witness :
  exists a w', @handle demo_B (req_route local_get) empty_world = (Ok a, w') /\
    @serve demo_B local_get empty_world =
      (Ok (HttpResponse 200
             [("content-type", content_type a); ("access-control-allow-credentials", "true");
              ("access-control-allow-origin", "http://localhost:5173"); ("vary", "Origin")]
             (AppBody a)), w').
Proof. apply (@cors_simple_request demo_B local_get empty_world "http://localhost:5173"); reflexivity. Defined.

Lemma cors_preflight_witness :
  exists r, @serve demo_B local_preflight empty_world = (Ok r, empty_world) /\
    status_code r = 200%Z /\
    header_get "access-control-allow-origin" (resp_headers r) = Some "http://localhost:5173" /\
    header_get "access-control-allow-headers" (resp_headers r) = Some "content-type".
Proof. apply (@cors_preflight demo_B local_preflight empty_world "http://localhost:5173" "POST"); reflexivity. Defined.
