(* ===== verification/Session.v ===== *)
(** * A session of the front end through the whole stack

    The front end of the service is a page served from
    [http://localhost:5173], one of the two origins main.py 17 allows.
    To make a video it sends, one after the other:
    - the preflight its browser sends before a JSON [POST];
    - [POST /generate] with the prompt;
    - [GET /video] with the scene name of the answer.

    [front_end_session] follows the three requests through [serve]
    (Cors.v), the handlers (Service.v) and the world they share: the
    preflight is granted without touching the world, the generation
    succeeds, and the video is served, each answer readable by the page.
    This composes the middleware's contract with the handlers' contract
    and manim's output convention ([ManimContract]). *)

From Stdlib Require Import String List ZArith.
From stdpp Require Import base gmap strings.
From S2P Require Import Prelude PyStr CodeExtractor SceneName Json Runtime Llm Service EventLoop Cors.
Import ListNotations.
Local Open Scope string_scope.

Definition front_origin : string := "http://localhost:5173".

(** The preflight before a JSON [POST /generate]. *)
Definition session_preflight (data : json) : http_request :=
  HttpRequest "OPTIONS"
    [("origin", front_origin); ("access-control-request-method", "POST");
     ("access-control-request-headers", "content-type")]
    (GenerateReq (BodyJson data)).

Definition session_post (data : json) : http_request :=
  HttpRequest "POST" [("origin", front_origin); ("content-type", "application/json")]
    (GenerateReq (BodyJson data)).

Definition session_get (scene : string) : http_request :=
  HttpRequest "GET" [("origin", front_origin)] (VideoReq (Some scene)).

Section Session.
Context `{ManimContract}.

(** C26. The front end's session succeeds end to end: the preflight is
    granted (200) with the world untouched; [POST /generate] answers
    success with the scene name; [GET /video] with that name serves the
    rendered video; and every answer carries the page's origin in
    [Access-Control-Allow-Origin], so the page can read it. *)
Theorem front_end_session w data prompt text cp fs' :
  py_get data "prompt" (JStr "") = Ok prompt -> py_truthy prompt = true ->
  llm_answer (llm_calls w) (build_request prompt) = Ok text ->
  py_contains (scanned_code text) "error:" = false ->
  process_run ["manim"; "-qm"; "video.py"; scanned_name (scanned_code text)]
      (<[source_path := scanned_code text]> (files w)) = Ok (cp, fs') ->
  returncode cp = 0%Z ->
  let name := scanned_name (scanned_code text) in
  exists r1 r2 r3 w2 w3,
    serve (session_preflight data) w = (Ok r1, w) /\ status_code r1 = 200%Z /\
    header_get "access-control-allow-origin" (resp_headers r1) = Some front_origin /\
    serve (session_post data) w = (Ok r2, w2) /\ status_code r2 = 200%Z /\
    resp_body r2 = AppBody (reply [("status", JStr "success"); ("scene_name", JStr name);
                                   ("details", JStr (stdout cp))]) /\
    header_get "access-control-allow-origin" (resp_headers r2) = Some front_origin /\
    serve (session_get name) w2 = (Ok r3, w3) /\
    resp_body r3 = AppBody (FileResponse (video_path name) "video/mp4") /\
    header_get "access-control-allow-origin" (resp_headers r3) = Some front_origin.
Proof.
  intros Hg Ht Ha Hc Hp Hr. cbv zeta.
  destruct (generate_video_run data prompt w text cp fs' Hg Ht Ha Hc Hp Hr) as (w2 & E1 & E2).
  destruct (ai_video_retrieve (Some (scanned_name (scanned_code text))) w2) as [[a|e] w3] eqn:E3;
    cbn in E2; [|discriminate].
  injection E2 as <-.
  do 5 eexists. split; [reflexivity|]. split; [reflexivity|]. split; [reflexivity|].
  split; [exact (serve_handled (session_post data) w front_origin _ w2 eq_refl eq_refl E1)|].
  split; [reflexivity|]. split; [reflexivity|]. split; [reflexivity|].
  split; [exact (serve_handled (session_get (scanned_name (scanned_code text))) w2 front_origin _ w3 eq_refl eq_refl E3)|].
  split; reflexivity.
Qed.

End Session.

Lemma front_end_session_witness :
  exists r1 r2 r3 w2 w3,
    @serve demo_B (session_preflight demo_data) empty_world = (Ok r1, empty_world) /\
    status_code r1 = 200%Z /\
    header_get "access-control-allow-origin" (resp_headers r1) = Some front_origin /\
    @serve demo_B (session_post demo_data) empty_world = (Ok r2, w2) /\ status_code r2 = 200%Z /\
    resp_body r2 = AppBody (reply [("status", JStr "success"); ("scene_name", JStr "Demo");
                                   ("details", JStr "Rendered.")]) /\
    header_get "access-control-allow-origin" (resp_headers r2) = Some front_origin /\
    @serve demo_B (session_get "Demo") w2 = (Ok r3, w3) /\
    resp_body r3 = AppBody (FileResponse "media/videos/video/720p30/Demo.mp4" "video/mp4") /\
    header_get "access-control-allow-origin" (resp_headers r3) = Some front_origin.
Proof.
  exact (@front_end_session demo_B _ empty_world demo_data (JStr "Animate a circle") sample_answer
           (CompletedProcess demo_argv 0 "Rendered." "Traceback: no scene")
           (<[manim_output "video" "Demo" := "<mp4>"]> (<[source_path := scanned_code sample_answer]> ∅))
           eq_refl eq_refl eq_refl eq_refl eq_refl eq_refl).
Defined.
