(* ===== verification/Workers.v ===== *)
(** * Several worker processes sharing the working directory (spec 5)

    Served by several worker processes ([uvicorn --workers N], or
    [generate] turned into a plain [def] run on a thread pool), requests
    no longer run one at a time: each worker blocks in its own model call,
    write and render, and the workers share [video.py].  [gen_segment]
    cuts [generate] at its blocking calls into three atomic segments (up
    to the model's answer and the checks, the write, the render), each
    under the handler's [except].  [segments_refine_generate] shows that
    the segments, run back to back, are exactly [generate];
    [workers_race] exhibits an interleaving of two requests in which manim
    renders one request's scene from the other request's file. *)

From Stdlib Require Import String List ZArith.
From stdpp Require Import base gmap strings list relations.
From S2P Require Import Prelude PyStr CodeExtractor SceneName Json Runtime PyLogic Llm Service EventLoop.
Import ListNotations.
Local Open Scope string_scope.
Local Open Scope list_scope.

(** Where a request is between two blocking calls. *)
Inductive gen_pc :=
| GenStart (body : request_body)
| GenWrite (code : string) (scene_name : option string)
| GenRun (code : string) (scene_name : option string)
| GenDone (r : response).

(** main.py 95-96. *)
Definition failed_reply (e : py_exn) : response :=
  reply [("status", JStr "failed"); ("error", JStr (exn_msg e))].

Section Segments.
Context `{Backend}.

(** main.py 61-96, cut before the write (line 80) and before the run
    (line 83). *)
Definition gen_segment (pc : gen_pc) : PyM gen_pc :=
  match pc with
  | GenStart body =>
      try_except
        (data <- request_json body ;;
         prompt <- py_lift (py_get data "prompt" (JStr "")) ;;
         if negb (py_truthy prompt) then
           py_ret (GenDone (reply [("status", JStr "error"); ("message", JStr "Prompt is required")]))
         else
           py_print [JStr "llm prompt : "; prompt] ;;
           llm_output <- call_llm prompt ;;
           py_print [JStr "llm output :"; JStr llm_output] ;;
           if py_contains llm_output "error:" then
             py_ret (GenDone (reply [("status", JStr "error"); ("message", JStr llm_output)]))
           else
             let scene_name := resolve_scene_name llm_output in
             py_print [py_opt_str scene_name] ;;
             py_ret (GenWrite llm_output scene_name))
        (fun e => py_ret (GenDone (failed_reply e)))
  | GenWrite code scene_name =>
      try_except (write_text source_path code ;; py_ret (GenRun code scene_name))
        (fun e => py_ret (GenDone (failed_reply e)))
  | GenRun code scene_name =>
      try_except
        (argv <- py_lift (manim_argv scene_name) ;;
         result <- subprocess_run argv ;;
         if negb (Z.eqb (returncode result) 0) then
           py_ret (GenDone (reply [("status", JStr "error"); ("details", JStr (stderr result))]))
         else
           py_ret (GenDone (reply [("status", JStr "success"); ("scene_name", py_opt_str scene_name);
                                   ("details", JStr (stdout result))])))
        (fun e => py_ret (GenDone (failed_reply e)))
  | GenDone r => py_ret (GenDone r)
  end.

Fixpoint gen_steps (n : nat) (pc : gen_pc) : PyM gen_pc :=
  match n with
  | 0 => py_ret pc
  | S n' => py_bind (gen_segment pc) (gen_steps n')
  end.

(** The workers: the shared world and where each request is. *)
Record workers := Workers { wworld : world; threads : list gen_pc }.

(** Any unfinished request runs its next segment. *)
Inductive worker_step : workers -> workers -> Prop :=
| wstep w ts i pc pc' w' :
    ts !! i = Some pc ->
    match pc with GenDone _ => False | _ => True end ->
    gen_segment pc w = (Ok pc', w') ->
    worker_step (Workers w ts) (Workers w' (<[i := pc']> ts)).

End Segments.

(** Unfold the segments and [generate] down to the steps of their bodies. *)
Ltac unfold_segments := unfold gen_steps, gen_segment; unfold_generate.

(** ** Two requests on two workers *)

(** An answer whose code defines the scene [scene]. *)
Definition answer_for (scene : string) : string :=
  "```python" +:+ newline +:+ "from manim import *" +:+ newline +:+ "class " +:+ scene
  +:+ "(Scene):" +:+ newline +:+ "    pass" +:+ newline +:+ "```".

(** The model names the first scene [SceneA] and the second [SceneB];
    manim always succeeds. *)
Definition race_backend : Backend := {|
  llm_answer := fun n _ => if Nat.eqb n 0 then Ok (answer_for "SceneA") else Ok (answer_for "SceneB");
  process_run := fun argv fs => Ok (CompletedProcess argv 0 "Rendered." "", fs) |}.

Definition next_pc (r : py_result gen_pc * world) : gen_pc :=
  match fst r with Ok pc => pc | Raise _ => GenStart (BodyJson JNull) end.

Definition race_start : workers :=
  Workers empty_world [GenStart (BodyJson demo_data); GenStart (BodyJson demo_data)].

(** Request [i] runs its next segment. *)
Definition race_run (i : nat) (s : workers) : workers :=
  match threads s !! i with
  | Some pc =>
      let r := @gen_segment race_backend pc (wworld s) in
      Workers (snd r) (<[i := next_pc r]> (threads s))
  | None => s
  end.

(** Both model calls, both writes, then the render of the first request. *)
Definition race_final : workers :=
  race_run 0 (race_run 1 (race_run 0 (race_run 1 (race_run 0 race_start)))).

Definition codeA : string := scanned_code (answer_for "SceneA").
Definition codeB : string := scanned_code (answer_for "SceneB").

Lemma race_step i s :
  (exists pc, threads s !! i = Some pc /\ match pc with GenDone _ => False | _ => True end /\
     fst (@gen_segment race_backend pc (wworld s)) =
       Ok (next_pc (@gen_segment race_backend pc (wworld s)))) ->
  @worker_step race_backend s (race_run i s).
Proof.
  intros [pc [Hpc [Hnd Hok]]]. destruct s as [w ts]. unfold race_run. simpl in *. rewrite Hpc.
  apply (wstep w ts i pc); [exact Hpc | exact Hnd|].
  destruct (gen_segment pc w) as [r w'] eqn:E. simpl in *. rewrite Hok. reflexivity.
Qed.

Lemma race_schedule : star (@worker_step race_backend) race_start race_final.
Proof.
  unfold race_final.
  repeat (eapply star_snoc;
          [|apply race_step; eexists; split; [reflexivity|split; [exact I|reflexivity]]]).
  apply star_refl.
Qed.

Lemma race_trace :
  trace (wworld race_final) =
    [LlmCall (build_request (JStr "Animate a circle")); LlmCall (build_request (JStr "Animate a circle"));
     FileWrite source_path codeA; FileWrite source_path codeB;
     ProcessRun ["manim"; "-qm"; "video.py"; "SceneA"]
                (<[source_path := codeB]> (<[source_path := codeA]> ∅))].
Proof. vm_compute. reflexivity. Qed.

(** ** Properties *)

Section SegmentProperties.
Context `{Backend}.

(** The three segments run back to back compute exactly what
    [generate] computes: the same answer and the same world, on every
    path. *)
Theorem segments_refine_generate body w :
  gen_steps 3 (GenStart body) w =
    match generate body w with
    | (Ok r, w') => (Ok (GenDone r), w')
    | (Raise e, w') => (Raise e, w')
    end.
Proof.
  destruct body as [data|e]; [|reflexivity].
  destruct (py_get data "prompt" (JStr "")) as [prompt|e] eqn:Hg;
    [|unfold_segments; cbn; rewrite Hg; reflexivity].
  destruct (py_truthy prompt) eqn:Ht; [|unfold_segments; cbn; rewrite Hg; cbn; rewrite Ht; reflexivity].
  destruct (llm_answer (llm_calls w) (build_request prompt)) as [text|e] eqn:Ha;
    unfold_segments; cbn; rewrite Hg; cbn; rewrite Ht; cbn.
  - rewrite (call_llm_answer prompt (with_console w [JStr "llm prompt : "; prompt]) text Ha). cbn.
    destruct (py_contains (scanned_code text) "error:") eqn:Hc; cbn; [reflexivity|].
    rewrite resolve_scene_name_ok. cbn. unfold subprocess_run. cbn.
    destruct (process_run _ _) as [[cp fs']|e]; cbn; [|reflexivity].
    destruct (negb (returncode cp =? 0)%Z); reflexivity.
  - rewrite (call_llm_failure prompt (with_console w [JStr "llm prompt : "; prompt]) e Ha).
    cbn. rewrite error_sentinel_contains. reflexivity.
Qed.

End SegmentProperties.

(** C10. With two workers the race of spec section 5 happens: after both
    model calls and both writes, manim is asked to render [SceneA] from a
    [video.py] that holds the code of [SceneB], and the trace breaks the
    invariant that one event loop keeps. *)
Theorem workers_race :
  exists (B : Backend) (s : workers),
    star (@worker_step B) race_start s /\
    (exists fs c, In (ProcessRun ["manim"; "-qm"; "video.py"; "SceneA"] fs) (trace (wworld s)) /\
                  fs !! source_path = Some c /\ scanned_name c = "SceneB") /\
    ~ run_after_write (trace (wworld s)).
Proof.
  exists race_backend, race_final. split; [exact race_schedule|]. rewrite race_trace. split.
  - eexists _, codeB. split; [simpl; right; right; right; right; left; reflexivity|].
    split; [apply lookup_insert_eq | vm_compute; reflexivity].
  - intros Hr.
    repeat match goal with H : run_after_write (_ :: _) |- _ => inversion H; subst; clear H end;
      simpl in *; try contradiction.
    match goal with H : scanned_name _ = _ |- _ => vm_compute in H; discriminate end.
Qed.
