(* ===== verification/PyList.v ===== *)
(** * Python lists and [for] loops used by video.py

    [arr[j]] reads a list by index and raises [IndexError] out of range;
    [arr[j] = v] writes by index and raises likewise (stdpp's [<[j:=v]>]
    does nothing out of range, so [py_setitem] tests the bound first);
    [for j in range(k)] runs a body over [0 .. k-1], stopping at the first
    exception.  [py_result] is made a monad with stdpp's [MRet]/[MBind]
    instances, so that the loop bodies read [x ← arr[j]; ...]. *)

From Stdlib Require Import String ZArith.
From stdpp Require Import base list.
From S2P Require Import Prelude.

(** ** Definitions *)

#[export] Instance py_result_ret : MRet py_result := λ A a, Ok a.
#[export] Instance py_result_bind : MBind py_result := λ A B f r,
  match r with Ok a => f a | Raise e => Raise e end.

Definition index_error : py_exn :=
  PyExn "IndexError" "list index out of range".

Definition assignment_index_error : py_exn :=
  PyExn "IndexError" "list assignment index out of range".

(** [l[j]] for [j >= 0]. *)
Definition py_getitem {A} (l : list A) (j : nat) : py_result A :=
  match l !! j with Some x => Ok x | None => Raise index_error end.

(** [l[j] = x] for [j >= 0]. *)
Definition py_setitem {A} (l : list A) (j : nat) (x : A) : py_result (list A) :=
  if decide (j < length l) then Ok (<[j := x]> l) else Raise assignment_index_error.

(** [range(k)] for [k >= 0]; [range] of a negative bound is empty, as is
    [seq 0 0]. *)
Definition py_range (k : nat) : list nat := seq 0 k.

(** [for j in js: body], threading the state the body updates. *)
Fixpoint py_for {St} (js : list nat) (body : nat -> St -> py_result St) (s : St) : py_result St :=
  match js with
  | [] => Ok s
  | j :: js' => s' ← body j s; py_for js' body s'
  end.

(** ** Lemmas *)

Lemma bind_Ok {A B} (a : A) (f : A -> py_result B) : (Ok a ≫= f) = f a.
Proof. reflexivity. Qed.

Lemma bind_Raise {A B} e (f : A -> py_result B) : (Raise e ≫= f) = Raise e.
Proof. reflexivity. Qed.

Lemma py_getitem_lookup {A} (l : list A) j x : l !! j = Some x -> py_getitem l j = Ok x.
Proof. unfold py_getitem. intros ->. reflexivity. Qed.

Lemma py_setitem_insert {A} (l : list A) j x : j < length l -> py_setitem l j x = Ok (<[j := x]> l).
Proof. unfold py_setitem. intros H. rewrite decide_True by exact H. reflexivity. Qed.

Lemma py_for_nil {St} (body : nat -> St -> py_result St) s : py_for [] body s = Ok s.
Proof. reflexivity. Qed.

Lemma py_for_cons {St} j js (body : nat -> St -> py_result St) s :
  py_for (j :: js) body s = (s' ← body j s; py_for js body s').
Proof. reflexivity. Qed.

Lemma py_for_app {St} js1 js2 (body : nat -> St -> py_result St) s :
  py_for (js1 ++ js2) body s = (s' ← py_for js1 body s; py_for js2 body s').
Proof.
  revert s; induction js1 as [|j js1 IH]; intros s; simpl; [reflexivity|].
  destruct (body j s); simpl; [apply IH | reflexivity].
Qed.

(** A loop whose body keeps an invariant and never raises from a state
    satisfying it never raises and ends in the invariant. *)
Lemma py_for_invariant {St} (P : nat -> St -> Prop) (body : nat -> St -> py_result St) j0 k s :
  P j0 s ->
  (forall j s, j0 <= j < j0 + k -> P j s -> exists s', body j s = Ok s' /\ P (S j) s') ->
  exists s', py_for (seq j0 k) body s = Ok s' /\ P (j0 + k) s'.
Proof.
  revert j0 s; induction k as [|k IH]; intros j0 s H0 Hb.
  - exists s. rewrite Nat.add_0_r. auto.
  - destruct (Hb j0 s ltac:(lia) H0) as [s1 [Hs1 H1]].
    destruct (IH (S j0) s1 H1) as [s' [Hs' HP]]; [intros j t Hj; apply Hb; lia|].
    exists s'. simpl. rewrite Hs1. simpl. split; [exact Hs' | rewrite Nat.add_succ_r; exact HP].
Qed.

#[export] Hint Rewrite @bind_Ok @bind_Raise @py_for_nil @py_for_cons : pyrw.
