(* ===== verification/Bubble.v ===== *)
(** * The bubble sort of video.py, on the array alone (lines 30-44)

    [compare_swap] is one iteration of the inner loop as far as [arr] is
    concerned (lines 35 and 43-44: the two reads, the test and the tuple
    swap); [bubble_pass] is the inner loop of pass [i] and [bubble_sort]
    the two loops.  The scene of [Scene] performs exactly these updates of
    [arr] between its animations.

    The reference is structural: [bubble_up_from x r] carries the larger
    element to the right through [x :: r].  The index loop of one pass is
    shown to compute it on the unsorted prefix ([bubble_pass_ref]); the
    passes keep the invariant "a prefix, then a sorted suffix of the
    largest elements" ([sorted_suffix]).  From them: the loops never
    raise, return a sorted permutation, and so equal stdpp's [merge_sort]
    ([bubble_sort_spec]).  A swap of an adjacent inverted pair removes
    exactly one inversion ([inversions_swap]), and a sorted list has none;
    [Scene] counts the swaps of the animation with them. *)

From Stdlib Require Import String ZArith Lia Permutation Sorted.
From stdpp Require Import base list sorting.
From S2P Require Import Prelude PyList.

Local Open Scope Z_scope.

(** ** The code *)

(** Lines 44 and 54: [l[j], l[j + 1] = l[j + 1], l[j]]: the right-hand
    tuple is read first, then the two items are assigned left to right. *)
Definition swap_adjacent {A} (j : nat) (l : list A) : py_result (list A) :=
  y ← py_getitem l (S j);
  x ← py_getitem l j;
  l1 ← py_setitem l j y;
  py_setitem l1 (S j) x.

(** Lines 35 and 43-44: [arr[j]] and [arr[j+1]] are read, and swapped
    when [arr[j] > arr[j + 1]]. *)
Definition compare_swap (j : nat) (arr : list Z) : py_result (list Z) :=
  x ← py_getitem arr j;
  y ← py_getitem arr (S j);
  if Z.gtb x y then swap_adjacent j arr else Ok arr.

(** Line 34: [for j in range(n - i - 1)]. *)
Definition bubble_pass (n i : nat) (arr : list Z) : py_result (list Z) :=
  py_for (py_range (n - i - 1)) compare_swap arr.

(** Lines 30-31: [n = len(arr)], [for i in range(n - 1)]. *)
Definition bubble_sort (arr : list Z) : py_result (list Z) :=
  let n := length arr in
  py_for (py_range (n - 1)) (bubble_pass n) arr.

(** ** The structural reference *)

(** One pass over [x :: r]: the larger of the two front elements moves
    on. *)
Fixpoint bubble_up_from (x : Z) (r : list Z) : list Z :=
  match r with
  | [] => [x]
  | y :: r' => if Z.gtb x y then y :: bubble_up_from x r' else x :: bubble_up_from y r'
  end.

(** How many elements of [l] are smaller than [x]. *)
Fixpoint count_below (x : Z) (l : list Z) : nat :=
  match l with
  | [] => 0
  | y :: r => (if Z.ltb y x then 1 else 0) + count_below x r
  end%nat.

(** The inversions of [l]: pairs of positions [i < j] with [l[i] > l[j]]. *)
Fixpoint inversions (l : list Z) : nat :=
  match l with
  | [] => 0
  | x :: r => count_below x r + inversions r
  end%nat.

(** The passes of the structural reference, pass [i] over the first
    [n - i] elements. *)
Definition pass_ref (n i : nat) (arr : list Z) : list Z :=
  match arr with
  | [] => []
  | x :: r => bubble_up_from x (take (n - i - 1) r) ++ drop (n - i - 1) r
  end.

(** Pairs [(a, b)] with [a] in [p], [b] in [v] and [a > b]. *)
Fixpoint cross (p v : list Z) : nat :=
  match p with
  | [] => 0
  | a :: p' => count_below a v + cross p' v
  end%nat.

(** After [i] passes the array is a prefix followed by a sorted suffix
    of length [i], and every element of the prefix is at most every
    element of the suffix. *)
Definition sorted_suffix (i : nat) (arr : list Z) : Prop :=
  exists u v, arr = u ++ v /\ length v = i /\ Sorted Z.le v /\
    Forall (fun a => Forall (fun b => a <= b) v) u.

(** ** One pass *)

Lemma lookup_middle_next {A} (a r : list A) x y : (a ++ x :: y :: r) !! S (length a) = Some y.
Proof.
  replace (a ++ x :: y :: r) with ((a ++ [x]) ++ y :: r) by (rewrite <- app_assoc; reflexivity).
  apply list_lookup_middle. rewrite length_app. simpl. lia.
Qed.

Lemma getitem_middle {A} (a r : list A) x : py_getitem (a ++ x :: r) (length a) = Ok x.
Proof. apply py_getitem_lookup, list_lookup_middle. reflexivity. Qed.

Lemma getitem_middle_next {A} (a r : list A) x y : py_getitem (a ++ x :: y :: r) (S (length a)) = Ok y.
Proof. apply py_getitem_lookup, lookup_middle_next. Qed.

(** The tuple swap of two adjacent items. *)
Lemma swap_adjacent_middle {A} (a r : list A) x y :
  swap_adjacent (length a) (a ++ x :: y :: r) = Ok (a ++ y :: x :: r).
Proof.
  unfold swap_adjacent. rewrite getitem_middle_next, bind_Ok, getitem_middle, bind_Ok.
  rewrite py_setitem_insert by (rewrite length_app; simpl; lia). rewrite bind_Ok.
  rewrite insert_app_r_alt, Nat.sub_diag by lia. simpl.
  rewrite py_setitem_insert by (rewrite length_app; simpl; lia).
  rewrite insert_app_r_alt by lia. replace (S (length a) - length a)%nat with 1%nat by lia.
  reflexivity.
Qed.

Lemma split_at2 {A} (l : list A) j x y :
  l !! j = Some x -> l !! S j = Some y ->
  l = take j l ++ x :: y :: drop (S (S j)) l /\ length (take j l) = j.
Proof.
  intros Hx Hy. split.
  - rewrite <- (take_drop_middle l j x Hx) at 1. rewrite (drop_S l y (S j) Hy). reflexivity.
  - rewrite length_take. apply lookup_lt_Some in Hx. lia.
Qed.

(** The tuple swap, stated with the items it reads. *)
Lemma swap_adjacent_lookup {A} (l : list A) j x y :
  l !! j = Some x -> l !! S j = Some y ->
  swap_adjacent j l = Ok (<[S j := x]> (<[j := y]> l)).
Proof.
  intros Hx Hy. unfold swap_adjacent.
  rewrite (py_getitem_lookup _ _ y Hy), bind_Ok, (py_getitem_lookup _ _ x Hx), bind_Ok.
  rewrite py_setitem_insert by (eapply lookup_lt_Some; eauto). rewrite bind_Ok.
  rewrite py_setitem_insert; [reflexivity|]. rewrite length_insert. eapply lookup_lt_Some; eauto.
Qed.

(** The swapped list, split around the two items. *)
Lemma swap_split {A} (l : list A) j x y :
  l !! j = Some x -> l !! S j = Some y ->
  exists a r, l = a ++ x :: y :: r /\ length a = j /\ <[S j := x]> (<[j := y]> l) = a ++ y :: x :: r.
Proof.
  intros Hx Hy. destruct (split_at2 l j x y Hx Hy) as [Hl Hlen].
  remember (take j l) as a. remember (drop (S (S j)) l) as r.
  exists a, r. split; [exact Hl|]. split; [exact Hlen|].
  pose proof (swap_adjacent_lookup l j x y Hx Hy) as H1.
  rewrite Hl, <- Hlen, swap_adjacent_middle in H1. rewrite Hl, <- Hlen. congruence.
Qed.

Lemma swap_perm {A} (l : list A) j x y :
  l !! j = Some x -> l !! S j = Some y -> <[S j := x]> (<[j := y]> l) ≡ₚ l.
Proof.
  intros Hx Hy. destruct (swap_split l j x y Hx Hy) as [a [r [Hl [_ ->]]]].
  rewrite Hl. apply Permutation_app_head, perm_swap.
Qed.

Lemma swapped_lookup_j {A} (l : list A) j x y :
  (S j < length l)%nat -> <[S j := x]> (<[j := y]> l) !! j = Some y.
Proof. intros H. rewrite list_lookup_insert_ne by lia. apply list_lookup_insert_eq. lia. Qed.

Lemma swapped_lookup_Sj {A} (l : list A) j x y :
  (S j < length l)%nat -> <[S j := x]> (<[j := y]> l) !! S j = Some x.
Proof. intros H. apply list_lookup_insert_eq. rewrite length_insert. exact H. Qed.

Lemma swapped_lookup_other {A} (l : list A) j k x y :
  k <> j -> k <> S j -> <[S j := x]> (<[j := y]> l) !! k = l !! k.
Proof. intros H1 H2. rewrite !list_lookup_insert_ne by congruence. reflexivity. Qed.

Lemma compare_swap_lookup (l : list Z) j x y :
  l !! j = Some x -> l !! S j = Some y ->
  compare_swap j l = Ok (if Z.gtb x y then <[S j := x]> (<[j := y]> l) else l).
Proof.
  intros Hx Hy. unfold compare_swap.
  rewrite (py_getitem_lookup _ _ x Hx), bind_Ok, (py_getitem_lookup _ _ y Hy), bind_Ok.
  destruct (Z.gtb x y); [apply swap_adjacent_lookup; assumption | reflexivity].
Qed.

(** One iteration at [j = len(a)] on [a ++ x :: y :: r]. *)
Lemma compare_swap_middle (a r : list Z) x y :
  compare_swap (length a) (a ++ x :: y :: r) =
    Ok (if Z.gtb x y then a ++ y :: x :: r else a ++ x :: y :: r).
Proof.
  unfold compare_swap. rewrite getitem_middle, bind_Ok, getitem_middle_next, bind_Ok.
  destruct (Z.gtb x y); [apply swap_adjacent_middle | reflexivity].
Qed.

(** The index loop of one pass, from [j = len(a)] for [k] iterations,
    carries [x] to the right through the next [k] elements as the
    structural pass does. *)
Lemma pass_loop k : forall (a r : list Z) x,
  (k <= length r)%nat ->
  py_for (seq (length a) k) compare_swap (a ++ x :: r) =
    Ok (a ++ bubble_up_from x (take k r) ++ drop k r).
Proof.
  induction k as [|k IH]; intros a r x Hk; [reflexivity|].
  destruct r as [|y r]; [simpl in Hk; lia|]. simpl in Hk.
  rewrite <- cons_seq, py_for_cons, compare_swap_middle. simpl.
  destruct (Z.gtb x y).
  - replace (a ++ y :: x :: r) with ((a ++ [y]) ++ x :: r) by (rewrite <- app_assoc; reflexivity).
    replace (S (length a)) with (length (a ++ [y])) by (rewrite length_app; simpl; lia).
    rewrite IH by lia. rewrite <- app_assoc. reflexivity.
  - replace (a ++ x :: y :: r) with ((a ++ [x]) ++ y :: r) by (rewrite <- app_assoc; reflexivity).
    replace (S (length a)) with (length (a ++ [x])) by (rewrite length_app; simpl; lia).
    rewrite IH by lia. rewrite <- app_assoc. reflexivity.
Qed.

(** Pass [i] of the loop is the structural pass over the first [n - i]
    elements. *)
Lemma bubble_pass_ref arr i :
  bubble_pass (length arr) i arr = Ok (pass_ref (length arr) i arr).
Proof.
  destruct arr as [|x r]; [reflexivity|].
  unfold bubble_pass, py_range, pass_ref.
  apply (pass_loop _ [] r x). simpl. lia.
Qed.

Lemma bubble_up_from_perm x r : bubble_up_from x r ≡ₚ x :: r.
Proof.
  revert x; induction r as [|y r IH]; intros x; simpl; [reflexivity|].
  destruct (Z.gtb x y).
  - rewrite IH. apply perm_swap.
  - rewrite IH. reflexivity.
Qed.

(** The pass ends with the largest element it saw. *)
Lemma bubble_up_from_max x r :
  exists l m, bubble_up_from x r = l ++ [m] /\ Forall (fun z => z <= m) (x :: r).
Proof.
  revert x; induction r as [|y r IH]; intros x; simpl.
  - exists [], x. split; [reflexivity|]. repeat constructor; lia.
  - destruct (Z.gtb x y) eqn:E.
    + apply Z.gtb_lt in E. destruct (IH x) as [l [m [-> Hm]]].
      exists (y :: l), m. split; [reflexivity|]. inv Hm. repeat constructor; auto; lia.
    + rewrite Z.gtb_ltb, Z.ltb_ge in E. destruct (IH y) as [l [m [-> Hm]]].
      exists (x :: l), m. split; [reflexivity|]. inv Hm. repeat constructor; auto; lia.
Qed.

Lemma pass_ref_perm n i arr : pass_ref n i arr ≡ₚ arr.
Proof.
  destruct arr as [|x r]; [reflexivity|]. simpl.
  rewrite bubble_up_from_perm. simpl. rewrite take_drop. reflexivity.
Qed.

(** ** The passes *)

Lemma sorted_suffix_start arr : sorted_suffix 0 arr.
Proof. exists arr, []. rewrite app_nil_r. repeat split; auto. apply Forall_forall. auto. Qed.

Lemma Forall_le_HdRel m v : Forall (fun b => m <= b) v -> HdRel Z.le m v.
Proof. intros H. destruct H; constructor. assumption. Qed.

(** Pass [i] moves the largest element of the prefix to the front of the
    suffix. *)
Lemma pass_ref_sorted_suffix n i arr :
  length arr = n -> (i < n - 1)%nat -> sorted_suffix i arr -> sorted_suffix (S i) (pass_ref n i arr).
Proof.
  intros Hlen Hi [u [v [-> [Hlv [Hv Huv]]]]].
  rewrite length_app in Hlen. destruct u as [|x r]; [simpl in Hlen; lia|]. simpl in Hlen.
  unfold pass_ref. simpl. replace (n - i - 1)%nat with (length r) by lia.
  rewrite take_app_length, drop_app_length.
  destruct (bubble_up_from_max x r) as [l [m [Hb Hm]]].
  assert (Hp : l ++ [m] ≡ₚ x :: r) by (rewrite <- Hb; apply bubble_up_from_perm).
  assert (Hin : forall a, In a l \/ a = m -> In a (x :: r)).
  { intros a Ha. apply (Permutation_in _ Hp), in_or_app. simpl. destruct Ha as [Ha | ->]; auto. }
  rewrite List.Forall_forall in Huv, Hm.
  exists l, (m :: v). rewrite Hb, <- app_assoc. repeat split.
  - simpl. lia.
  - constructor; [exact Hv|]. apply Forall_le_HdRel, Huv, Hin. auto.
  - apply List.Forall_forall. intros a Ha. constructor; [apply Hm, Hin; auto | apply Huv, Hin; auto].
Qed.

Lemma sorted_suffix_full i arr : (length arr <= S i)%nat -> sorted_suffix i arr -> Sorted Z.le arr.
Proof.
  intros Hlen [u [v [-> [Hlv [Hv Huv]]]]]. rewrite length_app in Hlen.
  destruct u as [|x [|y u]]; simpl in *; [exact Hv| |lia].
  inv Huv. constructor; [exact Hv | apply Forall_le_HdRel; assumption].
Qed.

(** The state of the outer loop after [j] passes. *)
Lemma bubble_sort_invariant arr :
  exists arr', bubble_sort arr = Ok arr' /\
    length arr' = length arr /\ arr' ≡ₚ arr /\ sorted_suffix (length arr - 1) arr'.
Proof.
  unfold bubble_sort, py_range. set (n := length arr).
  destruct (py_for_invariant (fun j s => length s = n /\ s ≡ₚ arr /\ sorted_suffix j s)
              (bubble_pass n) 0 (n - 1) arr) as [s [Hs [Hl [Hp Hsuf]]]].
  - repeat split; [reflexivity | apply sorted_suffix_start].
  - intros j s Hj [Hl [Hp Hsuf]]. exists (pass_ref n j s).
    rewrite <- Hl, bubble_pass_ref, Hl. repeat split; [| |apply pass_ref_sorted_suffix; auto; lia].
    + rewrite <- Hl. apply Permutation_length, pass_ref_perm.
    + rewrite pass_ref_perm. exact Hp.
  - exists s. auto.
Qed.

(** ** Inversions *)

Lemma count_below_perm x l l' : l ≡ₚ l' -> count_below x l = count_below x l'.
Proof. induction 1; simpl; lia. Qed.

Lemma count_below_app x a b : count_below x (a ++ b) = (count_below x a + count_below x b)%nat.
Proof. induction a as [|y a IH]; simpl; lia. Qed.

Lemma inversions_app p v : inversions (p ++ v) = (inversions p + cross p v + inversions v)%nat.
Proof. induction p as [|a p IH]; simpl; [reflexivity|]. rewrite count_below_app, IH. lia. Qed.

Lemma count_below_Forall x l : Forall (fun b => x <= b) l -> count_below x l = 0%nat.
Proof. induction 1; simpl; [reflexivity|]. destruct (Z.ltb_spec x0 x); lia. Qed.

Lemma inversions_sorted l : Sorted Z.le l -> inversions l = 0%nat.
Proof.
  intros H. apply Sorted_StronglySorted in H; [|intros ? ? ?; lia].
  induction H as [|x l _ IH Hx]; simpl; [reflexivity|]. rewrite count_below_Forall by exact Hx. lia.
Qed.

Lemma cross_perm_r p v v' : v ≡ₚ v' -> cross p v = cross p v'.
Proof.
  intros Hv. induction p as [|a p IH]; simpl; [reflexivity|].
  rewrite (count_below_perm a v v' Hv), IH. reflexivity.
Qed.

(** A swap of an adjacent inverted pair removes exactly one inversion. *)
Lemma inversions_swap (l : list Z) j x y :
  l !! j = Some x -> l !! S j = Some y -> y < x ->
  inversions l = S (inversions (<[S j := x]> (<[j := y]> l))).
Proof.
  intros Hx Hy Hxy. destruct (swap_split l j x y Hx Hy) as [a [r [-> [_ ->]]]].
  rewrite !inversions_app, (cross_perm_r a (x :: y :: r) (y :: x :: r)) by apply perm_swap.
  cbn [inversions count_below].
  destruct (Z.ltb_spec y x), (Z.ltb_spec x y); lia.
Qed.

(** ** Correctness *)

Lemma bubble_sort_ok arr : exists s, bubble_sort arr = Ok s /\ Sorted Z.le s /\ s ≡ₚ arr.
Proof.
  destruct (bubble_sort_invariant arr) as [s [Hs [Hl [Hp Hsuf]]]]. exists s. split; [exact Hs|].
  split; [apply (sorted_suffix_full (length arr - 1)); [rewrite Hl; lia | exact Hsuf] | exact Hp].
Qed.

(** C21. The two loops of video.py 30-44 never raise [IndexError], and leave
    in [arr] its elements in ascending order: they compute what stdpp's
    [merge_sort] computes. *)
Theorem bubble_sort_spec arr : bubble_sort arr = Ok (merge_sort Z.le arr).
Proof.
  destruct (bubble_sort_ok arr) as [s [Hs [Hsort Hp]]]. rewrite Hs. f_equal.
  apply (Sorted_unique Z.le); [exact Hsort | apply Sorted_merge_sort; intros x y; lia |].
  rewrite merge_sort_Permutation. exact Hp.
Qed.

(** C30. The tuple assignment [arr[j], arr[j+1] = arr[j+1], arr[j]]
    (video.py 47, and 54 on the bars) exchanges the items at [j] and
    [j + 1] and leaves every other item in place: both items are read
    before either is written, so done twice it gives back the list it
    started from.  When [j + 1] is out of range it raises [IndexError]
    before writing anything. *)
Theorem swap_adjacent_roundtrip {A} (l : list A) j :
  ((S j < length l)%nat ->
     exists a x y r, l = a ++ x :: y :: r /\ length a = j /\
       swap_adjacent j l = Ok (a ++ y :: x :: r) /\ swap_adjacent j (a ++ y :: x :: r) = Ok l) /\
  ((length l <= S j)%nat -> swap_adjacent j l = Raise index_error).
Proof.
  split.
  - intros Hj. destruct (lookup_lt_is_Some_2 l j ltac:(lia)) as [x Hx].
    destruct (lookup_lt_is_Some_2 l (S j) Hj) as [y Hy].
    destruct (swap_split l j x y Hx Hy) as (a & r & -> & <- & _).
    exists a, x, y, r. rewrite !swap_adjacent_middle. auto.
  - intros Hj. unfold swap_adjacent, py_getitem. rewrite (lookup_ge_None_2 l (S j)) by lia. reflexivity.
Qed.

Lemma swap_adjacent_roundtrip_witness :
  (1 < length [5; 2]%Z)%nat /\ swap_adjacent 0 [5; 2]%Z = Ok [2; 5]%Z /\
  swap_adjacent 0 [2; 5]%Z = Ok [5; 2]%Z.
Proof.
  split; [cbn; lia|].
  destruct (proj1 (swap_adjacent_roundtrip [5; 2]%Z 0) ltac:(cbn; lia)) as (a & x & y & r & Hl & Ha & H1 & H2).
  destruct a as [|? a]; [|discriminate Ha]. cbn in Hl. injection Hl as <- <- <-. split; assumption.
Defined.
