(* ===== verification/Scene.v ===== *)
(** * The scene of video.py: [BubbleSortVisualization.construct]

    video.py is the scene the service generated and saved.  [construct]
    animates a bubble sort: it creates one bar and one label per element
    (lines 12-24), lines the bars up (line 23), and for every comparison
    colours the two bars, swaps them, their array items and their labels
    when they are out of order, and colours them back (lines 30-63).

    The bars and labels are manim objects that the lists [bars] and
    [labels] hold by reference: [bars[j], bars[j + 1] = ...] swaps two
    references, and [labels[j].become(...)] mutates the object
    [labels[j]] refers to.  The model keeps that aliasing: a scene state
    has a store of bars and a store of labels, indexed by object id, and
    the lists [sc_bars] and [sc_labels] hold ids.  [play] records the call
    in the log and applies the final state of its [.animate] animations
    to the store.

    Positions are the x coordinates of centres, in quarter units (a bar
    is 0.5 wide, [buff=0.5]).  The manim library is outside the
    repository; the model takes from it: a new mobject is at the origin;
    [a.next_to(b, UP)] puts [a]'s centre above [b]'s centre;
    [arrange(RIGHT, buff)] followed by [move_to(ORIGIN)] lines up equal
    widths centred on 0; [become] copies text and position; [play] with
    no animation raises [ValueError]; an animation lasts one second,
    except [Write] of a text of 15 glyphs or more, which lasts two; and
    [play] lasts as long as its longest animation. *)

From Stdlib Require Import String Ascii ZArith Lia.
From stdpp Require Import base list sorting pretty strings.
From S2P Require Import Prelude PyList Bubble.

Local Open Scope Z_scope.

(** ** Objects, animations and the scene state *)

Inductive color := BLUE | RED | GREEN.

(** [Rectangle(width=0.5, height=val, fill_opacity=0.8, color=...)]: its
    height, the x of its centre, and its colour. *)
Record bar := Bar { bar_height : Z; bar_x : Z; bar_color : color }.

(** [Text(str(val), font_size=24)] placed by [next_to]: its text and the x
    of its centre. *)
Record label := Label { label_text : string; label_x : Z }.

(** The mobjects the animations name. *)
Inductive mobj :=
| MTitle
| MGroupBars
| MGroupLabels
| MPassText
| MSortedText
| MConclusion
| MLabel (id : nat).

Inductive anim :=
| FadeIn (targets : list mobj)
| FadeOut (targets : list mobj)
| Write (text : string)
| Transform (target : mobj) (text : string)
| SetColor (bar_id : nat) (c : color)
| MoveTo (bar_id : nat) (x : Z).

(** [self.play(...)] and [self.wait(t)], [t] in half seconds. *)
Inductive call :=
| Play (anims : list anim)
| Wait (half_seconds : nat).

Record scene := Scene {
  sc_arr : list Z;
  sc_bars : list nat;
  sc_labels : list nat;
  bar_store : list bar;
  label_store : list label;
  log : list call }.

Definition empty_scene : scene := Scene [] [] [] [] [] [].

(** ** Effects on the state *)

Definition set_arr (a : list Z) (s : scene) : scene :=
  Scene a (sc_bars s) (sc_labels s) (bar_store s) (label_store s) (log s).

Definition set_bars (bs : list nat) (s : scene) : scene :=
  Scene (sc_arr s) bs (sc_labels s) (bar_store s) (label_store s) (log s).

Definition set_bar_store (st : list bar) (s : scene) : scene :=
  Scene (sc_arr s) (sc_bars s) (sc_labels s) st (label_store s) (log s).

Definition set_label_store (st : list label) (s : scene) : scene :=
  Scene (sc_arr s) (sc_bars s) (sc_labels s) (bar_store s) st (log s).

Definition log_call (c : call) (s : scene) : scene :=
  Scene (sc_arr s) (sc_bars s) (sc_labels s) (bar_store s) (label_store s) (log s ++ [c]).

Definition recolor (c : color) (b : bar) : bar := Bar (bar_height b) (bar_x b) c.
Definition move_bar (x : Z) (b : bar) : bar := Bar (bar_height b) x (bar_color b).

(** The final state of an animation, on the bars it changes. *)
Definition apply_anim (st : list bar) (a : anim) : list bar :=
  match a with
  | SetColor b c => alter (recolor c) b st
  | MoveTo b x => alter (move_bar x) b st
  | _ => st
  end.

Definition no_animation_error : py_exn :=
  PyExn "ValueError" "Called Scene.play with no animations. Please provide at least one animation.".

(** [self.play] of the animations [anims]. *)
Definition play (anims : list anim) (s : scene) : py_result scene :=
  match anims with
  | [] => Raise no_animation_error
  | _ => Ok (log_call (Play anims) (set_bar_store (foldl apply_anim (bar_store s) anims) s))
  end.

(** [self.wait(t)]. *)
Definition wait (t : nat) (s : scene) : scene := log_call (Wait t) s.

(** [bar.get_center()], as far as the x coordinate. *)
Definition bar_center (b : nat) (s : scene) : py_result Z :=
  br ← py_getitem (bar_store s) b; Ok (bar_x br).

(** ** The code *)

(** Lines 5-9. *)
Definition intro (s : scene) : py_result scene :=
  s ← play [FadeIn [MTitle]] s;
  play [FadeOut [MTitle]] (wait 4 s).

(** Lines 16-21, one element: a bar at the origin, a label above it, both
    appended. *)
Definition add_bar_label (v : Z) (s : scene) : scene :=
  let b := length (bar_store s) in
  let l := length (label_store s) in
  let br := Bar v 0 BLUE in
  Scene (sc_arr s) (sc_bars s ++ [b]) (sc_labels s ++ [l])
        (bar_store s ++ [br]) (label_store s ++ [Label (pretty v) (bar_x br)]) (log s).

(** Line 23: [arrange(RIGHT, buff=0.5).move_to(ORIGIN)] puts the centre
    of bar [k] of [n] at [4k - 2(n - 1)] quarter units. *)
Definition arrange_x (n k : nat) : Z := 4 * Z.of_nat k - 2 * (Z.of_nat n - 1).

Fixpoint place_bars (n k : nat) (ids : list nat) (st : list bar) : list bar :=
  match ids with
  | [] => st
  | b :: ids' => place_bars n (S k) ids' (alter (move_bar (arrange_x n k)) b st)
  end.

(** Lines 12-27. *)
Definition setup (arr : list Z) (s : scene) : py_result scene :=
  let s := set_arr arr s in
  let s := foldl (fun s v => add_bar_label v s) s arr in
  let s := set_bar_store (place_bars (length (sc_bars s)) 0 (sc_bars s) (bar_store s)) s in
  s ← play [FadeIn [MGroupBars; MGroupLabels]] s;
  Ok (wait 2 s).

(** Line 57 (and 58 with [j + 1]): [labels[j].become(Text(str(arr[j]))
    .next_to(bars[j], UP))]. *)
Definition relabel (j : nat) (s : scene) : py_result scene :=
  l ← py_getitem (sc_labels s) j;
  b ← py_getitem (sc_bars s) j;
  v ← py_getitem (sc_arr s) j;
  x ← bar_center b s;
  lbl ← py_getitem (label_store s) l;
  Ok (set_label_store (<[l := Label (pretty v) x]> (label_store s)) s).

(** Lines 44-59: the swap of the items, the bars and the labels. *)
Definition swap_branch (j : nat) (bar1 bar2 : nat) (s : scene) : py_result scene :=
  arr ← swap_adjacent j (sc_arr s);
  let s := set_arr arr s in
  temp_pos ← bar_center bar1 s;
  pos2 ← bar_center bar2 s;
  s ← play [MoveTo bar1 pos2; MoveTo bar2 temp_pos] s;
  bs ← swap_adjacent j (sc_bars s);
  let s := set_bars bs s in
  s ← relabel j s;
  s ← relabel (S j) s;
  l1 ← py_getitem (sc_labels s) j;
  l2 ← py_getitem (sc_labels s) (S j);
  play [FadeIn [MLabel l1]; FadeIn [MLabel l2]] s.

(** Lines 35-62: one comparison. *)
Definition sort_step (j : nat) (s : scene) : py_result scene :=
  x ← py_getitem (sc_arr s) j;
  y ← py_getitem (sc_arr s) (S j);
  s ← play [Transform MPassText ("Comparing: " +:+ pretty x +:+ " and " +:+ pretty y)] s;
  bar1 ← py_getitem (sc_bars s) j;
  bar2 ← py_getitem (sc_bars s) (S j);
  s ← play [SetColor bar1 RED; SetColor bar2 RED] s;
  let s := wait 1 s in
  a ← py_getitem (sc_arr s) j;
  b ← py_getitem (sc_arr s) (S j);
  s ← (if Z.gtb a b then swap_branch j bar1 bar2 s else Ok s);
  s ← play [SetColor bar1 BLUE; SetColor bar2 BLUE] s;
  Ok (wait 1 s).

(** Lines 32-63: pass [i]. *)
Definition sort_pass (n i : nat) (s : scene) : py_result scene :=
  s ← play [Write ("Pass: " +:+ pretty (i + 1)%nat)] s;
  s ← py_for (py_range (n - i - 1)) sort_step s;
  play [FadeOut [MPassText]] s.

(** Lines 30-31. *)
Definition sort_loops (s : scene) : py_result scene :=
  let n := length (sc_arr s) in
  py_for (py_range (n - 1)) (sort_pass n) s.

(** Lines 66-69. *)
Definition sorted_display (s : scene) : py_result scene :=
  s ← play (map (fun b => SetColor b GREEN) (sc_bars s)) s;
  s ← play [Write "Sorted!"] s;
  Ok (wait 4 s).

(** Lines 72-76. *)
Definition conclusion (s : scene) : py_result scene :=
  s ← play [FadeOut [MGroupBars; MGroupLabels; MSortedText]] s;
  s ← play [Write "Bubble Sort: A Simple Sorting Algorithm"] s;
  play [FadeOut [MConclusion]] (wait 4 s).

(** [construct], with the array of line 12 as a parameter. *)
Definition construct_with (arr : list Z) : py_result scene :=
  s ← intro empty_scene;
  s ← setup arr s;
  s ← sort_loops s;
  s ← sorted_display s;
  conclusion s.

(** Line 12: [arr = [5, 2, 4, 6, 1, 3]]. *)
Definition video_arr : list Z := [5; 2; 4; 6; 1; 3].

Definition construct : py_result scene := construct_with video_arr.

(** The scene after line 27, for the array of line 12. *)
Definition video_setup_state : scene :=
  match intro empty_scene ≫= setup video_arr with Ok s => s | Raise _ => empty_scene end.

(** The scene after lines 12-27 alone, for the array of line 12. *)
Definition video_setup_only : scene :=
  match setup video_arr (Scene [] [] [] [] [] []) with Ok s => s | Raise _ => empty_scene end.

(** ** Durations *)

(** The glyphs of a text: its characters other than spaces. *)
Fixpoint glyphs (t : string) : nat :=
  match t with
  | EmptyString => 0
  | String c t' => (if Ascii.eqb c " "%char then 0 else 1) + glyphs t'
  end%nat.

(** Run times in half seconds. *)
Definition anim_time (a : anim) : nat :=
  match a with
  | Write t => if Nat.ltb (glyphs t) 15 then 2 else 4
  | _ => 2
  end.

Definition call_time (c : call) : nat :=
  match c with
  | Play anims => foldr Nat.max 0%nat (map anim_time anims)
  | Wait t => t
  end.

Fixpoint duration (calls : list call) : nat :=
  match calls with
  | [] => 0
  | c :: cs => call_time c + duration cs
  end%nat.

(** The time of pass [i] of [n], without its swaps: the title's [Write]
    and [FadeOut], and four seconds per comparison. *)
Definition pass_time (n i : nat) : nat :=
  call_time (Play [Write ("Pass: " +:+ pretty (i + 1)%nat)]) + 2 + 8 * (n - i - 1).

(** ** The invariant of the sort *)

(** Between two comparisons, with [n] elements: [labels] is [0 .. n-1]
    (the list is never reordered); [bars] is a permutation of
    [0 .. n-1]; the bar at position [k] has the height [arr[k]], stands
    in slot [k] and is blue; label [k] shows [str(arr[k])], in slot [k]
    or still at the origin. *)
Definition scene_wf (n : nat) (s : scene) : Prop :=
  length (sc_arr s) = n /\
  sc_labels s = seq 0 n /\
  sc_bars s ≡ₚ seq 0 n /\
  (forall k b, sc_bars s !! k = Some b ->
     exists v, sc_arr s !! k = Some v /\ bar_store s !! b = Some (Bar v (arrange_x n k) BLUE)) /\
  (forall k v, sc_arr s !! k = Some v ->
     exists x, label_store s !! k = Some (Label (pretty v) x) /\ (x = 0 \/ x = arrange_x n k)).

#[export] Instance color_eq_dec : EqDecision color.
Proof. solve_decision. Defined.

#[export] Instance bar_eq_dec : EqDecision bar.
Proof. solve_decision. Defined.

(** The invariant, checked on a concrete state. *)
Definition scene_wfb (n : nat) (s : scene) : bool :=
  bool_decide (length (sc_arr s) = n) && bool_decide (sc_labels s = seq 0 n) &&
  bool_decide (sc_bars s ≡ₚ seq 0 n) &&
  forallb (fun k =>
    match sc_bars s !! k, sc_arr s !! k with
    | Some b, Some v => bool_decide (bar_store s !! b = Some (Bar v (arrange_x n k) BLUE))
    | _, _ => false
    end) (seq 0 n) &&
  forallb (fun k =>
    match sc_arr s !! k, label_store s !! k with
    | Some v, Some l =>
        bool_decide (label_text l = pretty v) &&
        (bool_decide (label_x l = 0) || bool_decide (label_x l = arrange_x n k))
    | _, _ => false
    end) (seq 0 n).

(** ** Tactics *)

(** Reduce the record updates of the scene to a record. *)
Ltac scene_simpl :=
  unfold wait, set_arr, set_bars, set_bar_store, set_label_store, log_call in *;
  cbn [sc_bars sc_arr sc_labels bar_store label_store log foldl apply_anim] in *.

(** Read a store through the [alter]s of the animations, when the ids
    are known to differ. *)
Ltac lookup_simpl :=
  repeat (rewrite list_lookup_alter_eq || (rewrite list_lookup_alter_ne by congruence)).

(** ** Basic lemmas *)

Lemma play_cons a anims s :
  play (a :: anims) s = Ok (log_call (Play (a :: anims)) (set_bar_store (foldl apply_anim (bar_store s) (a :: anims)) s)).
Proof. reflexivity. Qed.

Lemma duration_app l1 l2 : duration (l1 ++ l2) = (duration l1 + duration l2)%nat.
Proof. induction l1 as [|c l1 IH]; simpl; lia. Qed.

Lemma bar_center_lookup b a bs ls st lst lg br :
  st !! b = Some br -> bar_center b (Scene a bs ls st lst lg) = Ok (bar_x br).
Proof. intros H. unfold bar_center. cbn [bar_store]. rewrite (py_getitem_lookup _ _ _ H). reflexivity. Qed.

Lemma bars_length n s : sc_bars s ≡ₚ seq 0 n -> length (sc_bars s) = n.
Proof. intros H. rewrite H, length_seq. reflexivity. Qed.

Lemma bars_NoDup n s : sc_bars s ≡ₚ seq 0 n -> NoDup (sc_bars s).
Proof. intros H. rewrite H. apply NoDup_seq. Qed.

#[export] Hint Rewrite play_cons duration_app : pyrw.

(** ** One comparison *)

Section Step.
Context (n j : nat) (arr : list Z) (bars : list nat) (st : list bar) (lst : list label).
Context (x y : Z) (b1 b2 : nat).
Hypothesis Hj : (S j < n)%nat.
Hypothesis Hlen : length arr = n.
Hypothesis Hx : arr !! j = Some x.
Hypothesis Hy : arr !! S j = Some y.
Hypothesis Hnd : NoDup bars.
Hypothesis Hb1 : bars !! j = Some b1.
Hypothesis Hb2 : bars !! S j = Some b2.
Hypothesis Hs1 : st !! b1 = Some (Bar x (arrange_x n j) BLUE).
Hypothesis Hs2 : st !! b2 = Some (Bar y (arrange_x n (S j)) BLUE).
Hypothesis Hbars : forall k b, bars !! k = Some b ->
  exists v, arr !! k = Some v /\ st !! b = Some (Bar v (arrange_x n k) BLUE).
Hypothesis Hlbl : forall k v, arr !! k = Some v ->
  exists x, lst !! k = Some (Label (pretty v) x) /\ (x = 0 \/ x = arrange_x n k).

Lemma bars_distinct : b1 <> b2.
Proof. intros E. apply (n_Sn j), (NoDup_lookup bars j (S j) b1 Hnd Hb1). rewrite E. exact Hb2. Qed.

Lemma bars_other k b : bars !! k = Some b -> k <> j -> k <> S j -> b <> b1 /\ b <> b2.
Proof.
  intros Hk H1 H2. split; intros ->.
  - exact (H1 (NoDup_lookup _ _ _ _ Hnd Hk Hb1)).
  - exact (H2 (NoDup_lookup _ _ _ _ Hnd Hk Hb2)).
Qed.

(** After a comparison that swaps: each bar is back in blue, in the slot
    of its new position, with the height of the item there. *)
Lemma step_bars_swap k b :
  <[S j := b1]> (<[j := b2]> bars) !! k = Some b ->
  exists v, <[S j := x]> (<[j := y]> arr) !! k = Some v /\
    alter (recolor BLUE) b2 (alter (recolor BLUE) b1
      (alter (move_bar (arrange_x n j)) b2 (alter (move_bar (arrange_x n (S j))) b1
        (alter (recolor RED) b2 (alter (recolor RED) b1 st))))) !! b = Some (Bar v (arrange_x n k) BLUE).
Proof.
  intros Hk. pose proof bars_distinct. pose proof (lookup_lt_Some _ _ _ Hb2).
  destruct (decide (k = j)) as [->|Hkj]; [|destruct (decide (k = S j)) as [->|HkSj]].
  - rewrite swapped_lookup_j in Hk by lia. injection Hk as <-.
    exists y. rewrite swapped_lookup_j by lia. split; [reflexivity|]. lookup_simpl. rewrite Hs2. reflexivity.
  - rewrite swapped_lookup_Sj in Hk by lia. injection Hk as <-.
    exists x. rewrite swapped_lookup_Sj by lia. split; [reflexivity|]. lookup_simpl. rewrite Hs1. reflexivity.
  - rewrite swapped_lookup_other in Hk by assumption.
    destruct (Hbars k b Hk) as [v [Hv Hsb]]. destruct (bars_other k b Hk Hkj HkSj).
    exists v. rewrite swapped_lookup_other by assumption. split; [exact Hv|]. lookup_simpl. exact Hsb.
Qed.

(** After a comparison that swaps: the two labels show the two items in
    their new order, above their bars. *)
Lemma step_labels_swap k v :
  (S j < length lst)%nat ->
  <[S j := x]> (<[j := y]> arr) !! k = Some v ->
  exists x', <[S j := Label (pretty x) (arrange_x n (S j))]> (<[j := Label (pretty y) (arrange_x n j)]> lst) !! k
               = Some (Label (pretty v) x') /\ (x' = 0 \/ x' = arrange_x n k).
Proof.
  intros Hl Hk. destruct (decide (k = j)) as [->|Hkj]; [|destruct (decide (k = S j)) as [->|HkSj]].
  - rewrite swapped_lookup_j in Hk by lia. injection Hk as <-.
    exists (arrange_x n j). rewrite swapped_lookup_j by lia. auto.
  - rewrite swapped_lookup_Sj in Hk by lia. injection Hk as <-.
    exists (arrange_x n (S j)). rewrite swapped_lookup_Sj by lia. auto.
  - rewrite swapped_lookup_other in Hk by assumption. rewrite swapped_lookup_other by assumption. auto.
Qed.

(** After a comparison that does not swap, the bars are as before. *)
Lemma step_bars_noswap k b :
  bars !! k = Some b ->
  exists v, arr !! k = Some v /\
    alter (recolor BLUE) b2 (alter (recolor BLUE) b1
      (alter (recolor RED) b2 (alter (recolor RED) b1 st))) !! b = Some (Bar v (arrange_x n k) BLUE).
Proof.
  intros Hk. pose proof bars_distinct.
  destruct (Hbars k b Hk) as [v [Hv Hsb]]. exists v. split; [exact Hv|].
  destruct (decide (b = b1)) as [->|H1]; [|destruct (decide (b = b2)) as [->|H2]];
    lookup_simpl; rewrite ?Hsb; reflexivity.
Qed.

End Step.

Lemma getitem_seq n k : (k < n)%nat -> py_getitem (seq 0 n) k = Ok k.
Proof. intros Hk. apply py_getitem_lookup. rewrite lookup_seq_lt by exact Hk. reflexivity. Qed.

(** The two plays, the wait and the re-reads before the test of line 43. *)
Lemma sort_step_reads n j arr bars st lst lg x y b1 b2 :
  arr !! j = Some x -> arr !! S j = Some y -> bars !! j = Some b1 -> bars !! S j = Some b2 ->
  sort_step j (Scene arr bars (seq 0 n) st lst lg) =
    (let s1 := Scene arr bars (seq 0 n) (alter (recolor RED) b2 (alter (recolor RED) b1 st)) lst
                 (((lg ++ [Play [Transform MPassText ("Comparing: " +:+ pretty x +:+ " and " +:+ pretty y)]])
                   ++ [Play [SetColor b1 RED; SetColor b2 RED]]) ++ [Wait 1]) in
     s ← (if Z.gtb x y then swap_branch j b1 b2 s1 else Ok s1);
     s ← play [SetColor b1 BLUE; SetColor b2 BLUE] s;
     Ok (wait 1 s)).
Proof.
  intros Hx Hy Hb1 Hb2. unfold sort_step. scene_simpl.
  rewrite (py_getitem_lookup _ _ _ Hx), bind_Ok, (py_getitem_lookup _ _ _ Hy), bind_Ok, play_cons, bind_Ok.
  scene_simpl.
  rewrite (py_getitem_lookup _ _ _ Hb1), bind_Ok, (py_getitem_lookup _ _ _ Hb2), bind_Ok, play_cons, bind_Ok.
  scene_simpl. rewrite (py_getitem_lookup _ _ _ Hx), bind_Ok, (py_getitem_lookup _ _ _ Hy), bind_Ok.
  reflexivity.
Qed.

(** Lines 44-59 on the state the test of line 43 sees. *)
Lemma swap_branch_run n j arr bars st lst lg x y b1 b2 xl1 xl2 :
  (S j < n)%nat -> length arr = n -> length bars = n -> b1 <> b2 ->
  arr !! j = Some x -> arr !! S j = Some y -> bars !! j = Some b1 -> bars !! S j = Some b2 ->
  st !! b1 = Some (Bar x (arrange_x n j) BLUE) -> st !! b2 = Some (Bar y (arrange_x n (S j)) BLUE) ->
  lst !! j = Some xl1 -> lst !! S j = Some xl2 ->
  swap_branch j b1 b2 (Scene arr bars (seq 0 n) (alter (recolor RED) b2 (alter (recolor RED) b1 st)) lst lg) =
    Ok (Scene (<[S j := x]> (<[j := y]> arr)) (<[S j := b1]> (<[j := b2]> bars)) (seq 0 n)
          (alter (move_bar (arrange_x n j)) b2 (alter (move_bar (arrange_x n (S j))) b1
             (alter (recolor RED) b2 (alter (recolor RED) b1 st))))
          (<[S j := Label (pretty x) (arrange_x n (S j))]> (<[j := Label (pretty y) (arrange_x n j)]> lst))
          ((lg ++ [Play [MoveTo b1 (arrange_x n (S j)); MoveTo b2 (arrange_x n j)]])
           ++ [Play [FadeIn [MLabel j]; FadeIn [MLabel (S j)]]])).
Proof.
  intros Hj Hlen Hbl Hne Hx Hy Hb1 Hb2 Hs1 Hs2 Hl1 Hl2. unfold swap_branch. scene_simpl.
  rewrite (swap_adjacent_lookup arr j x y Hx Hy), bind_Ok. scene_simpl.
  rewrite (bar_center_lookup b1 _ _ _ _ _ _ (Bar x (arrange_x n j) RED)), bind_Ok
    by (lookup_simpl; rewrite Hs1; reflexivity).
  rewrite (bar_center_lookup b2 _ _ _ _ _ _ (Bar y (arrange_x n (S j)) RED)), bind_Ok
    by (lookup_simpl; rewrite Hs2; reflexivity).
  cbn [bar_x]. rewrite play_cons, bind_Ok. scene_simpl.
  rewrite (swap_adjacent_lookup bars j b1 b2 Hb1 Hb2), bind_Ok. unfold relabel. scene_simpl.
  rewrite getitem_seq, bind_Ok by lia.
  rewrite (py_getitem_lookup _ _ _ (swapped_lookup_j bars j b1 b2 ltac:(lia))), bind_Ok.
  rewrite (py_getitem_lookup _ _ _ (swapped_lookup_j arr j x y ltac:(lia))), bind_Ok.
  rewrite (bar_center_lookup b2 _ _ _ _ _ _ (Bar y (arrange_x n j) RED)), bind_Ok
    by (lookup_simpl; rewrite Hs2; reflexivity).
  rewrite (py_getitem_lookup _ _ _ Hl1), !bind_Ok. cbn [sc_labels sc_bars sc_arr label_store].
  rewrite getitem_seq, bind_Ok by lia.
  rewrite (py_getitem_lookup _ _ _ (swapped_lookup_Sj bars j b1 b2 ltac:(lia))), bind_Ok.
  rewrite (py_getitem_lookup _ _ _ (swapped_lookup_Sj arr j x y ltac:(lia))), bind_Ok.
  rewrite (bar_center_lookup b1 _ _ _ _ _ _ (Bar x (arrange_x n (S j)) RED)), bind_Ok
    by (lookup_simpl; rewrite Hs1; reflexivity).
  rewrite (py_getitem_lookup (<[j:=_]> lst) (S j) xl2), bind_Ok by (rewrite list_lookup_insert_ne by lia; exact Hl2).
  scene_simpl. cbn [bar_x]. rewrite bind_Ok. cbn [sc_labels].
  rewrite (getitem_seq n j), bind_Ok, (getitem_seq n (S j)), bind_Ok by lia. rewrite play_cons. reflexivity.
Qed.

(** One comparison keeps the invariant, changes [arr] as [compare_swap]
    does, and lasts four seconds plus two for a swap; as a swap removes
    one inversion, [duration + 4 * inversions] grows by exactly 8 half
    seconds. *)
Lemma sort_step_spec n s j :
  scene_wf n s -> (S j < n)%nat ->
  exists s', sort_step j s = Ok s' /\ scene_wf n s' /\
    compare_swap j (sc_arr s) = Ok (sc_arr s') /\
    (duration (log s') + 4 * inversions (sc_arr s') = duration (log s) + 8 + 4 * inversions (sc_arr s))%nat.
Proof.
  destruct s as [arr bars labels st lst lg].
  intros (Hlen & Hlab & Hperm & Hbars & Hlbl) Hj. scene_simpl. subst labels.
  assert (Hbl : length bars = n) by (rewrite Hperm, length_seq; reflexivity).
  assert (Hnd : NoDup bars) by (rewrite Hperm; apply NoDup_seq).
  destruct (lookup_lt_is_Some_2 arr j ltac:(lia)) as [x Hx].
  destruct (lookup_lt_is_Some_2 arr (S j) ltac:(lia)) as [y Hy].
  destruct (lookup_lt_is_Some_2 bars j ltac:(lia)) as [b1 Hb1].
  destruct (lookup_lt_is_Some_2 bars (S j) ltac:(lia)) as [b2 Hb2].
  destruct (Hbars j b1 Hb1) as [v1 [Hv1 Hs1]]. rewrite Hx in Hv1. injection Hv1 as <-.
  destruct (Hbars (S j) b2 Hb2) as [v2 [Hv2 Hs2]]. rewrite Hy in Hv2. injection Hv2 as <-.
  destruct (Hlbl j x Hx) as [xl1 [Hl1 _]]. destruct (Hlbl (S j) y Hy) as [xl2 [Hl2 _]].
  pose proof (lookup_lt_Some _ _ _ Hl2) as Hlst.
  pose proof (bars_distinct j bars b1 b2 Hnd Hb1 Hb2) as Hne.
  rewrite (sort_step_reads n j arr bars st lst lg x y b1 b2 Hx Hy Hb1 Hb2), (compare_swap_lookup arr j x y Hx Hy).
  cbv zeta. destruct (Z.gtb_spec x y) as [Hxy|Hxy].
  - rewrite (swap_branch_run n j arr bars st lst _ x y b1 b2 _ _ Hj Hlen Hbl Hne Hx Hy Hb1 Hb2 Hs1 Hs2 Hl1 Hl2).
    rewrite bind_Ok, play_cons, bind_Ok. scene_simpl.
    eexists. split; [reflexivity|]. split; [|split; [reflexivity|]].
    + unfold scene_wf. cbn [sc_bars sc_arr sc_labels bar_store label_store].
      split; [rewrite !length_insert; exact Hlen|]. split; [reflexivity|].
      split; [rewrite (swap_perm bars j b1 b2 Hb1 Hb2); exact Hperm|].
      split; [intros k b; eapply step_bars_swap|intros k v; eapply step_labels_swap]; eassumption.
    + cbn [log sc_arr]. rewrite !duration_app. cbn.
      rewrite (inversions_swap arr j x y Hx Hy Hxy). lia.
  - rewrite bind_Ok, play_cons, bind_Ok. scene_simpl.
    eexists. split; [reflexivity|]. split; [|split; [reflexivity|]].
    + unfold scene_wf. cbn [sc_bars sc_arr sc_labels bar_store label_store].
      repeat split; try assumption. intros k b. eapply step_bars_noswap; eassumption.
    + cbn [log sc_arr]. rewrite !duration_app. cbn. lia.
Qed.

(** ** Text lengths *)

Lemma pretty_N_go_length k x s :
  (x < 10 ^ N.of_nat k)%N -> (String.length (pretty_N_go x s) <= k + String.length s)%nat.
Proof.
  revert x s; induction k as [|k IH]; intros x s Hx.
  - replace x with 0%N by lia. rewrite pretty_N_go_0. lia.
  - destruct (decide (x = 0%N)) as [->|Hx0]; [rewrite pretty_N_go_0; lia|].
    rewrite pretty_N_go_step by lia. etransitivity; [apply IH|cbn; lia].
    apply N.Div0.div_lt_upper_bound. rewrite Nat2N.inj_succ, N.pow_succ_r' in Hx. exact Hx.
Qed.

Lemma glyphs_app a b : glyphs (a +:+ b) = (glyphs a + glyphs b)%nat.
Proof.
  induction a as [|c a IH]; [reflexivity|].
  change (String c a +:+ b) with (String c (a +:+ b)). cbn [glyphs]. rewrite IH. lia.
Qed.

Lemma glyphs_length t : (glyphs t <= String.length t)%nat.
Proof. induction t as [|c t IH]; cbn; [lia|]. destruct (Ascii.eqb c " "); lia. Qed.

(** The title of a pass has fewer than 15 glyphs while the pass number
    has at most nine digits, so its [Write] lasts one second. *)
Lemma pass_write_time i :
  (N.of_nat (i + 1) < 10 ^ 9)%N -> call_time (Play [Write ("Pass: " +:+ pretty (i + 1)%nat)]) = 2%nat.
Proof.
  intros Hi. cbn [call_time map anim_time foldr]. rewrite glyphs_app.
  assert (Hp : (String.length (pretty (i + 1)%nat) <= 9)%nat).
  { cbv [pretty pretty_nat pretty_N]. destruct (decide (N.of_nat (i + 1) = 0%N)); [cbn; lia|].
    etransitivity; [apply (pretty_N_go_length 9); exact Hi|]. cbn. lia. }
  pose proof (glyphs_length (pretty (i + 1)%nat)).
  destruct (Nat.ltb_spec (glyphs "Pass: " + glyphs (pretty (i + 1)%nat)) 15); [reflexivity|].
  cbn in *. lia.
Qed.

(** ** The loops *)

Lemma play_one a s : (forall st, apply_anim st a = st) -> play [a] s = Ok (log_call (Play [a]) s).
Proof. intros H. unfold play. cbn [foldl]. rewrite H. destruct s. reflexivity. Qed.

Lemma wf_log_call n c s : scene_wf n (log_call c s) <-> scene_wf n s.
Proof. destruct s. reflexivity. Qed.

Lemma duration_log_call c s : duration (log (log_call c s)) = (duration (log s) + call_time c)%nat.
Proof. destruct s. cbn. rewrite duration_app. cbn. lia. Qed.

(** Lines 34-62: the comparisons of a pass, run one after the other. *)
Lemma sort_steps_sim n js s :
  scene_wf n s -> Forall (fun j => S j < n)%nat js ->
  exists s', py_for js sort_step s = Ok s' /\ scene_wf n s' /\
    py_for js compare_swap (sc_arr s) = Ok (sc_arr s') /\
    (duration (log s') + 4 * inversions (sc_arr s') =
       duration (log s) + 8 * length js + 4 * inversions (sc_arr s))%nat.
Proof.
  revert s; induction js as [|j js IH]; intros s Hwf Hjs.
  - exists s. split; [reflexivity|]. split; [exact Hwf|]. split; [reflexivity|]. simpl. lia.
  - inv Hjs. destruct (sort_step_spec n s j Hwf ltac:(assumption)) as [s1 [Hs1 [Hwf1 [Hc1 Hd1]]]].
    destruct (IH s1 Hwf1 ltac:(assumption)) as [s' [Hs' [Hwf' [Hc' Hd']]]].
    exists s'. rewrite !py_for_cons, Hs1, Hc1, !bind_Ok. split; [exact Hs'|]. split; [exact Hwf'|].
    split; [exact Hc'|]. simpl length. lia.
Qed.

(** Lines 32-63: pass [i] sorts as [bubble_pass] and lasts two seconds
    plus four per comparison plus two per swap. *)
Lemma sort_pass_spec n i s :
  scene_wf n s -> (i < n - 1)%nat ->
  exists s', sort_pass n i s = Ok s' /\ scene_wf n s' /\
    bubble_pass n i (sc_arr s) = Ok (sc_arr s') /\
    (duration (log s') + 4 * inversions (sc_arr s') =
       duration (log s) + pass_time n i + 4 * inversions (sc_arr s))%nat.
Proof.
  intros Hwf Hi. unfold sort_pass, bubble_pass, py_range.
  rewrite play_one, bind_Ok by reflexivity.
  destruct (sort_steps_sim n (seq 0 (n - i - 1)) (log_call (Play [Write ("Pass: " +:+ pretty (i + 1)%nat)]) s))
    as [s1 [Hs1 [Hwf1 [Hc1 Hd1]]]]; [apply wf_log_call, Hwf | apply Forall_forall; intros j Hj; apply elem_of_seq in Hj; lia|].
  rewrite Hs1, bind_Ok, play_one by reflexivity.
  exists (log_call (Play [FadeOut [MPassText]]) s1). split; [reflexivity|].
  split; [apply wf_log_call, Hwf1|]. split; [exact Hc1|].
  rewrite duration_log_call. rewrite duration_log_call, length_seq in Hd1. unfold pass_time.
  change (call_time (Play [FadeOut [MPassText]])) with 2%nat. unfold log_call in *. cbn [sc_arr] in *. lia.
Qed.

(** Lines 30-31: all the passes. *)
Lemma sort_passes_sim n ps s :
  scene_wf n s -> Forall (fun i => i < n - 1)%nat ps ->
  exists s', py_for ps (sort_pass n) s = Ok s' /\ scene_wf n s' /\
    py_for ps (bubble_pass n) (sc_arr s) = Ok (sc_arr s') /\
    (duration (log s') + 4 * inversions (sc_arr s') =
       duration (log s) + sum_list (map (pass_time n) ps) + 4 * inversions (sc_arr s))%nat.
Proof.
  revert s; induction ps as [|i ps IH]; intros s Hwf Hps.
  - exists s. split; [reflexivity|]. split; [exact Hwf|]. split; [reflexivity|]. simpl. lia.
  - inv Hps. destruct (sort_pass_spec n i s Hwf ltac:(assumption)) as [s1 [Hs1 [Hwf1 [Hc1 Hd1]]]].
    destruct (IH s1 Hwf1 ltac:(assumption)) as [s' [Hs' [Hwf' [Hc' Hd']]]].
    exists s'. rewrite !py_for_cons, Hs1, Hc1, !bind_Ok. split; [exact Hs'|]. split; [exact Hwf'|].
    split; [exact Hc'|]. cbn [sum_list map]. unfold id in *. lia.
Qed.

Lemma pass_times m :
  (sum_list (map (fun i => 4 + 8 * (S m - i - 1)) (seq 0 m)) = 4 * m + 4 * m * S m)%nat.
Proof.
  induction m as [|m IH]; [reflexivity|].
  rewrite <- cons_seq, <- seq_shift, map_cons, map_map. cbn [sum_list].
  replace (map (fun i => 4 + 8 * (S (S m) - S i - 1)) (seq 0 m))%nat
    with (map (fun i => 4 + 8 * (S m - i - 1)) (seq 0 m))%nat
    by (apply map_ext; intros i; reflexivity).
  rewrite IH. unfold id. lia.
Qed.

(** ** Setting up and finishing *)

Lemma add_bar_label_seq v m a st lst lg :
  length st = m -> length lst = m ->
  add_bar_label v (Scene a (seq 0 m) (seq 0 m) st lst lg) =
    Scene a (seq 0 (S m)) (seq 0 (S m)) (st ++ [Bar v 0 BLUE]) (lst ++ [Label (pretty v) 0]) lg.
Proof.
  intros Hst Hlst. unfold add_bar_label. cbn [sc_arr sc_bars sc_labels bar_store label_store log bar_x].
  rewrite Hst, Hlst, seq_S. reflexivity.
Qed.

(** Lines 15-21: one bar and one label per element, appended in order. *)
Lemma create_mobjects vs m a st lst lg :
  length st = m -> length lst = m ->
  foldl (fun s v => add_bar_label v s) (Scene a (seq 0 m) (seq 0 m) st lst lg) vs =
    Scene a (seq 0 (m + length vs)) (seq 0 (m + length vs))
      (st ++ map (fun v => Bar v 0 BLUE) vs) (lst ++ map (fun v => Label (pretty v) 0) vs) lg.
Proof.
  revert m st lst; induction vs as [|v vs IH]; intros m st lst Hst Hlst.
  - cbn. rewrite Nat.add_0_r, !app_nil_r. reflexivity.
  - cbn [foldl]. rewrite add_bar_label_seq by assumption.
    rewrite IH by (rewrite length_app; simpl; lia).
    cbn [length map]. rewrite <- !app_assoc. cbn [app]. do 2 f_equal; lia.
Qed.

(** Line 23: [arrange] moves the bars [k .. k+m-1] to their slots. *)
Lemma place_bars_lookup n m k st b :
  place_bars n k (seq k m) st !! b =
    if decide (k <= b < k + m)%nat then move_bar (arrange_x n b) <$> st !! b else st !! b.
Proof.
  revert k st; induction m as [|m IH]; intros k st.
  - cbn. destruct (decide _); [lia | reflexivity].
  - rewrite <- cons_seq. cbn [place_bars]. rewrite IH.
    destruct (decide (k = b)) as [->|Hkb].
    + rewrite list_lookup_alter_eq. destruct (decide (S b <= b < S b + m)%nat); [lia|].
      destruct (decide (b <= b < b + S m)%nat); [reflexivity | lia].
    + rewrite list_lookup_alter_ne by exact Hkb.
      destruct (decide (S k <= b < S k + m)%nat), (decide (k <= b < k + S m)%nat); try reflexivity; lia.
Qed.

Lemma intro_run : intro empty_scene = Ok (Scene [] [] [] [] [] [Play [FadeIn [MTitle]]; Wait 4; Play [FadeOut [MTitle]]]).
Proof. reflexivity. Qed.

(** Lines 12-27 leave the bars lined up and the invariant established,
    with every label still at the origin. *)
Lemma setup_spec arr lg :
  exists s, setup arr (Scene [] [] [] [] [] lg) = Ok s /\ scene_wf (length arr) s /\ sc_arr s = arr /\
    log s = lg ++ [Play [FadeIn [MGroupBars; MGroupLabels]]; Wait 2] /\
    (forall k v, arr !! k = Some v -> label_store s !! k = Some (Label (pretty v) 0)).
Proof.
  unfold setup. scene_simpl. rewrite (create_mobjects arr 0) by reflexivity. cbn [sc_bars bar_store].
  rewrite length_seq, play_cons, bind_Ok. scene_simpl. eexists. split; [reflexivity|].
  split; [|split; [reflexivity|split; [cbn; rewrite <- app_assoc; reflexivity|]]].
  - unfold scene_wf. cbn [sc_arr sc_bars sc_labels bar_store label_store].
    split; [reflexivity|]. split; [reflexivity|]. split; [reflexivity|]. split.
    + intros k b Hb. apply lookup_seq in Hb as [-> Hk]. cbn in Hk.
      destruct (lookup_lt_is_Some_2 arr k Hk) as [v Hv]. exists v. split; [exact Hv|].
      rewrite place_bars_lookup, decide_True by lia. cbn. rewrite list_lookup_fmap, Hv. reflexivity.
    + intros k v Hv. exists 0. split; [|auto]. cbn. rewrite list_lookup_fmap, Hv. reflexivity.
  - intros k v Hv. cbn. rewrite list_lookup_fmap, Hv. reflexivity.
Qed.

Lemma recolor_all_lookup c ids st b :
  foldl apply_anim st (map (fun b => SetColor b c) ids) !! b =
    if decide (b ∈ ids) then recolor c <$> st !! b else st !! b.
Proof.
  revert st; induction ids as [|i ids IH]; intros st; cbn [map foldl apply_anim].
  - rewrite decide_False by apply not_elem_of_nil. reflexivity.
  - rewrite IH. destruct (decide (b = i)) as [->|Hbi].
    + rewrite list_lookup_alter_eq, (decide_True (P := i ∈ i :: ids)) by (apply elem_of_cons; left; reflexivity).
      destruct (decide (i ∈ ids)); [|reflexivity]. destruct (st !! i); reflexivity.
    + rewrite list_lookup_alter_ne by congruence.
      destruct (decide (b ∈ ids)) as [H|H], (decide (b ∈ i :: ids)) as [H'|H'];
        try reflexivity; rewrite elem_of_cons in H'; exfalso; tauto.
Qed.

Lemma green_time ids : ids <> [] -> call_time (Play (map (fun b => SetColor b GREEN) ids)) = 2%nat.
Proof.
  intros H. cbn [call_time]. rewrite map_map. destruct ids as [|i ids]; [congruence|].
  cbn. clear. induction ids as [|j ids IH]; cbn in *; lia.
Qed.

(** Lines 66-69, when there is at least one bar. *)
Lemma sorted_display_run s :
  sc_bars s <> [] ->
  sorted_display s =
    Ok (Scene (sc_arr s) (sc_bars s) (sc_labels s)
          (foldl apply_anim (bar_store s) (map (fun b => SetColor b GREEN) (sc_bars s))) (label_store s)
          (log s ++ [Play (map (fun b => SetColor b GREEN) (sc_bars s)); Play [Write "Sorted!"]; Wait 4])).
Proof.
  intros H. unfold sorted_display. destruct (sc_bars s) as [|b bs] eqn:E; [congruence|].
  rewrite map_cons, play_cons, bind_Ok, play_one, bind_Ok by reflexivity.
  destruct s. scene_simpl. subst. rewrite <- ?app_assoc. reflexivity.
Qed.

(** Lines 72-76 change no bar. *)
Lemma conclusion_run s :
  conclusion s =
    Ok (Scene (sc_arr s) (sc_bars s) (sc_labels s) (bar_store s) (label_store s)
          (log s ++ [Play [FadeOut [MGroupBars; MGroupLabels; MSortedText]];
                     Play [Write "Bubble Sort: A Simple Sorting Algorithm"]; Wait 4; Play [FadeOut [MConclusion]]])).
Proof.
  unfold conclusion. rewrite play_one, bind_Ok, play_one, bind_Ok, play_one by reflexivity.
  destruct s. scene_simpl. rewrite <- ?app_assoc. reflexivity.
Qed.

(** The whole of [construct] on a non-empty array: what the sort leaves
    in the scene, and the total time. *)
Lemma construct_run arr :
  arr <> [] ->
  exists s, construct_with arr = Ok s /\ bubble_sort arr = Ok (sc_arr s) /\
    sc_bars s ≡ₚ seq 0 (length arr) /\
    (forall k b, sc_bars s !! k = Some b ->
       exists v, sc_arr s !! k = Some v /\ bar_store s !! b = Some (Bar v (arrange_x (length arr) k) GREEN)) /\
    (forall k v, sc_arr s !! k = Some v ->
       exists x, label_store s !! k = Some (Label (pretty v) x) /\ (x = 0 \/ x = arrange_x (length arr) k)) /\
    (duration (log s) + 4 * inversions (sc_arr s) =
       32 + sum_list (map (pass_time (length arr)) (py_range (length arr - 1))) + 4 * inversions arr)%nat.
Proof.
  intros Hne. set (n := length arr).
  destruct (setup_spec arr [Play [FadeIn [MTitle]]; Wait 4; Play [FadeOut [MTitle]]]) as [s1 [Hs1 [Hwf1 [Harr1 [Hl1 _]]]]].
  destruct (sort_passes_sim n (py_range (n - 1)) s1 Hwf1) as [s2 [Hs2 [Hwf2 [Hc2 Hd2]]]];
    [apply Forall_forall; intros i Hi; apply elem_of_seq in Hi; lia|].
  destruct Hwf1 as (Ha1 & _). destruct Hwf2 as (Ha2 & Hlab2 & Hperm2 & Hbars2 & Hlbl2).
  assert (Hb2 : sc_bars s2 <> []) by (intros E; rewrite E in Hperm2; apply Permutation_length in Hperm2;
                                      rewrite length_seq in Hperm2; destruct arr; [congruence | discriminate]).
  unfold construct_with. rewrite intro_run, bind_Ok, Hs1, bind_Ok.
  unfold sort_loops. rewrite Ha1. cbv zeta. change (length arr) with n. rewrite Hs2, bind_Ok, (sorted_display_run s2 Hb2), bind_Ok, conclusion_run.
  eexists. split; [reflexivity|]. cbn [sc_arr sc_bars bar_store label_store log]. split.
  - unfold bubble_sort. rewrite <- Harr1, Ha1. exact Hc2.
  - split; [exact Hperm2|]. split; [|split; [exact Hlbl2|]].
    + intros k b Hk. destruct (Hbars2 k b Hk) as [v [Hv Hsb]]. exists v. split; [exact Hv|].
      rewrite recolor_all_lookup, decide_True, Hsb by (eapply list_elem_of_lookup_2; exact Hk). reflexivity.
    + rewrite !duration_app. cbn [duration]. rewrite green_time by exact Hb2.
      rewrite Hl1, duration_app, Harr1 in Hd2. cbn in *. lia.
Qed.

Lemma scene_wfb_sound n s : scene_wfb n s = true -> scene_wf n s.
Proof.
  unfold scene_wfb. rewrite !andb_true_iff, !bool_decide_eq_true, !forallb_forall.
  intros [[[[Hlen Hlab] Hperm] Hb] Hl]. split; [exact Hlen|]. split; [exact Hlab|]. split; [exact Hperm|].
  assert (Hbl : length (sc_bars s) = n) by (rewrite Hperm, length_seq; reflexivity).
  split.
  - intros k b Hk. pose proof (lookup_lt_Some _ _ _ Hk) as Hlt.
    specialize (Hb k ltac:(apply in_seq; lia)). rewrite Hk in Hb.
    destruct (sc_arr s !! k) as [v|]; [|discriminate]. apply bool_decide_eq_true in Hb. eauto.
  - intros k v Hk. pose proof (lookup_lt_Some _ _ _ Hk) as Hlt.
    specialize (Hl k ltac:(apply in_seq; lia)). rewrite Hk in Hl.
    destruct (label_store s !! k) as [[t x]|]; [|discriminate].
    apply andb_true_iff in Hl as [Ht Hx]. apply bool_decide_eq_true in Ht. cbn in Ht. subst t.
    exists x. split; [reflexivity|]. apply orb_true_iff in Hx as [Hx|Hx]; apply bool_decide_eq_true in Hx; auto.
Qed.

Lemma pass_times_bound n :
  (N.of_nat n <= 10 ^ 9)%N ->
  sum_list (map (pass_time n) (py_range (n - 1))) = (4 * (n - 1) + 4 * n * (n - 1))%nat.
Proof.
  intros Hn. destruct n as [|m]; [reflexivity|]. unfold py_range.
  replace (S m - 1)%nat with m by lia. transitivity (4 * m + 4 * m * S m)%nat; [|lia]. rewrite <- pass_times.
  f_equal. apply map_ext_in. intros i Hi. apply in_seq in Hi. unfold pass_time.
  rewrite pass_write_time by lia. reflexivity.
Qed.

(** ** Properties of the scene *)

(** C23. The sort of lines 30-63 keeps the scene in step with [arr]:
    started from a state where the bars and labels show the array, it
    ends, without raising, in such a state again, with [arr] sorted as
    [bubble_sort] sorts it.  Every bar stands in the slot of its position
    with the height of the item there; every label shows its item. *)
Theorem sort_loops_invariant s :
  scene_wf (length (sc_arr s)) s ->
  exists s', sort_loops s = Ok s' /\ scene_wf (length (sc_arr s)) s' /\
    bubble_sort (sc_arr s) = Ok (sc_arr s').
Proof.
  intros Hwf. set (n := length (sc_arr s)).
  destruct (sort_passes_sim n (py_range (n - 1)) s Hwf) as [s' [Hs' [Hwf' [Hc' _]]]];
    [apply Forall_forall; intros i Hi; apply elem_of_seq in Hi; lia|].
  exists s'. split; [exact Hs'|]. split; [exact Hwf'|]. exact Hc'.
Qed.

Lemma sort_loops_invariant_witness :
  scene_wf 6 video_setup_state /\
  exists s', sort_loops video_setup_state = Ok s' /\ scene_wf 6 s' /\
    bubble_sort (sc_arr video_setup_state) = Ok (sc_arr s').
Proof.
  assert (H : scene_wf 6 video_setup_state) by (apply scene_wfb_sound; vm_compute; reflexivity).
  split; [exact H|]. exact (sort_loops_invariant video_setup_state H).
Defined.

(** C22. [construct] on a non-empty array ends with the array sorted and
    the picture showing it: the bar at position [k] is green, stands in
    slot [k] and has the height of the [k]-th smallest item. *)
Theorem construct_sorts arr :
  arr <> [] ->
  exists s, construct_with arr = Ok s /\ sc_arr s = merge_sort Z.le arr /\
    forall k v, merge_sort Z.le arr !! k = Some v ->
      exists b, sc_bars s !! k = Some b /\ bar_store s !! b = Some (Bar v (arrange_x (length arr) k) GREEN).
Proof.
  intros Hne. destruct (construct_run arr Hne) as [s [Hs [Hsort [Hperm [Hbars [_ _]]]]]].
  destruct (bubble_sort_ok arr) as [a [Ha [Hsa Hpa]]]. rewrite Ha in Hsort. injection Hsort as Ea. subst a.
  assert (Hm : sc_arr s = merge_sort Z.le arr).
  { apply (Sorted_unique Z.le); [exact Hsa | apply Sorted_merge_sort; intros x y; lia |].
    rewrite merge_sort_Permutation. exact Hpa. }
  exists s. split; [exact Hs|]. split; [exact Hm|]. intros k v Hk. rewrite <- Hm in Hk.
  assert (Hlt : (k < length (sc_bars s))%nat).
  { rewrite Hperm, length_seq, <- (Permutation_length Hpa). exact (lookup_lt_Some _ _ _ Hk). }
  destruct (lookup_lt_is_Some_2 _ _ Hlt) as [b Hb]. destruct (Hbars k b Hb) as [v' [Hv' Hsb]].
  rewrite Hk in Hv'. injection Hv' as <-. eauto.
Qed.

Lemma construct_sorts_witness :
  video_arr <> [] /\
  exists s, construct_with video_arr = Ok s /\ sc_arr s = merge_sort Z.le video_arr /\
    forall k v, merge_sort Z.le video_arr !! k = Some v ->
      exists b, sc_bars s !! k = Some b /\ bar_store s !! b = Some (Bar v (arrange_x (length video_arr) k) GREEN).
Proof. split; [discriminate | apply construct_sorts; discriminate]. Defined.

(** C24. The animation of [n] items lasts [16 + 2(n - 1) + 2n(n - 1)]
    seconds plus two seconds per inversion of the input (each swap plays
    the one-second move of the bars and the one-second fade-in of the
    labels); the statement counts half seconds, [32 + 4(n - 1) +
    4n(n - 1) + 4 inversions].  For [arr = [5, 2, 4, 6, 1, 3]] (9
    inversions) that is 104 seconds, while the comments of video.py lay
    out a 23-second timeline. *)
Theorem construct_duration arr :
  arr <> [] -> (N.of_nat (length arr) <= 10 ^ 9)%N ->
  exists s, construct_with arr = Ok s /\
    duration (log s) =
      (32 + 4 * (length arr - 1) + 4 * length arr * (length arr - 1) + 4 * inversions arr)%nat.
Proof.
  intros Hne Hn. destruct (construct_run arr Hne) as [s [Hs [Hsort [_ [_ [_ Hd]]]]]].
  destruct (bubble_sort_ok arr) as [a [Ha [Hsa _]]]. rewrite Ha in Hsort. injection Hsort as Ea. subst a.
  rewrite inversions_sorted, pass_times_bound in Hd by assumption. exists s. split; [exact Hs | lia].
Qed.

Lemma construct_duration_witness :
  exists s, construct_with video_arr = Ok s /\ duration (log s) = 208%nat.
Proof.
  destruct (construct_duration video_arr ltac:(discriminate) ltac:(vm_compute; discriminate)) as [s [Hs Hd]].
  exists s. split; [exact Hs|]. rewrite Hd. vm_compute. reflexivity.
Defined.

Lemma arrange_x_even n k : Nat.Even n -> arrange_x n k <> 0.
Proof. intros [m ->]. unfold arrange_x. lia. Qed.

(** C25. Lines 16-18 place each label above its bar before line 23 moves
    the bars, and nothing moves the labels: in the display of line 26
    every label is still at the centre.  With an even number of items no
    bar is at the centre, so no label stands above its bar. *)
Theorem setup_labels_misplaced arr lg s :
  setup arr (Scene [] [] [] [] [] lg) = Ok s -> Nat.Even (length arr) ->
  forall k b, sc_bars s !! k = Some b ->
    exists br v, bar_store s !! b = Some br /\ label_store s !! k = Some (Label (pretty v) 0) /\
      bar_height br = v /\ label_x (Label (pretty v) 0) <> bar_x br.
Proof.
  intros Hs Hev k b Hk. destruct (setup_spec arr lg) as [s' [Hs' [Hwf [Harr [_ Hlbl]]]]].
  rewrite Hs in Hs'. injection Hs' as <-. destruct Hwf as (_ & _ & _ & Hbars & _).
  destruct (Hbars k b Hk) as [v [Hv Hsb]]. exists (Bar v (arrange_x (length arr) k) BLUE), v.
  rewrite Harr in Hv. split; [exact Hsb|]. split; [exact (Hlbl k v Hv)|]. split; [reflexivity|].
  cbn. apply not_eq_sym, arrange_x_even, Hev.
Qed.

Lemma setup_labels_misplaced_witness :
  setup video_arr (Scene [] [] [] [] [] []) = Ok video_setup_only /\ Nat.Even (length video_arr) /\
  forall k b, sc_bars video_setup_only !! k = Some b ->
    exists br v, bar_store video_setup_only !! b = Some br /\
      label_store video_setup_only !! k = Some (Label (pretty v) 0) /\
      bar_height br = v /\ label_x (Label (pretty v) 0) <> bar_x br.
Proof.
  assert (H1 : setup video_arr (Scene [] [] [] [] [] []) = Ok video_setup_only) by (vm_compute; reflexivity).
  assert (H2 : Nat.Even (length video_arr)) by (exists 3%nat; reflexivity).
  split; [exact H1|]. split; [exact H2|]. exact (setup_labels_misplaced video_arr [] _ H1 H2).
Defined.

(** video.py as written: every position takes part in a swap in the
    first pass, so by the end every label has been re-created above its
    bar; the last frame shows 1 to 6 in order, each label in the slot of
    its bar. *)
Theorem video_final_frame :
  exists s, construct = Ok s /\ sc_arr s = [1; 2; 3; 4; 5; 6] /\
    label_store s = map (fun k => Label (pretty (Z.of_nat k + 1)) (arrange_x 6 k)) (seq 0 6).
Proof. eexists. split; [vm_compute; reflexivity|]. split; vm_compute; reflexivity. Qed.
